(** * Four-phase playlist cover changer (cover-change-test/cover-change.py)

    A shallow embedding of the solar-phase scheduler: the parsing of the
    [--debug] override, the sunrise/sunset lookup with its static fallback,
    the computation of the four phase starts, the phase resolver, the
    scheduler's job table and the persisted cover state.

    Conventions of the embedding.
    - A [datetime] is its wall-clock reading, counted in microseconds from
      0001-01-01T00:00, together with an optional UTC offset ([tzinfo]).
      Python's datetime covers the years 1..9999: an addition, a subtraction
      or a conversion whose operands come from the reply of the remote
      service or from the float settings raises [OverflowError] when its
      result leaves that range ([datetime_add], [datetime_sub],
      [astimezone]).  The system clock is taken to be at least two days
      inside the range (a field of [clock]), so the steps of one day from a
      clock reading, and the conversion of the naive datetimes derived from
      one, cannot leave it and are written without the check.
    - A [datetime.timedelta] is an integer number of microseconds.  The three
      float settings MORNING_DURATION, EVENING_DURATION and TIME_OFFSET are
      binary64 values ([float]); [timedelta_hours] is
      [datetime.timedelta(hours=...)] on such a value, as CPython computes
      it: rounded to the microsecond, raising on NaN, on an infinity and
      beyond 999999999 days.
    - Strings are strings of ASCII characters: the command line and the
      reply of the remote service are taken to hold no character beyond 127.
    - Python exceptions are values of [exn]; a computation that may raise
      returns a [result].  Only subclasses of [Exception] occur.
    - The dictionaries keyed by phase name and the scheduler's job table are
      finite maps ([gmap]); a decoded JSON object is a list of pairs.
    - One call reads the system clock once: the readings that the source
      takes in the course of a call are all the same [clock] value.
    - The surroundings of a call (the reply of the remote service, the
      behaviour of Spotify and of the file system) are arguments; the state
      that a call changes (the job table, the state file, the calls made so
      far) is passed in and handed back. *)

From Stdlib Require Import ZArith Lia Bool List Ascii String.
From Stdlib Require Floats.SpecFloat.
From stdpp Require Import base option strings list gmap fin_maps.

Local Open Scope string_scope.
Local Open Scope Z_scope.

#[local] Set Warnings "-clear-no-such-hyp".

(** ** Exceptions and results *)

Inductive exn : Type :=
  | ValueError | KeyError | TypeError | IndexError | AttributeError
  | OverflowError | RequestException | JSONDecodeError | OSError | SpotifyException.

Inductive result (A : Type) : Type :=
  | Ok (a : A)
  | Raise (e : exn).
Arguments Ok {A} a.
Arguments Raise {A} e.

Global Instance result_ret : MRet result := fun A a => Ok a.
Global Instance result_bind : MBind result := fun A B k m =>
  match m with
  | Ok a => k a
  | Raise e => Raise e
  end.

Definition is_ok {A : Type} (m : result A) : bool :=
  match m with Ok _ => true | Raise _ => false end.

(** ** Time *)

Definition second_us : Z := 1000000.
Definition minute_us : Z := 60 * second_us.
Definition hour_us : Z := 60 * minute_us.
Definition day_us : Z := 24 * hour_us.

(** [datetime.timedelta(hours=h)] and [datetime.timedelta(days=d)] for whole
    [h] and [d]. *)
Definition hours (h : Z) : Z := h * hour_us.
Definition days (d : Z) : Z := d * day_us.

Record datetime : Type := mk_datetime {
  wall : Z;
  tzinfo : option Z
}.

Definition naive (w : Z) : datetime := mk_datetime w None.
Definition aware (w off : Z) : datetime := mk_datetime w (Some off).

(** The instant on the UTC time line that an aware datetime denotes. *)
Definition utc_instant (dt : datetime) : Z :=
  wall dt - default 0 (tzinfo dt).

(** The arithmetic of [dt + delta] and [dt - delta]: the wall clock moves,
    [tzinfo] is kept. *)
Definition dt_add (dt : datetime) (delta : Z) : datetime :=
  mk_datetime (wall dt + delta) (tzinfo dt).
Definition dt_sub (dt : datetime) (delta : Z) : datetime :=
  mk_datetime (wall dt - delta) (tzinfo dt).

(** The wall clocks a datetime can hold: 0001-01-01T00:00:00 up to
    9999-12-31T23:59:59.999999, the last day being day 3652058. *)
Definition max_wall : Z := 3652059 * day_us.
Definition in_range (w : Z) : bool := (0 <=? w) && (w <? max_wall).

(** [dt + delta] and [dt - delta] themselves: [OverflowError] when the
    result would leave the range. *)
Definition datetime_add (dt : datetime) (delta : Z) : result datetime :=
  if in_range (wall dt + delta) then Ok (dt_add dt delta)
  else Raise OverflowError.
Definition datetime_sub (dt : datetime) (delta : Z) : result datetime :=
  if in_range (wall dt - delta) then Ok (dt_sub dt delta)
  else Raise OverflowError.

(** [a < b]: two naive values compare their wall clocks, two aware values
    their instants, and a mixed comparison raises [TypeError]. *)
Definition dt_lt (a b : datetime) : result bool :=
  match tzinfo a, tzinfo b with
  | None, None => Ok (wall a <? wall b)
  | Some oa, Some ob => Ok (wall a - oa <? wall b - ob)
  | _, _ => Raise TypeError
  end.
Definition dt_gt (a b : datetime) : result bool := dt_lt b a.

(** [dt.date()] as a day number, [dt.time()] as microseconds into the day,
    and [dt.replace(tzinfo=tz)]. *)
Definition date_of (dt : datetime) : Z := wall dt / day_us.
Definition time_of (dt : datetime) : Z := wall dt mod day_us.
Definition replace_tzinfo (dt : datetime) (tz : option Z) : datetime :=
  mk_datetime (wall dt) tz.

(** [datetime.time(h, m)] rejects fields out of range. *)
Definition mk_time (h m : Z) : result Z :=
  if (0 <=? h) && (h <=? 23) && (0 <=? m) && (m <=? 59)
  then Ok (h * hour_us + m * minute_us)
  else Raise ValueError.

(** [datetime.datetime.combine(date, time)], a naive datetime. *)
Definition combine (date time : Z) : datetime := naive (date * day_us + time).

(** The readings of the system clock the model admits: at least two days
    inside the range of the datetime type. *)
Definition clock_range (w : Z) : bool :=
  (2 * day_us <=? w) && (w <? max_wall - 2 * day_us).

(** What the process reads from the system clock and the system time zone:
    [datetime.datetime.now()] (naive, local) and its [.month]; the UTC offset
    the time zone assigns to a local wall-clock reading ([local_offset], as
    [mktime] resolves it) and the offset in force at an instant of the UTC
    time line ([utc_offset], as [localtime] gives it).  The two agree on a
    reading that exists, as the reading of the clock itself does, and differ
    on one that a change of the clocks skips. *)
Record clock : Type := mk_clock {
  now_wall : Z;
  now_month : Z;
  local_offset : Z -> Z;
  utc_offset : Z -> Z;
  now_in_range : clock_range now_wall = true;
  now_exists :
    utc_offset (now_wall - local_offset now_wall) = local_offset now_wall
}.

Definition datetime_now (clk : clock) : datetime := naive (now_wall clk).

(** [dt.astimezone()] on a naive [dt] with wall clock [w]: the reading is
    taken as system local time and moved to UTC with the offset assigned to
    it, and the result is expressed with the offset in force at that
    instant.  The naive datetimes of the program (the clock's own reading,
    the entries of [DEBUG_TIMES]) lie within a day of a clock reading, so the
    two steps stay within the range. *)
Definition astimezone_local (clk : clock) (w : Z) : datetime :=
  let utc := w - local_offset clk w in
  aware (utc + utc_offset clk utc) (utc_offset clk utc).

(** [dt.astimezone(tz)] for a fixed-offset [tz]: [dt - offset] is formed
    first, then [tz.fromutc] adds the offset of [tz]; either step raises
    [OverflowError] out of range.  A naive [dt] is taken as system local
    time. *)
Definition astimezone (clk : clock) (tz : Z) (dt : datetime) : result datetime :=
  let off := match tzinfo dt with
             | None => local_offset clk (wall dt)
             | Some off => off
             end in
  utc ← datetime_sub (aware (wall dt) 0) off;
  datetime_add (aware (wall utc) tz) tz.

(** [datetime.datetime.now().astimezone().tzinfo] *)
Definition local_timezone (clk : clock) : Z := local_offset clk (now_wall clk).

Definition get_now_with_tzinfo (clk : clock) : datetime :=
  astimezone_local clk (wall (datetime_now clk)).

Definition ensure_timezone_aware (clk : clock) (dt : datetime) : datetime :=
  match tzinfo dt with
  | None => astimezone_local clk (wall dt)
  | Some _ => dt
  end.

(** ** Strings: [str.split], [str.strip], [int] *)

Fixpoint split_on (sep : ascii) (s : string) : list string :=
  match s with
  | EmptyString => [EmptyString]
  | String c s' =>
      if Ascii.eqb c sep then EmptyString :: split_on sep s'
      else match split_on sep s' with
           | [] => [String c EmptyString]
           | w :: ws => String c w :: ws
           end
  end.

(** White space among the ASCII characters as [str.strip] sees it, and as
    [int] does: the separators 28..31 count for the first only.  (Beyond
    ASCII, which the model leaves out, both functions know further white
    space and [int] further digits.) *)
Definition is_space (c : ascii) : bool :=
  let n := Z.of_N (N_of_ascii c) in
  (n =? 32) || ((9 <=? n) && (n <=? 13)) || ((28 <=? n) && (n <=? 31)).

Definition is_c_space (c : ascii) : bool :=
  let n := Z.of_N (N_of_ascii c) in
  (n =? 32) || ((9 <=? n) && (n <=? 13)).

Fixpoint lstrip (space : ascii -> bool) (s : string) : string :=
  match s with
  | String c s' => if space c then lstrip space s' else s
  | EmptyString => EmptyString
  end.

Fixpoint rstrip (space : ascii -> bool) (s : string) : string :=
  match s with
  | EmptyString => EmptyString
  | String c s' =>
      match rstrip space s' with
      | EmptyString => if space c then EmptyString else String c EmptyString
      | r => String c r
      end
  end.

Definition strip (s : string) : string := lstrip is_space (rstrip is_space s).

Definition digit_of (c : ascii) : option Z :=
  let n := Z.of_N (N_of_ascii c) in
  if (48 <=? n) && (n <=? 57) then Some (n - 48) else None.

(** Decimal digits, single underscores allowed between two digits. *)
Fixpoint parse_digits (s : string) (acc : Z) (after_digit : bool) : option Z :=
  match s with
  | EmptyString => if after_digit then Some acc else None
  | String c s' =>
      match digit_of c with
      | Some d => parse_digits s' (10 * acc + d) true
      | None =>
          if Ascii.eqb c "_" && after_digit then parse_digits s' acc false
          else None
      end
  end.

(** How many digits a string holds. *)
Fixpoint digit_count (s : string) : Z :=
  match s with
  | EmptyString => 0
  | String c s' =>
      match digit_of c with Some _ => 1 | None => 0 end + digit_count s'
  end.

(** [int(s)] on a string of ASCII characters; a numeral of more than 4300
    digits is refused ([sys.get_int_max_str_digits()]). *)
Definition int_of_string (s : string) : result Z :=
  let body :=
    match lstrip is_c_space (rstrip is_c_space s) with
    | String "-" r => option_map Z.opp (parse_digits r 0 false)
    | String "+" r => parse_digits r 0 false
    | r => parse_digits r 0 false
    end in
  match body with
  | Some n => if digit_count s <=? 4300 then Ok n else Raise ValueError
  | None => Raise ValueError
  end.

(** [a, b = map(int, s.split(':'))] *)
Definition parse_hh_mm (s : string) : result (Z * Z) :=
  match split_on ":" s with
  | [a; b] => h ← int_of_string a; m ← int_of_string b; Ok (h, m)
  | a :: b :: _ :: _ => _ ← int_of_string a; _ ← int_of_string b; Raise ValueError
  | [a] => _ ← int_of_string a; Raise ValueError
  | [] => Raise ValueError
  end.

(** ** Floats and [datetime.timedelta(hours=...)] *)

(** A Python float: an IEEE 754 binary64 value. *)
Definition float : Type := SpecFloat.spec_float.

Definition float_mul : float -> float -> float := SpecFloat.SFmul 53 1024.

(** [float(z)] for an integer that a binary64 holds exactly. *)
Definition float_of_Z (z : Z) : float :=
  SpecFloat.binary_normalize 53 1024 z 0 false.

(** [x != 0]: true of a NaN, false of either zero. *)
Definition float_ne_zero (x : float) : bool :=
  negb (SpecFloat.SFeqb x (SpecFloat.S754_zero false)).

(** C's [modf] on a finite value: the integral part, which is exact, and the
    fractional part, of the same sign. *)
Definition modf (x : float) : Z * float :=
  match x with
  | SpecFloat.S754_finite s m e =>
      if 0 <=? e then
        (SpecFloat.cond_Zopp s (Z.pos m * 2 ^ e), SpecFloat.S754_zero s)
      else
        let d := 2 ^ (- e) in
        (SpecFloat.cond_Zopp s (Z.pos m / d),
         match Z.pos m mod d with
         | Z.pos r => SpecFloat.S754_finite s r e
         | _ => SpecFloat.S754_zero s
         end)
  | _ => (0, x)
  end.

(** The rounding of the left-over fraction of a microsecond, a value
    strictly between -1 and 1, to the nearest whole number; a tie goes to
    the side that makes the total [x] even. *)
Definition round_leftover (x : Z) (leftover : float) : Z :=
  match leftover with
  | SpecFloat.S754_finite s m e =>
      match 2 * Z.pos m ?= 2 ^ (- e) with
      | Lt => 0
      | Gt => SpecFloat.cond_Zopp s 1
      | Eq => if Z.odd x then SpecFloat.cond_Zopp s 1 else 0
      end
  | _ => 0
  end.

(** [datetime.timedelta(hours=h)] for a float [h], in microseconds.  The
    whole hours are converted exactly; the fraction is multiplied by
    3600000000 in binary64, and what is left below the microsecond is
    rounded half to even.  A NaN raises [ValueError], an infinity and more
    than 999999999 days raise [OverflowError]. *)
Definition timedelta_hours (h : float) : result Z :=
  match h with
  | SpecFloat.S754_nan => Raise ValueError
  | SpecFloat.S754_infinity _ => Raise OverflowError
  | _ =>
      let '(intpart, fracpart) := modf h in
      let sum := intpart * 3600000000 in
      let '(intpart', leftover) :=
        modf (float_mul (float_of_Z 3600000000) fracpart) in
      let x := sum + intpart' in
      let us := x + round_leftover x leftover in
      if (-999999999 <=? us / day_us) && (us / day_us <=? 999999999)
      then Ok us else Raise OverflowError
  end.

(** ** Configuration *)

Definition phases : list string := ["morning"; "day"; "evening"; "night"].

(** The module-level settings.  [MORNING_DURATION], [EVENING_DURATION] and
    [TIME_OFFSET] are the floats read from the environment, in hours;
    [DEBUG_TIMES] is [None] or a dictionary of naive datetimes. *)
Record config : Type := mk_config {
  PLAYLIST_ID : string;
  MORNING_IMAGE_PATH : string;
  DAY_IMAGE_PATH : string;
  EVENING_IMAGE_PATH : string;
  NIGHT_IMAGE_PATH : string;
  MORNING_DURATION : float;
  EVENING_DURATION : float;
  TIME_OFFSET : float;
  DEBUG_MODE : bool;
  DEBUG_TIMES : option (gmap string datetime)
}.

(** A dictionary rebuilt entry by entry with a function that may raise. *)
Definition dict_map_result (f : datetime -> result datetime)
    (d : gmap string datetime) : result (gmap string datetime) :=
  map_fold (λ k v acc, m ← acc; v' ← f v; Ok (<[k := v']> m)) (Ok ∅) d.

(** One round of the loop that fills [DEBUG_TIMES]; the day after today
    exists, the clock being inside the range. *)
Definition debug_time_for (clk : clock) (time_str : string) : result datetime :=
  '(hh, mm) ← parse_hh_mm (strip time_str);
  let today := date_of (datetime_now clk) in
  t ← mk_time hh mm;
  let debug_time := combine today t in
  past ← dt_lt debug_time (datetime_now clk);
  if (past : bool) then
    (t' ← mk_time hh mm;
     Ok (combine (today + 1) t'))
  else Ok debug_time.

(** The loop over [enumerate(phases)]: the dictionary built so far is kept
    when a round raises. *)
Fixpoint debug_loop (clk : clock) (time_strings : list string)
    (i : nat) (todo : list string) (acc : gmap string datetime)
  : gmap string datetime * result unit :=
  match todo with
  | [] => (acc, Ok tt)
  | phase :: rest =>
      match time_strings !! i with
      | None => (acc, Raise IndexError)
      | Some time_str =>
          match debug_time_for clk time_str with
          | Raise e => (acc, Raise e)
          | Ok debug_time =>
              debug_loop clk time_strings (S i) rest (<[phase := debug_time]> acc)
          end
      end
  end.

(** The module-level block that reads [args.debug]: it yields the final
    values of [DEBUG_MODE] and [DEBUG_TIMES]. *)
Definition parse_debug (clk : clock) (debug : option string)
  : bool * option (gmap string datetime) :=
  match debug with
  | None => (false, None)
  | Some arg =>
      let time_strings := split_on "," arg in
      if negb (length time_strings =? 4)%nat then (false, None)
      else
        match debug_loop clk time_strings 0 phases ∅ with
        | (acc, Ok _) => (true, Some acc)
        | (acc, Raise _) => (false, Some acc)
        end
  end.

(** ** JSON values and the remote sunrise-sunset service *)

#[warnings="-register-all"]
Inductive json : Type :=
  | JNull
  | JBool (b : bool)
  | JNum (n : Z)
  | JFloat (x : float)
  | JStr (s : string)
  | JList (l : list json)
  | JDict (d : list (string * json)).

(** A decoded object keeps the last value given for a key. *)
Fixpoint dict_get (d : list (string * json)) (k : string) : option json :=
  match d with
  | [] => None
  | (k', v) :: d' =>
      match dict_get d' k with
      | Some v' => Some v'
      | None => if String.eqb k' k then Some v else None
      end
  end.

(** [v[k]] for a string key [k]. *)
Definition subscript (v : json) (k : string) : result json :=
  match v with
  | JDict d =>
      match dict_get d k with
      | Some x => Ok x
      | None => Raise KeyError
      end
  | _ => Raise TypeError
  end.

(** [v == s] for a string literal [s]. *)
Definition json_eq_str (v : json) (s : string) : bool :=
  match v with
  | JStr s' => String.eqb s' s
  | _ => false
  end.

Fixpoint replace_Z (s : string) : string :=
  match s with
  | EmptyString => EmptyString
  | String c s' =>
      if Ascii.eqb c "Z" then "+00:00" +:+ replace_Z s'
      else String c (replace_Z s')
  end.

(** [v.replace('Z', '+00:00')]: only a string has the method. *)
Definition str_replace_Z (v : json) : result string :=
  match v with
  | JStr s => Ok (replace_Z s)
  | _ => Raise AttributeError
  end.

(** What [requests.get(url)] does: it raises, or it returns a response with
    a status code whose [.json()] raises or yields a value. *)
Inductive http_reply : Type :=
  | NoReply (e : exn)
  | Reply (status_code : Z) (body : result json).

(** The static table of the fallback branch. *)
Definition sun_times : gmap Z (string * string) :=
  list_to_map
    [ (1, ("08:00", "16:00")); (2, ("07:30", "17:00")); (3, ("06:30", "18:00"));
      (4, ("06:00", "19:30")); (5, ("05:00", "20:30")); (6, ("04:30", "21:00"));
      (7, ("05:00", "21:00")); (8, ("05:30", "20:00")); (9, ("06:30", "19:00"));
      (10, ("07:00", "17:30")); (11, ("07:30", "16:00")); (12, ("08:00", "15:45")) ].

Definition getitem {K V : Type} `{Countable K} (d : gmap K V) (k : K) : result V :=
  match d !! k with
  | Some v => Ok v
  | None => Raise KeyError
  end.

Section SunTimes.

(** [datetime.datetime.fromisoformat], a function of the standard library. *)
Variable fromisoformat : string -> result datetime.

(** The body of the [try] block of [get_sun_times]: [Ok (Some p)] when it
    returns [p], [Ok None] when the [if] is not taken and control leaves
    the block, [Raise e] when one of its calls raises. *)
Definition sun_times_api (cfg : config) (clk : clock) (reply : http_reply)
  : result (option (datetime * datetime)) :=
  match reply with
  | NoReply e => Raise e
  | Reply status_code body =>
      data ← body;
      ok ← (if status_code =? 200
            then (st ← subscript data "status"; Ok (json_eq_str st "OK"))
            else Ok false);
      if (ok : bool) then
        results ← subscript data "results";
        sr ← subscript results "sunrise";
        sr ← str_replace_Z sr;
        sunrise_utc ← fromisoformat sr;
        results ← subscript data "results";
        ss ← subscript results "sunset";
        ss ← str_replace_Z ss;
        sunset_utc ← fromisoformat ss;
        let local_timezone := local_timezone clk in
        sunrise_local ← astimezone clk local_timezone sunrise_utc;
        sunset_local ← astimezone clk local_timezone sunset_utc;
        if float_ne_zero (TIME_OFFSET cfg) then
          offset ← timedelta_hours (TIME_OFFSET cfg);
          sunrise_local ← datetime_add sunrise_local offset;
          sunset_local ← datetime_add sunset_local offset;
          Ok (Some (sunrise_local, sunset_local))
        else Ok (Some (sunrise_local, sunset_local))
      else Ok None
  end.

(** The code after the [try] block. *)
Definition sun_times_fallback (cfg : config) (clk : clock)
  : result (datetime * datetime) :=
  let month := now_month clk in
  let today := date_of (datetime_now clk) in
  '(sunrise_time_str, sunset_time_str) ← getitem sun_times month;
  '(sunrise_hours, sunrise_minutes) ← parse_hh_mm sunrise_time_str;
  '(sunset_hours, sunset_minutes) ← parse_hh_mm sunset_time_str;
  let local_timezone := local_timezone clk in
  t1 ← mk_time sunrise_hours sunrise_minutes;
  let sunrise_time := combine today t1 in
  t2 ← mk_time sunset_hours sunset_minutes;
  let sunset_time := combine today t2 in
  let sunrise_time := replace_tzinfo sunrise_time (Some local_timezone) in
  let sunset_time := replace_tzinfo sunset_time (Some local_timezone) in
  if float_ne_zero (TIME_OFFSET cfg) then
    offset ← timedelta_hours (TIME_OFFSET cfg);
    sunrise_time ← datetime_add sunrise_time offset;
    sunset_time ← datetime_add sunset_time offset;
    Ok (sunrise_time, sunset_time)
  else Ok (sunrise_time, sunset_time).

Definition get_sun_times (cfg : config) (clk : clock) (reply : http_reply)
  : result (datetime * datetime) :=
  match sun_times_api cfg clk reply with
  | Ok (Some p) => Ok p
  | Ok None => sun_times_fallback cfg clk
  | Raise _ => sun_times_fallback cfg clk
  end.

(** Truth value of [DEBUG_TIMES]: neither [None] nor an empty dictionary. *)
Definition truthy (d : option (gmap string datetime)) : bool :=
  match d with
  | Some m => negb (bool_decide (m = ∅))
  | None => false
  end.

Definition calculate_phase_times (cfg : config) (clk : clock) (reply : http_reply)
  : result (gmap string datetime) :=
  if DEBUG_MODE cfg && truthy (DEBUG_TIMES cfg) then
    if float_ne_zero (TIME_OFFSET cfg) && negb (DEBUG_MODE cfg) then
      offset ← timedelta_hours (TIME_OFFSET cfg);
      dict_map_result
        (λ time, datetime_add (ensure_timezone_aware clk time) offset)
        (default ∅ (DEBUG_TIMES cfg))
    else
      Ok (ensure_timezone_aware clk <$> default ∅ (DEBUG_TIMES cfg))
  else
    '(sunrise, sunset) ← get_sun_times cfg clk reply;
    let morning_start := sunrise in
    morning_duration ← timedelta_hours (MORNING_DURATION cfg);
    day_start ← datetime_add sunrise morning_duration;
    evening_duration ← timedelta_hours (EVENING_DURATION cfg);
    evening_start ← datetime_sub sunset evening_duration;
    let night_start := sunset in
    Ok (<["night" := night_start]>
          (<["evening" := evening_start]>
             (<["day" := day_start]> {["morning" := morning_start]}))).

Definition get_current_phase (cfg : config) (clk : clock) (reply : http_reply)
  : result string :=
  let now := get_now_with_tzinfo clk in
  phase_times ← calculate_phase_times cfg clk reply;
  t ← getitem phase_times "morning";
  c ← dt_lt now t;
  if (c : bool) then Ok "night" else
  t ← getitem phase_times "day";
  c ← dt_lt now t;
  if (c : bool) then Ok "morning" else
  t ← getitem phase_times "evening";
  c ← dt_lt now t;
  if (c : bool) then Ok "day" else
  t ← getitem phase_times "night";
  c ← dt_lt now t;
  if (c : bool) then Ok "evening" else
  Ok "night".

End SunTimes.

(** ** The scheduler's job table *)

Inductive job_func : Type :=
  | change_cover_job (phase : string)
  | recalculate.

Record job : Type := mk_job {
  func : job_func;
  run_date : datetime;
  misfire_grace_time : Z
}.

(** [scheduler.add_job(func, 'date', run_date=..., id=..., replace_existing=True,
    misfire_grace_time=3600)] and [scheduler.remove_all_jobs()], on the job
    store of a scheduler that has been started: one job per id, a job added
    under an id that is taken replaces the one that was there.  (APScheduler
    is not part of the sources; before [start()] it keeps added jobs in a
    pending list and resolves the ids only at the start.) *)
Definition add_job (f : job_func) (run : datetime) (id : string)
    (jobs : gmap string job) : gmap string job :=
  <[id := mk_job f run 3600]> jobs.

Definition remove_all_jobs (jobs : gmap string job) : gmap string job := ∅.

(** The loop of [schedule_phase_changes]; the table built so far is kept when
    a round raises. *)
Fixpoint schedule_loop (clk : clock) (now : datetime)
    (phase_times : gmap string datetime) (todo : list string)
    (jobs : gmap string job) : gmap string job * result unit :=
  match todo with
  | [] => (jobs, Ok tt)
  | phase :: rest =>
      match getitem phase_times phase with
      | Raise e => (jobs, Raise e)
      | Ok time =>
          let time := ensure_timezone_aware clk time in
          match dt_gt time now with
          | Raise e => (jobs, Raise e)
          | Ok true =>
              schedule_loop clk now phase_times rest
                (add_job (change_cover_job phase) time phase jobs)
          | Ok false => schedule_loop clk now phase_times rest jobs
          end
      end
  end.

Definition schedule_phase_changes (clk : clock)
    (phase_times : gmap string datetime) (jobs : gmap string job)
  : gmap string job * result unit :=
  let now := get_now_with_tzinfo clk in
  schedule_loop clk now phase_times phases jobs.

Section Scheduler.

Variable fromisoformat : string -> result datetime.

(** The phase times [calculate_times_for_tomorrow] derives for the next day.
    The day added to an entry of [DEBUG_TIMES], which lies within a day of a
    clock reading, stays within the range. *)
Definition tomorrow_phase_times (cfg : config) (clk : clock) (reply : http_reply)
    (tomorrow : Z) : result (gmap string datetime) :=
  if DEBUG_MODE cfg && truthy (DEBUG_TIMES cfg) then
    let tomorrow_phases :=
      (λ time, dt_add (ensure_timezone_aware clk time) (days 1))
        <$> default ∅ (DEBUG_TIMES cfg) in
    if float_ne_zero (TIME_OFFSET cfg) && negb (DEBUG_MODE cfg) then
      offset ← timedelta_hours (TIME_OFFSET cfg);
      dict_map_result (λ time, datetime_add time offset) tomorrow_phases
    else Ok tomorrow_phases
  else
    today_phases ← calculate_phase_times fromisoformat cfg clk reply;
    Ok ((λ time, replace_tzinfo (combine tomorrow (time_of time)) (tzinfo time))
          <$> (today_phases : gmap string datetime)).

Definition calculate_times_for_tomorrow (cfg : config) (clk : clock)
    (reply : http_reply) (jobs : gmap string job)
  : gmap string job * result unit :=
  let jobs := remove_all_jobs jobs in
  let now := get_now_with_tzinfo clk in
  let tomorrow := date_of now + 1 in
  match tomorrow_phase_times cfg clk reply tomorrow with
  | Raise e => (jobs, Raise e)
  | Ok tomorrow_phases =>
      match schedule_phase_changes clk tomorrow_phases jobs with
      | (jobs, Raise e) => (jobs, Raise e)
      | (jobs, Ok _) =>
          let recalculation_time := combine tomorrow (hours 23) in
          let recalculation_time :=
            replace_tzinfo recalculation_time (tzinfo now) in
          (add_job recalculate recalculation_time "recalculate" jobs, Ok tt)
      end
  end.

Definition schedule_today_changes (cfg : config) (clk : clock)
    (reply : http_reply) (jobs : gmap string job)
  : gmap string job * result unit :=
  match calculate_phase_times fromisoformat cfg clk reply with
  | Raise e => (jobs, Raise e)
  | Ok phase_times =>
      match schedule_phase_changes clk phase_times jobs with
      | (jobs, Raise e) => (jobs, Raise e)
      | (jobs, Ok _) =>
          let now := get_now_with_tzinfo clk in
          let tomorrow := date_of now + 1 in
          let recalculation_time := combine tomorrow (1 * minute_us) in
          let recalculation_time :=
            replace_tzinfo recalculation_time (tzinfo now) in
          (add_job recalculate recalculation_time "recalculate" jobs, Ok tt)
      end
  end.

End Scheduler.

(** ** The persisted state and the cover change *)

(** The file [cover_state.json]: absent, present but not readable as JSON,
    or holding a JSON value. *)
Inductive state_file : Type :=
  | NoFile
  | Unreadable
  | Content (data : json).

(** How the two writing steps of [save_state] go: [open(STATE_FILE, 'w')]
    may raise and leave the file as it was, [json.dump] may raise after the
    file was truncated. *)
Inductive write_outcome : Type :=
  | WriteOk
  | OpenFails
  | DumpFails.

(** The Spotify client and the image encoder, as seen during one call of
    [change_playlist_cover]. *)
Record spotify : Type := mk_spotify {
  initialize_spotify : result unit;
  sp_playlist : string -> result json;
  encode_image_base64 : string -> result string;
  sp_playlist_upload_cover_image : string -> string -> result unit
}.

(** Calls that reach the Spotify service. *)
Inductive call : Type :=
  | PlaylistCall (playlist_id : string)
  | UploadCall (playlist_id encoded_image : string).

Definition is_upload (c : call) : bool :=
  match c with
  | UploadCall _ _ => true
  | PlaylistCall _ => false
  end.

Definition uploads (calls : list call) : nat := length (filter is_upload calls).

Definition load_state (f : state_file) : option json :=
  match f with
  | NoFile => None
  | Unreadable => None
  | Content data =>
      match (phase ← subscript data "phase";
             _ ← subscript data "timestamp";
             subscript data "phase") with
      | Ok phase => Some phase
      | Raise _ => None
      end
  end.

Definition get_image_path (cfg : config) (phase : string) : result string :=
  if String.eqb phase "morning" then Ok (MORNING_IMAGE_PATH cfg)
  else if String.eqb phase "day" then Ok (DAY_IMAGE_PATH cfg)
  else if String.eqb phase "evening" then Ok (EVENING_IMAGE_PATH cfg)
  else if String.eqb phase "night" then Ok (NIGHT_IMAGE_PATH cfg)
  else Raise ValueError.

(** The body of the [try] block of [change_playlist_cover], with the calls
    made so far. *)
Definition upload_cover (sp : spotify) (playlist_id image_path : string)
    (calls : list call) : list call * result unit :=
  match initialize_spotify sp with
  | Raise e => (calls, Raise e)
  | Ok _ =>
      let calls := (calls ++ [PlaylistCall playlist_id])%list in
      match (playlist_info ← sp_playlist sp playlist_id;
             subscript playlist_info "name") with
      | Raise e => (calls, Raise e)
      | Ok playlist_name =>
          match encode_image_base64 sp image_path with
          | Raise e => (calls, Raise e)
          | Ok encoded_image =>
              let calls := (calls ++ [UploadCall playlist_id encoded_image])%list in
              match sp_playlist_upload_cover_image sp playlist_id encoded_image with
              | Raise e => (calls, Raise e)
              | Ok _ => (calls, Ok tt)
              end
          end
      end
  end.

Definition change_playlist_cover (sp : spotify) (playlist_id image_path : string)
    (calls : list call) : list call * bool :=
  match upload_cover sp playlist_id image_path calls with
  | (calls, Ok _) => (calls, true)
  | (calls, Raise _) => (calls, false)
  end.

(** What one invocation of [change_cover] meets outside the process, and
    what it can change there. *)
Record env : Type := mk_env {
  e_clock : clock;
  e_reply : http_reply;
  e_spotify : spotify;
  e_write : write_outcome
}.

Record world : Type := mk_world {
  file : state_file;
  calls : list call
}.

Section Cover.

Variable fromisoformat : string -> result datetime.
(** [datetime.isoformat], a function of the standard library. *)
Variable isoformat : datetime -> string.

Definition save_state (cfg : config) (e : env) (phase : string)
    (f : state_file) : state_file :=
  match calculate_phase_times fromisoformat cfg (e_clock e) (e_reply e) with
  | Raise _ => f
  | Ok phase_times =>
      let times_iso : gmap string string := isoformat <$> phase_times in
      let data :=
        JDict [ ("phase", JStr phase);
                ("timestamp", JStr (isoformat (datetime_now (e_clock e))));
                ("playlist_id", JStr (PLAYLIST_ID cfg));
                ("phase_times",
                 JDict ((λ kv, (kv.1, JStr kv.2)) <$> map_to_list times_iso));
                ("debug_mode", JBool (DEBUG_MODE cfg));
                ("time_offset", JFloat (TIME_OFFSET cfg)) ] in
      match e_write e with
      | OpenFails => f
      | DumpFails => Unreadable
      | WriteOk => Content data
      end
  end.

Definition change_cover (cfg : config) (e : env) (phase : string) (w : world)
  : world * result unit :=
  let current_state := load_state (file w) in
  if from_option (λ v, json_eq_str v phase) false current_state then (w, Ok tt)
  else
    match get_image_path cfg phase with
    | Raise err => (w, Raise err)
    | Ok image_path =>
        match change_playlist_cover (e_spotify e) (PLAYLIST_ID cfg)
                image_path (calls w) with
        | (calls', true) =>
            (mk_world (save_state cfg e phase (file w)) calls', Ok tt)
        | (calls', false) => (mk_world (file w) calls', Ok tt)
        end
    end.

Definition set_initial_cover (cfg : config) (e : env) (w : world)
  : world * result unit :=
  match get_current_phase fromisoformat cfg (e_clock e) (e_reply e) with
  | Raise err => (w, Raise err)
  | Ok current_phase => change_cover cfg e current_phase w
  end.

End Cover.

(** ** Notions used in the statements *)

(** The clock time, in microseconds into the day, that an ["HH:MM"] entry of
    the fallback table stands for. *)
Definition clock_time (s : string) : result Z :=
  '(h, m) ← parse_hh_mm s; mk_time h m.

(** The step by which both paths of [get_sun_times] apply TIME_OFFSET to a
    datetime: nothing when the setting is zero, else the addition of
    [datetime.timedelta(hours=TIME_OFFSET)]. *)
Definition apply_offset (cfg : config) (dt : datetime) : result datetime :=
  if float_ne_zero (TIME_OFFSET cfg) then
    offset ← timedelta_hours (TIME_OFFSET cfg);
    datetime_add dt offset
  else Ok dt.

(** The exact value of a finite float, scaled by 2^1074 (a whole number for
    every binary64 value). *)
Definition float_scaled (x : float) : Z :=
  match x with
  | SpecFloat.S754_finite s m e => SpecFloat.cond_Zopp s (Z.pos m * 2 ^ (e + 1074))
  | _ => 0
  end.

(** [x + y] hours, as real numbers, are at most [span] microseconds. *)
Definition fits_in_hours (x y : float) (span : Z) : Prop :=
  (float_scaled x + float_scaled y) * hour_us <= span * 2 ^ 1074.

(** The four start instants of a schedule are in order. *)
Definition ordered (m d e n : datetime) : Prop :=
  utc_instant m <= utc_instant d /\
  utc_instant d <= utc_instant e /\
  utc_instant e <= utc_instant n.

(** A dictionary holds exactly the four given phase starts. *)
Definition schedule_of (pt : gmap string datetime) (m d e n : datetime) : Prop :=
  pt !! "morning" = Some m /\ pt !! "day" = Some d /\
  pt !! "evening" = Some e /\ pt !! "night" = Some n /\
  dom pt = list_to_set phases.

(** The place of a phase in the daily order morning, day, evening, night. *)
Definition phase_rank (p : string) : option nat :=
  if String.eqb p "morning" then Some 0%nat
  else if String.eqb p "day" then Some 1%nat
  else if String.eqb p "evening" then Some 2%nat
  else if String.eqb p "night" then Some 3%nat
  else None.

(** The configuration the module-level code can leave behind: override mode
    is on only after all four entries of [DEBUG_TIMES] were stored. *)
Definition wf_config (cfg : config) : Prop :=
  DEBUG_MODE cfg = true ->
  exists dt, DEBUG_TIMES cfg = Some dt /\ dom dt = list_to_set phases.

(** Today's clock time [t], moved to tomorrow's when it is already past. *)
Definition today_or_tomorrow (clk : clock) (t : Z) : datetime :=
  let today := date_of (datetime_now clk) in
  if today * day_us + t <? now_wall clk
  then naive ((today + 1) * day_us + t)
  else naive (today * day_us + t).

(** The job that [schedule_phase_changes] files under a phase name: none
    when the schedule has no such entry or its instant is not after [now]. *)
Definition phase_job (clk : clock) (now : datetime)
    (phase_times : gmap string datetime) (phase : string) : option job :=
  match phase_times !! phase with
  | Some time =>
      let time := ensure_timezone_aware clk time in
      if utc_instant now <? utc_instant time
      then Some (mk_job (change_cover_job phase) time 3600)
      else None
  | None => None
  end.

(** ** Sample surroundings *)

(** Three clock readings of a host on UTC: 12:00 and 20:30 on 2024-06-15
    (day 739051 after 0001-01-01) and 00:01 on the day after. *)
Definition noon : clock :=
  mk_clock (739051 * day_us + hours 12) 6 (λ _, 0) (λ _, 0) eq_refl eq_refl.

Definition half_past_eight : clock :=
  mk_clock (739051 * day_us + hours 20 + 30 * minute_us) 6 (λ _, 0) (λ _, 0) eq_refl eq_refl.

Definition after_midnight : clock :=
  mk_clock (739052 * day_us + 1 * minute_us) 6 (λ _, 0) (λ _, 0) eq_refl eq_refl.

(** The default settings: three hours of morning, two of evening, one hour of
    offset; without an override, and with the override [arg] read at [clk]. *)
Definition solar_config : config :=
  mk_config "playlist" "images/morning.jpg" "images/day.jpg"
    "images/evening.jpg" "images/night.jpg"
    (float_of_Z 3) (float_of_Z 2) (float_of_Z 1) false None.

Definition override_config (clk : clock) (arg : string) : config :=
  mk_config "playlist" "images/morning.jpg" "images/day.jpg"
    "images/evening.jpg" "images/night.jpg"
    (float_of_Z 3) (float_of_Z 2) (float_of_Z 1)
    (parse_debug clk (Some arg)).1 (parse_debug clk (Some arg)).2.

(** The default settings with another TIME_OFFSET, and with other
    durations. *)
Definition offset_config (x : float) : config :=
  mk_config "playlist" "images/morning.jpg" "images/day.jpg"
    "images/evening.jpg" "images/night.jpg"
    (float_of_Z 3) (float_of_Z 2) x false None.

Definition duration_config (morning evening : float) : config :=
  mk_config "playlist" "images/morning.jpg" "images/day.jpg"
    "images/evening.jpg" "images/night.jpg"
    morning evening (float_of_Z 1) false None.

(** The float 1.5277777777777777e-09 (0x1.a3f3cdb90ab63p-30): in hours, a
    little less than five and a half microseconds. *)
Definition brief : float := SpecFloat.S754_finite false 7387880008756067 (-82).

(** A remote service that cannot be reached, a parser that rejects every
    string and a stand-in for [isoformat]. *)
Definition no_network : http_reply := NoReply RequestException.

Definition no_parser : string -> result datetime := λ _, Raise ValueError.

Definition no_format : datetime -> string := λ _, "2024-06-15T12:00:00".

(** A reply of the service for 2024-06-15 and a parser that knows the two
    timestamps of that reply. *)
Definition london_reply : http_reply :=
  Reply 200
    (Ok (JDict [ ("results",
                  JDict [ ("sunrise", JStr "2024-06-15T03:43:07+00:00");
                          ("sunset", JStr "2024-06-15T20:19:35+00:00") ]);
                 ("status", JStr "OK") ])).

Definition london_parser : string -> result datetime := λ s,
  if String.eqb s "2024-06-15T03:43:07+00:00"
  then Ok (aware (739051 * day_us + hours 3 + 43 * minute_us + 7 * second_us) 0)
  else if String.eqb s "2024-06-15T20:19:35+00:00"
  then Ok (aware (739051 * day_us + hours 20 + 19 * minute_us + 35 * second_us) 0)
  else Raise ValueError.

(** A well-formed reply dated on the last day the datetime type holds, with
    its parser: sunrise at 20:30 and sunset at 22:00 UTC of 9999-12-31. *)
Definition last_day_reply : http_reply :=
  Reply 200
    (Ok (JDict [ ("results",
                  JDict [ ("sunrise", JStr "9999-12-31T20:30:00+00:00");
                          ("sunset", JStr "9999-12-31T22:00:00+00:00") ]);
                 ("status", JStr "OK") ])).

Definition last_day_parser : string -> result datetime := λ s,
  if String.eqb s "9999-12-31T20:30:00+00:00"
  then Ok (aware (3652058 * day_us + hours 20 + 30 * minute_us) 0)
  else if String.eqb s "9999-12-31T22:00:00+00:00"
  then Ok (aware (3652058 * day_us + hours 22) 0)
  else Raise ValueError.

(** A reply whose sunset comes eleven microseconds after its sunrise, with
    its parser. *)
Definition brief_reply : http_reply :=
  Reply 200
    (Ok (JDict [ ("results",
                  JDict [ ("sunrise", JStr "2024-06-15T12:00:00+00:00");
                          ("sunset", JStr "2024-06-15T12:00:00.000011+00:00") ]);
                 ("status", JStr "OK") ])).

Definition brief_parser : string -> result datetime := λ s,
  if String.eqb s "2024-06-15T12:00:00+00:00"
  then Ok (aware (739051 * day_us + hours 12) 0)
  else if String.eqb s "2024-06-15T12:00:00.000011+00:00"
  then Ok (aware (739051 * day_us + hours 12 + 11) 0)
  else Raise ValueError.

(** With the service out of reach on 2024-06-15, the fallback entry of June
    (04:30, 21:00) and the offset of one hour give sunrise at 05:30 and
    sunset at 22:00, hence the phase starts 05:30, 08:30, 20:00 and 22:00. *)
Definition june_sunrise : datetime :=
  aware (739051 * day_us + hours 5 + 30 * minute_us) 0.
Definition june_sunset : datetime := aware (739051 * day_us + hours 22) 0.
Definition june_day_start : datetime :=
  aware (739051 * day_us + hours 8 + 30 * minute_us) 0.
Definition june_evening_start : datetime := aware (739051 * day_us + hours 20) 0.

Definition june_schedule : gmap string datetime :=
  <["night" := june_sunset]>
    (<["evening" := june_evening_start]>
       (<["day" := june_day_start]> {["morning" := june_sunrise]})).

(** The schedule of the day after, computed the same way at 00:01. *)
Definition next_day_schedule : gmap string datetime :=
  <["night" := aware (739052 * day_us + hours 22) 0]>
    (<["evening" := aware (739052 * day_us + hours 20) 0]>
       (<["day" := aware (739052 * day_us + hours 8 + 30 * minute_us) 0]>
          {["morning" := aware (739052 * day_us + hours 5 + 30 * minute_us) 0]})).

(** The job table of a process started at noon with the override
    "06:00,09:00,18:00,21:00", the morning job it holds, and the table the
    recomputation of 00:01 leaves behind. *)
Definition jobs_at_noon : gmap string job :=
  (schedule_today_changes no_parser
     (override_config noon "06:00,09:00,18:00,21:00") noon no_network ∅).1.

Definition pending_morning : job :=
  mk_job (change_cover_job "morning") (aware (739052 * day_us + hours 6) 0) 3600.

Definition jobs_after_midnight : gmap string job :=
  (calculate_times_for_tomorrow no_parser
     (override_config noon "06:00,09:00,18:00,21:00")
     after_midnight no_network jobs_at_noon).1.

(** A Spotify service that accepts the upload and one that rejects it; what
    an invocation of [change_cover] meets in either case; a process that has
    no state file and has made no call yet. *)
Definition spotify_ok : spotify :=
  mk_spotify (Ok tt) (λ _, Ok (JDict [("name", JStr "Daylight")]))
    (λ _, Ok "aW1hZ2U=") (λ _ _, Ok tt).

Definition spotify_rejects : spotify :=
  mk_spotify (Ok tt) (λ _, Ok (JDict [("name", JStr "Daylight")]))
    (λ _, Ok "aW1hZ2U=") (λ _ _, Raise SpotifyException).

Definition env_ok : env := mk_env noon no_network spotify_ok WriteOk.
Definition env_rejects : env := mk_env noon no_network spotify_rejects DumpFails.
Definition fresh_world : world := mk_world NoFile [].

(** ** Further functions of the module *)

(** The helper [ensure_timezone_consistency]. *)
Definition ensure_timezone_consistency (dt1 dt2 : datetime) : datetime * datetime :=
  match tzinfo dt1, tzinfo dt2 with
  | Some tz, None => (dt1, replace_tzinfo dt2 (Some tz))
  | None, Some tz => (replace_tzinfo dt1 (Some tz), dt2)
  | _, _ => (dt1, dt2)
  end.

(** ** Further notions used in the statements *)

(** The clock time that one field of the override stands for. *)
Definition field_time (s : string) : result Z :=
  '(h, m) ← parse_hh_mm (strip s); mk_time h m.

(** The dictionary of an override with the clock times [t1] to [t4]. *)
Definition override_times (clk : clock) (t1 t2 t3 t4 : Z) : gmap string datetime :=
  <["night" := today_or_tomorrow clk t4]>
    (<["evening" := today_or_tomorrow clk t3]>
       (<["day" := today_or_tomorrow clk t2]>
          (<["morning" := today_or_tomorrow clk t1]> ∅))).

(** A configuration with its override switched off and forgotten. *)
Definition without_override (cfg : config) : config :=
  mk_config (PLAYLIST_ID cfg) (MORNING_IMAGE_PATH cfg) (DAY_IMAGE_PATH cfg)
    (EVENING_IMAGE_PATH cfg) (NIGHT_IMAGE_PATH cfg)
    (MORNING_DURATION cfg) (EVENING_DURATION cfg) (TIME_OFFSET cfg) false None.

(** Every job is filed under the name that says what it does, a phase job
    under its phase and the recomputation under ["recalculate"], and is
    given one hour of grace. *)
Definition job_table_ok (jobs : gmap string job) : Prop :=
  forall id j, jobs !! id = Some j ->
    misfire_grace_time j = 3600 /\
    ((id = "recalculate" /\ func j = recalculate) \/
     (id ∈ phases /\ func j = change_cover_job id)).

(** A run of cover changes, one after the other, in the same surroundings. *)
Fixpoint run_changes (fromisoformat : string -> result datetime)
    (isoformat : datetime -> string) (cfg : config) (e : env)
    (todo : list string) (w : world) : world :=
  match todo with
  | [] => w
  | phase :: rest =>
      run_changes fromisoformat isoformat cfg e rest
        (change_cover fromisoformat isoformat cfg e phase w).1
  end.

(** The stored state names the phase. *)
Definition state_is (state : option json) (phase : string) : bool :=
  from_option (λ v, json_eq_str v phase) false state.

(** How many entries of a run differ from the state that precedes them. *)
Fixpoint transitions (state : option json) (todo : list string) : nat :=
  match todo with
  | [] => 0%nat
  | phase :: rest =>
      ((if state_is state phase then 0 else 1)
       + transitions (Some (JStr phase)) rest)%nat
  end.

(** A Spotify service and an image encoder that do all they are asked. *)
Definition spotify_works (sp : spotify) : Prop :=
  initialize_spotify sp = Ok tt /\
  (forall id, exists info name,
     sp_playlist sp id = Ok info /\ subscript info "name" = Ok name) /\
  (forall path, exists encoded, encode_image_base64 sp path = Ok encoded) /\
  (forall id encoded, sp_playlist_upload_cover_image sp id encoded = Ok tt).

(** ** The image helpers *)

Section Images.

(** An image held by the imaging library. *)
Variable image : Type.

(** The file system and the imaging library as [resize_image_if_needed] uses
    them: [os.path.getsize], reading the whole file, the import of PIL,
    [Image.open], [img.save(buffer, format="JPEG", quality=q)] followed by
    [buffer.getvalue()], and
    [img.resize((int(width * 0.9), int(height * 0.9)), Image.LANCZOS)]. *)
Record imaging : Type := mk_imaging {
  getsize : string -> result Z;
  read_file : string -> result string;
  import_pil : result unit;
  image_open : string -> result image;
  image_save : image -> Z -> result string;
  image_shrink : image -> result image
}.

(** [len(data) / 1024 <= max_size_kb]: the division by a power of two is
    exact, so the test compares byte counts. *)
Definition fits (max_size_kb : Z) (size : Z) : bool := size <=? 1024 * max_size_kb.

(** The [while True] loop, run for at most [fuel] rounds; [None] when the
    rounds are used up. *)
Fixpoint resize_loop (lib : imaging) (max_size_kb : Z) (fuel : nat)
    (img : image) (quality : Z) : option (result string) :=
  match fuel with
  | O => None
  | S fuel =>
      match image_save lib img quality with
      | Raise e => Some (Raise e)
      | Ok img_data =>
          if fits max_size_kb (Z.of_nat (String.length img_data))
          then Some (Ok img_data)
          else
            let quality := quality - 5 in
            if quality <? 70 then
              match image_shrink lib img with
              | Raise e => Some (Raise e)
              | Ok img => resize_loop lib max_size_kb fuel img 85
              end
            else resize_loop lib max_size_kb fuel img quality
      end
  end.

Definition resize_image_if_needed (lib : imaging) (fuel : nat)
    (image_path : string) (max_size_kb : Z) : option (result string) :=
  match getsize lib image_path with
  | Raise e => Some (Raise e)
  | Ok original_size =>
      if fits max_size_kb original_size then Some (read_file lib image_path)
      else
        match import_pil lib with
        | Raise _ => Some (read_file lib image_path)
        | Ok _ =>
            match image_open lib image_path with
            | Raise _ => Some (read_file lib image_path)
            | Ok img =>
                match resize_loop lib max_size_kb fuel img 95 with
                | None => None
                | Some (Ok img_data) => Some (Ok img_data)
                | Some (Raise _) => Some (read_file lib image_path)
                end
            end
        end
  end.

(** [base64.b64encode(data).decode("utf-8")], a function of the standard
    library. *)
Variable b64encode : string -> string.

Definition encode_image (lib : imaging) (fuel : nat) (image_path : string)
  : option (result string) :=
  match resize_image_if_needed lib fuel image_path 190 with
  | None => None
  | Some (Ok image_data) => Some (Ok (b64encode image_data))
  | Some (Raise e) => Some (Raise e)
  end.

(** The rounds of the loop: how often the image has been shrunk and with
    which quality it is saved in round [i], counted from 0. *)
Fixpoint resize_round (i : nat) : nat * Z :=
  match i with
  | O => (O, 95)
  | S i =>
      let '(shrunk, quality) := resize_round i in
      if quality - 5 <? 70 then (S shrunk, 85) else (shrunk, quality - 5)
  end.

(** The image after [n] shrinkings. *)
Fixpoint shrunk (lib : imaging) (n : nat) (img : image) : result image :=
  match n with
  | O => Ok img
  | S n => img' ← shrunk lib n img; image_shrink lib img'
  end.

(** What round [i] saves, starting from [img]. *)
Definition round_data (lib : imaging) (img : image) (i : nat) : result string :=
  img' ← shrunk lib (resize_round i).1 img;
  image_save lib img' (resize_round i).2.

End Images.

Arguments getsize {image} _ _.
Arguments read_file {image} _ _.
Arguments import_pil {image} _.
Arguments image_open {image} _ _.
Arguments image_save {image} _ _ _.
Arguments image_shrink {image} _ _.
Arguments resize_loop {image} _ _ _ _ _.
Arguments resize_image_if_needed {image} _ _ _ _.
Arguments encode_image {image} _ _ _ _.
Arguments shrunk {image} _ _ _.
Arguments round_data {image} _ _ _.

(** What the scheduler does when a job fires: a phase job runs
    [change_cover_job], which calls [change_cover]; the recomputation runs
    [calculate_times_for_tomorrow]. *)
Definition run_job (fromisoformat : string -> result datetime)
    (isoformat : datetime -> string) (cfg : config) (e : env) (f : job_func)
    (w : world) (jobs : gmap string job)
  : world * gmap string job * result unit :=
  match f with
  | change_cover_job phase =>
      let '(w', r) := change_cover fromisoformat isoformat cfg e phase w in
      (w', jobs, r)
  | recalculate =>
      let '(jobs', r) :=
        calculate_times_for_tomorrow fromisoformat cfg (e_clock e) (e_reply e) jobs in
      (w, jobs', r)
  end.

(** ** Further sample surroundings *)

(** A configuration started at noon with an override whose second field is
    no clock time, a clock reading of 12:00 three days later, and
    surroundings in which Spotify works but the state file cannot be
    opened. *)
Definition rejected_config : config :=
  override_config noon "06:00,25:00,18:00,21:00".

Definition three_days_later : clock :=
  mk_clock (739054 * day_us + hours 12) 6 (λ _, 0) (λ _, 0) eq_refl eq_refl.

Definition env_read_only : env := mk_env noon no_network spotify_ok OpenFails.

(** A toy imaging library: an image is the length of its side, saving it
    yields [side * quality] bytes, shrinking takes nine tenths of the side;
    the file on disk has 1500 bytes and holds an image of side 15. *)
Definition blob (n : nat) : string := string_of_list_ascii (repeat "x"%char n).

Definition toy_imaging : imaging nat :=
  mk_imaging nat (λ _, Ok 1500) (λ _, Ok (blob 1500)) (Ok tt) (λ _, Ok 15%nat)
    (λ side quality, Ok (blob (side * Z.to_nat quality)))
    (λ side, Ok (side * 9 / 10)%nat).

(** * Properties *)

(** ** The functions on small inputs *)

Example split_debug_arg :
  split_on "," "06:00,09:00,18:00,21:00" = ["06:00"; "09:00"; "18:00"; "21:00"].
Proof. reflexivity. Qed.

Example split_empty : split_on "," "" = [""].
Proof. reflexivity. Qed.

Example strip_blanks : strip "  09:00 " = "09:00".
Proof. reflexivity. Qed.

Example int_of_string_signed : int_of_string " -12 " = Ok (-12).
Proof. reflexivity. Qed.

Example int_of_string_grouped : int_of_string "1_000" = Ok 1000.
Proof. reflexivity. Qed.

Example int_of_string_junk : int_of_string "6h" = Raise ValueError.
Proof. reflexivity. Qed.

Example int_of_string_separator :
  int_of_string (String (ascii_of_nat 28) "6") = Raise ValueError.
Proof. reflexivity. Qed.

Example strip_separator : strip (String (ascii_of_nat 28) "06:00") = "06:00".
Proof. reflexivity. Qed.

Example parse_hh_mm_0600 : parse_hh_mm "06:00" = Ok (6, 0).
Proof. reflexivity. Qed.

Example parse_hh_mm_one_field : parse_hh_mm "6" = Raise ValueError.
Proof. reflexivity. Qed.

Example mk_time_out_of_range : mk_time 24 0 = Raise ValueError.
Proof. reflexivity. Qed.

Example parse_debug_absent : parse_debug noon None = (false, None).
Proof. reflexivity. Qed.

Example parse_debug_three_fields :
  parse_debug noon (Some "06:00,09:00,18:00") = (false, None).
Proof. reflexivity. Qed.

Example parse_debug_bad_hour :
  (parse_debug noon (Some "06:00,25:00,18:00,21:00")).1 = false.
Proof. vm_compute. reflexivity. Qed.

Example sun_times_march : sun_times !! 3 = Some ("06:30", "18:00").
Proof. vm_compute. reflexivity. Qed.

Example sun_times_no_month_13 : sun_times !! 13 = None.
Proof. vm_compute. reflexivity. Qed.

Example replace_Z_utc :
  replace_Z "2024-06-15T03:43:07Z" = "2024-06-15T03:43:07+00:00".
Proof. reflexivity. Qed.

Example subscript_missing_key :
  subscript (JDict [("status", JStr "OK")]) "results" = Raise KeyError.
Proof. reflexivity. Qed.

Example dt_lt_mixed : dt_lt (naive 0) (aware 0 0) = Raise TypeError.
Proof. reflexivity. Qed.

Example get_image_path_unknown :
  get_image_path solar_config "dusk" = Raise ValueError.
Proof. reflexivity. Qed.

Example load_state_no_timestamp :
  load_state (Content (JDict [("phase", JStr "day")])) = None.
Proof. reflexivity. Qed.

Example get_sun_times_primary :
  get_sun_times london_parser solar_config noon london_reply =
    Ok (aware (739051 * day_us + hours 4 + 43 * minute_us + 7 * second_us) 0,
        aware (739051 * day_us + hours 21 + 19 * minute_us + 35 * second_us) 0).
Proof. vm_compute. reflexivity. Qed.

Example get_sun_times_unparsed :
  get_sun_times no_parser solar_config noon london_reply =
    Ok (june_sunrise, june_sunset).
Proof. vm_compute. reflexivity. Qed.

Example get_sun_times_server_error :
  get_sun_times london_parser solar_config noon (Reply 500 (Raise JSONDecodeError)) =
    Ok (june_sunrise, june_sunset).
Proof. vm_compute. reflexivity. Qed.

Example get_current_phase_noon :
  get_current_phase no_parser solar_config noon no_network = Ok "day".
Proof. vm_compute. reflexivity. Qed.

Example get_current_phase_override_noon :
  get_current_phase no_parser
    (override_config noon "06:00,09:00,18:00,21:00") noon no_network
  = Ok "night".
Proof. vm_compute. reflexivity. Qed.

(** ** Datetimes *)

Lemma dt_lt_aware (a b : datetime) :
  is_Some (tzinfo a) -> is_Some (tzinfo b) ->
  dt_lt a b = Ok (utc_instant a <? utc_instant b).
Proof.
  intros [oa Ha] [ob Hb]. unfold dt_lt, utc_instant. rewrite Ha, Hb. reflexivity.
Qed.

(** The reading of the clock exists as a local time, so the conversion
    keeps it and attaches the offset in force. *)
Lemma get_now_with_tzinfo_eq (clk : clock) :
  get_now_with_tzinfo clk = aware (now_wall clk) (local_timezone clk).
Proof.
  unfold get_now_with_tzinfo, astimezone_local, local_timezone. simpl.
  rewrite now_exists. f_equal. lia.
Qed.

Lemma get_now_with_tzinfo_aware (clk : clock) :
  is_Some (tzinfo (get_now_with_tzinfo clk)).
Proof. rewrite get_now_with_tzinfo_eq. simpl. eauto. Qed.

Lemma ensure_timezone_aware_aware (clk : clock) (dt : datetime) :
  is_Some (tzinfo (ensure_timezone_aware clk dt)).
Proof.
  unfold ensure_timezone_aware, astimezone_local.
  destruct (tzinfo dt) eqn:E; simpl; eauto.
Qed.

Lemma utc_instant_dt_add (dt : datetime) (delta : Z) :
  utc_instant (dt_add dt delta) = utc_instant dt + delta.
Proof. unfold utc_instant, dt_add. simpl. lia. Qed.

Lemma utc_instant_dt_sub (dt : datetime) (delta : Z) :
  utc_instant (dt_sub dt delta) = utc_instant dt - delta.
Proof. unfold utc_instant, dt_sub. simpl. lia. Qed.

Lemma dt_add_0 (dt : datetime) : dt_add dt 0 = dt.
Proof. destruct dt. unfold dt_add. simpl. f_equal. lia. Qed.

(** The additions that check the range. *)
Lemma datetime_add_Ok (dt : datetime) (delta : Z) (r : datetime) :
  datetime_add dt delta = Ok r <->
  in_range (wall dt + delta) = true /\ r = dt_add dt delta.
Proof.
  unfold datetime_add. destruct (in_range (wall dt + delta)); split.
  - intros [= <-]. done.
  - intros [_ ->]. done.
  - discriminate.
  - intros [[=] _].
Qed.

Lemma datetime_sub_Ok (dt : datetime) (delta : Z) (r : datetime) :
  datetime_sub dt delta = Ok r <->
  in_range (wall dt - delta) = true /\ r = dt_sub dt delta.
Proof.
  unfold datetime_sub. destruct (in_range (wall dt - delta)); split.
  - intros [= <-]. done.
  - intros [_ ->]. done.
  - discriminate.
  - intros [[=] _].
Qed.

Lemma datetime_add_Raise (dt : datetime) (delta : Z) (e : exn) :
  datetime_add dt delta = Raise e <->
  in_range (wall dt + delta) = false /\ e = OverflowError.
Proof.
  unfold datetime_add. destruct (in_range (wall dt + delta)); split.
  - discriminate.
  - intros [[=] _].
  - intros [= <-]. done.
  - intros [_ ->]. done.
Qed.

Lemma in_range_spec (w : Z) : in_range w = true <-> 0 <= w < max_wall.
Proof. unfold in_range. rewrite andb_true_iff, Z.leb_le, Z.ltb_lt. done. Qed.

Lemma in_range_between (a b w : Z) :
  in_range a = true -> in_range b = true -> a <= w <= b -> in_range w = true.
Proof. rewrite !in_range_spec. lia. Qed.

(** A conversion that goes through keeps the instant; its result carries the
    target offset and lies within the range. *)
Lemma astimezone_Ok (clk : clock) (tz : Z) (dt r : datetime) :
  astimezone clk tz dt = Ok r ->
  tzinfo r = Some tz /\ in_range (wall r) = true /\
  utc_instant r = wall dt - match tzinfo dt with
                            | None => local_offset clk (wall dt)
                            | Some off => off
                            end.
Proof.
  unfold astimezone. intros H.
  destruct (datetime_sub _ _) as [utc|] eqn:Hutc; [|discriminate].
  apply datetime_sub_Ok in Hutc as [_ ->]. simpl in H.
  apply datetime_add_Ok in H as [Hr ->]. simpl in *.
  split; [done|]. split; [done|]. unfold utc_instant. simpl. lia.
Qed.

(** The reading of the clock lies within the range, and so does every
    clock time of its date. *)
Lemma now_wall_range (clk : clock) :
  2 * day_us <= now_wall clk < max_wall - 2 * day_us.
Proof.
  pose proof (now_in_range clk) as H. unfold clock_range in H.
  apply andb_true_iff in H as [H1 H2].
  apply Z.leb_le in H1. apply Z.ltb_lt in H2. done.
Qed.

Lemma today_in_range (clk : clock) (t : Z) :
  0 <= t < day_us ->
  in_range (date_of (datetime_now clk) * day_us + t) = true.
Proof.
  intros Ht. apply in_range_spec. unfold date_of, datetime_now. simpl.
  pose proof (now_wall_range clk) as Hnow.
  assert (0 < day_us) as Hpos by reflexivity.
  pose proof (Z.mul_div_le (now_wall clk) day_us Hpos).
  pose proof (Z.mul_succ_div_gt (now_wall clk) day_us Hpos).
  unfold max_wall in *. lia.
Qed.

(** ** The float settings *)

Lemma float_zero_timedelta (x : float) :
  float_ne_zero x = false -> timedelta_hours x = Ok 0.
Proof.
  unfold float_ne_zero. intros H. apply negb_false_iff in H.
  destruct x as [[]|[]| |[] m e]; try discriminate H;
    vm_compute; reflexivity.
Qed.

Lemma apply_offset_Ok (cfg : config) (dt r : datetime) :
  apply_offset cfg dt = Ok r ->
  exists off,
    timedelta_hours (TIME_OFFSET cfg) = Ok off /\ r = dt_add dt off /\
    (in_range (wall dt) = true -> in_range (wall r) = true).
Proof.
  unfold apply_offset. destruct (float_ne_zero (TIME_OFFSET cfg)) eqn:Hz.
  - destruct (timedelta_hours (TIME_OFFSET cfg)) as [off|]; [|discriminate].
    simpl. intros H. apply datetime_add_Ok in H as [Hr ->].
    exists off. done.
  - intros [= <-]. exists 0. rewrite dt_add_0.
    split; [by apply float_zero_timedelta|done].
Qed.

(** An offset of at most one day can always be applied to a clock time of
    today. *)
Lemma apply_offset_today (cfg : config) (clk : clock) (t off tz : Z) :
  0 <= t < day_us ->
  timedelta_hours (TIME_OFFSET cfg) = Ok off -> - day_us <= off <= day_us ->
  apply_offset cfg (aware (date_of (datetime_now clk) * day_us + t) tz)
    = Ok (aware (date_of (datetime_now clk) * day_us + t + off) tz).
Proof.
  intros Ht Hoff Hbound. unfold apply_offset.
  destruct (float_ne_zero (TIME_OFFSET cfg)) eqn:Hz.
  - rewrite Hoff. simpl. unfold datetime_add. simpl.
    assert (in_range (date_of (datetime_now clk) * day_us + t + off) = true)
      as ->; [|done].
    apply in_range_spec. unfold date_of, datetime_now. simpl.
    pose proof (now_wall_range clk) as Hnow.
    assert (0 < day_us) as Hpos by reflexivity.
    pose proof (Z.mul_div_le (now_wall clk) day_us Hpos).
    pose proof (Z.mul_succ_div_gt (now_wall clk) day_us Hpos).
    unfold max_wall in *. lia.
  - rewrite (float_zero_timedelta _ Hz) in Hoff. injection Hoff as <-.
    by rewrite Z.add_0_r.
Qed.

Section PhaseProperties.

Variable fromisoformat : string -> result datetime.

(** What the [try] block does with an OK reply whose timestamps parse. *)
Lemma sun_times_api_parsed cfg clk data st results sr ss s1 s2 u v :
  subscript data "status" = Ok st -> json_eq_str st "OK" = true ->
  subscript data "results" = Ok results ->
  subscript results "sunrise" = Ok sr -> str_replace_Z sr = Ok s1 ->
  fromisoformat s1 = Ok u ->
  subscript results "sunset" = Ok ss -> str_replace_Z ss = Ok s2 ->
  fromisoformat s2 = Ok v ->
  sun_times_api fromisoformat cfg clk (Reply 200 (Ok data)) =
    (u' ← astimezone clk (local_timezone clk) u;
     v' ← astimezone clk (local_timezone clk) v;
     a ← apply_offset cfg u';
     b ← apply_offset cfg v';
     Ok (Some (a, b))).
Proof.
  intros Hst Hok Hres Hsr Hs1 Hu Hss Hs2 Hv.
  unfold sun_times_api, apply_offset. simpl.
  rewrite Hst. simpl. rewrite Hok, Hres. simpl.
  rewrite Hsr. simpl. rewrite Hs1. simpl. rewrite Hu. simpl.
  rewrite Hss. simpl. rewrite Hs2. simpl. rewrite Hv. simpl.
  destruct (astimezone clk (local_timezone clk) u) as [u'|]; [|done]. simpl.
  destruct (astimezone clk (local_timezone clk) v) as [v'|]; [|done]. simpl.
  destruct (float_ne_zero (TIME_OFFSET cfg)); [|done].
  destruct (timedelta_hours (TIME_OFFSET cfg)) as [off|]; [|done]. simpl.
  destruct (datetime_add u' off); [|done]. simpl.
  by destruct (datetime_add v' off).
Qed.

(** A pair delivered by the [try] block: two parsed timestamps, converted
    to the local time zone and moved by the offset step. *)
Lemma sun_times_api_Ok cfg clk reply a b :
  sun_times_api fromisoformat cfg clk reply = Ok (Some (a, b)) ->
  exists u v u' v',
    astimezone clk (local_timezone clk) u = Ok u' /\
    astimezone clk (local_timezone clk) v = Ok v' /\
    apply_offset cfg u' = Ok a /\ apply_offset cfg v' = Ok b.
Proof.
  unfold sun_times_api, mbind, result_bind. intros H.
  repeat case_match; simplify_eq.
  - match goal with
    | Ha : datetime_add ?u' _ = Ok a, Hb : datetime_add ?v' _ = Ok b,
      Hu : astimezone _ _ ?u = Ok ?u', Hv : astimezone _ _ ?v = Ok ?v',
      Hz : float_ne_zero _ = true, Ht : timedelta_hours _ = Ok _ |- _ =>
        exists u, v, u', v'; unfold apply_offset; rewrite Hz, Ht; by simpl
    end.
  - match goal with
    | Hu : astimezone _ _ ?u = Ok a, Hv : astimezone _ _ ?v = Ok b,
      Hz : float_ne_zero _ = false |- _ =>
        exists u, v, a, b; unfold apply_offset; by rewrite Hz
    end.
Qed.

Lemma sun_times_api_valid cfg clk reply sr ss :
  sun_times_api fromisoformat cfg clk reply = Ok (Some (sr, ss)) ->
  tzinfo sr = Some (local_timezone clk) /\
  tzinfo ss = Some (local_timezone clk) /\
  in_range (wall sr) = true /\ in_range (wall ss) = true.
Proof.
  intros H. apply sun_times_api_Ok in H
    as (u & v & u' & v' & Hu & Hv & Ha & Hb).
  apply astimezone_Ok in Hu as (Hu1 & Hu2 & _).
  apply astimezone_Ok in Hv as (Hv1 & Hv2 & _).
  apply apply_offset_Ok in Ha as (off & _ & -> & Ha).
  apply apply_offset_Ok in Hb as (off' & _ & -> & Hb).
  simpl. rewrite Hu1, Hv1. repeat split; [by apply Ha|by apply Hb].
Qed.

Lemma apply_offset_Raise (cfg : config) (dt : datetime) (e : exn) :
  apply_offset cfg dt = Raise e ->
  float_ne_zero (TIME_OFFSET cfg) = true /\
  (timedelta_hours (TIME_OFFSET cfg) = Raise e \/
   exists off, timedelta_hours (TIME_OFFSET cfg) = Ok off /\
               in_range (wall dt + off) = false /\ e = OverflowError).
Proof.
  unfold apply_offset. destruct (float_ne_zero (TIME_OFFSET cfg)); [|discriminate].
  destruct (timedelta_hours (TIME_OFFSET cfg)) as [off|e']; simpl.
  - intros H. apply datetime_add_Raise in H as [Hr ->]. eauto 6.
  - intros [= ->]. eauto.
Qed.

(** ** The fallback table *)

Lemma sun_times_entries (month : Z) :
  1 <= month <= 12 ->
  exists s1 s2 t1 t2,
    sun_times !! month = Some (s1, s2) /\
    clock_time s1 = Ok t1 /\ clock_time s2 = Ok t2 /\
    0 <= t1 /\ t1 < t2 /\ t2 < day_us.
Proof.
  intros H.
  assert (month = 1 \/ month = 2 \/ month = 3 \/ month = 4 \/ month = 5 \/
          month = 6 \/ month = 7 \/ month = 8 \/ month = 9 \/ month = 10 \/
          month = 11 \/ month = 12) as Hcases by lia.
  repeat (destruct Hcases as [->|Hcases]); [..|subst month];
    (eexists _, _, _, _;
     split; [vm_compute; reflexivity|];
     split; [vm_compute; reflexivity|];
     split; [vm_compute; reflexivity|];
     vm_compute; repeat split; discriminate).
Qed.

Lemma sun_times_months (month : Z) (entry : string * string) :
  sun_times !! month = Some entry -> 1 <= month <= 12.
Proof.
  unfold sun_times. intros H. apply elem_of_list_to_map_2 in H.
  repeat (apply elem_of_cons in H as [H|H]; [injection H as -> _; lia|]).
  by apply elem_of_nil in H.
Qed.

(** The fallback: the month's entry at today's date in the local time zone,
    each of the two moved by the offset step. *)
Lemma sun_times_fallback_eq cfg clk s1 s2 t1 t2 :
  sun_times !! now_month clk = Some (s1, s2) ->
  clock_time s1 = Ok t1 -> clock_time s2 = Ok t2 ->
  let today := date_of (datetime_now clk) in
  let tz := local_timezone clk in
  sun_times_fallback cfg clk =
    (sr ← apply_offset cfg (aware (today * day_us + t1) tz);
     ss ← apply_offset cfg (aware (today * day_us + t2) tz);
     Ok (sr, ss)).
Proof.
  intros Hl H1 H2 today tz. unfold sun_times_fallback, getitem.
  rewrite Hl. simpl. unfold clock_time in H1, H2.
  destruct (parse_hh_mm s1) as [[h1 m1]|]; simpl in H1; [|discriminate].
  destruct (parse_hh_mm s2) as [[h2 m2]|]; simpl in H2; [|discriminate].
  simpl. rewrite H1, H2. simpl. unfold apply_offset.
  destruct (float_ne_zero (TIME_OFFSET cfg)); [|done].
  destruct (timedelta_hours (TIME_OFFSET cfg)) as [off|]; [|done]. simpl.
  fold today tz.
  unfold combine, replace_tzinfo, naive, aware. simpl.
  destruct (datetime_add _ off); [|done]. simpl.
  by destruct (datetime_add _ off).
Qed.

Lemma sun_times_fallback_Ok cfg clk sr ss :
  sun_times_fallback cfg clk = Ok (sr, ss) ->
  exists t1 t2 off,
    0 <= t1 /\ t1 < t2 /\ t2 < day_us /\
    timedelta_hours (TIME_OFFSET cfg) = Ok off /\
    sr = aware (date_of (datetime_now clk) * day_us + t1 + off) (local_timezone clk) /\
    ss = aware (date_of (datetime_now clk) * day_us + t2 + off) (local_timezone clk) /\
    in_range (wall sr) = true /\ in_range (wall ss) = true.
Proof.
  intros H.
  assert (1 <= now_month clk <= 12) as Hmonth.
  { unfold sun_times_fallback, getitem in H.
    destruct (sun_times !! now_month clk) as [entry|] eqn:Hl; [|discriminate].
    by eapply sun_times_months. }
  destruct (sun_times_entries _ Hmonth)
    as (s1 & s2 & t1 & t2 & Hl & H1 & H2 & H0 & Hlt & Hday).
  rewrite (sun_times_fallback_eq cfg clk _ _ _ _ Hl H1 H2) in H.
  cbv zeta in H.
  destruct (apply_offset cfg (aware (_ + t1) _)) as [a|] eqn:Ha; [|discriminate].
  destruct (apply_offset cfg (aware (_ + t2) _)) as [b|] eqn:Hb; [|discriminate].
  simpl in H. injection H as <- <-.
  apply apply_offset_Ok in Ha as (off & Hoff & -> & Hra).
  apply apply_offset_Ok in Hb as (off' & Hoff' & -> & Hrb).
  assert (off' = off) as -> by congruence.
  exists t1, t2, off. repeat split; try done.
  - apply Hra. simpl. apply today_in_range. lia.
  - apply Hrb. simpl. apply today_in_range. lia.
Qed.

Lemma get_sun_times_valid cfg clk reply sr ss :
  get_sun_times fromisoformat cfg clk reply = Ok (sr, ss) ->
  tzinfo sr = Some (local_timezone clk) /\
  tzinfo ss = Some (local_timezone clk) /\
  in_range (wall sr) = true /\ in_range (wall ss) = true.
Proof.
  unfold get_sun_times. intros H.
  assert (sun_times_fallback cfg clk = Ok (sr, ss) ->
          tzinfo sr = Some (local_timezone clk) /\
          tzinfo ss = Some (local_timezone clk) /\
          in_range (wall sr) = true /\ in_range (wall ss) = true) as Hfb.
  { intros Hf. apply sun_times_fallback_Ok in Hf
      as (t1 & t2 & off & _ & _ & _ & _ & -> & -> & Hr1 & Hr2). done. }
  destruct (sun_times_api fromisoformat cfg clk reply) as [[[sr' ss']|]|] eqn:E;
    [|by apply Hfb..].
  simplify_eq. by eapply sun_times_api_valid.
Qed.

Lemma get_sun_times_aware cfg clk reply sr ss :
  get_sun_times fromisoformat cfg clk reply = Ok (sr, ss) ->
  is_Some (tzinfo sr) /\ is_Some (tzinfo ss).
Proof.
  intros H. apply get_sun_times_valid in H as (-> & -> & _). eauto.
Qed.

(** ** The phase starts *)

(** Truth of the guard of the override branch. *)
Lemma truthy_dom (dt : gmap string datetime) :
  dom dt = list_to_set phases -> truthy (Some dt) = true.
Proof.
  intros Hdom. unfold truthy. apply negb_true_iff, bool_decide_eq_false.
  intros ->. rewrite dom_empty_L in Hdom. unfold phases in Hdom.
  assert ("morning" ∈ (∅ : gset string)) as Hin by (rewrite Hdom; set_solver).
  set_solver.
Qed.

Lemma lookup_of_dom (dt : gmap string datetime) (k : string) :
  dom dt = list_to_set phases -> k ∈ phases -> is_Some (dt !! k).
Proof.
  intros Hdom Hk. apply elem_of_dom. rewrite Hdom. set_solver.
Qed.

(** In override mode the stored instants are returned as they are, each made
    timezone-aware; TIME_OFFSET plays no part. *)
Lemma calculate_phase_times_override cfg clk reply dt :
  DEBUG_MODE cfg = true -> DEBUG_TIMES cfg = Some dt -> dt <> ∅ ->
  calculate_phase_times fromisoformat cfg clk reply
    = Ok (ensure_timezone_aware clk <$> dt).
Proof.
  intros Hmode Hdt Hne. unfold calculate_phase_times, truthy.
  rewrite Hmode, Hdt, andb_false_r. simpl.
  by rewrite bool_decide_eq_false_2.
Qed.

(** The solar branch of [calculate_phase_times], step by step. *)
Lemma calculate_phase_times_solar_eq cfg clk reply S T md ed :
  DEBUG_MODE cfg && truthy (DEBUG_TIMES cfg) = false ->
  get_sun_times fromisoformat cfg clk reply = Ok (S, T) ->
  timedelta_hours (MORNING_DURATION cfg) = Ok md ->
  timedelta_hours (EVENING_DURATION cfg) = Ok ed ->
  calculate_phase_times fromisoformat cfg clk reply =
    if in_range (wall S + md) then
      if in_range (wall T - ed) then
        Ok (<["night" := T]>
              (<["evening" := dt_sub T ed]>
                 (<["day" := dt_add S md]> {["morning" := S]})))
      else Raise OverflowError
    else Raise OverflowError.
Proof.
  intros Hmode Hsun Hmd Hed. unfold calculate_phase_times.
  rewrite Hmode, Hsun. simpl. rewrite Hmd. simpl.
  unfold datetime_add. destruct (in_range (wall S + md)); [|done]. simpl.
  rewrite Hed. simpl.
  unfold datetime_sub. by destruct (in_range (wall T - ed)).
Qed.

Lemma solar_schedule_of (S D E T : datetime) :
  schedule_of
    (<["night" := T]> (<["evening" := E]> (<["day" := D]> {["morning" := S]})))
    S D E T.
Proof. unfold schedule_of. repeat split; by simplify_map_eq. Qed.

(** The dictionary built on the solar branch when both additions stay
    within the range. *)
Lemma calculate_phase_times_no_debug cfg clk reply S T md ed :
  DEBUG_MODE cfg && truthy (DEBUG_TIMES cfg) = false ->
  get_sun_times fromisoformat cfg clk reply = Ok (S, T) ->
  timedelta_hours (MORNING_DURATION cfg) = Ok md ->
  timedelta_hours (EVENING_DURATION cfg) = Ok ed ->
  in_range (wall S + md) = true -> in_range (wall T - ed) = true ->
  exists pt,
    calculate_phase_times fromisoformat cfg clk reply = Ok pt /\
    schedule_of pt S (dt_add S md) (dt_sub T ed) T.
Proof.
  intros Hmode Hsun Hmd Hed Hr1 Hr2.
  rewrite (calculate_phase_times_solar_eq _ _ _ _ _ _ _ Hmode Hsun Hmd Hed).
  rewrite Hr1, Hr2. eexists. split; [reflexivity|]. apply solar_schedule_of.
Qed.

(** A schedule returned on the solar branch: where it comes from. *)
Lemma calculate_phase_times_solar_Ok cfg clk reply pt :
  DEBUG_MODE cfg && truthy (DEBUG_TIMES cfg) = false ->
  calculate_phase_times fromisoformat cfg clk reply = Ok pt ->
  exists S T md ed,
    get_sun_times fromisoformat cfg clk reply = Ok (S, T) /\
    timedelta_hours (MORNING_DURATION cfg) = Ok md /\
    timedelta_hours (EVENING_DURATION cfg) = Ok ed /\
    in_range (wall S + md) = true /\ in_range (wall T - ed) = true /\
    schedule_of pt S (dt_add S md) (dt_sub T ed) T.
Proof.
  intros Hmode H.
  destruct (get_sun_times fromisoformat cfg clk reply) as [[S T]|] eqn:Hsun;
    [|unfold calculate_phase_times in H; rewrite Hmode, Hsun in H; discriminate].
  destruct (timedelta_hours (MORNING_DURATION cfg)) as [md|] eqn:Hmd;
    [|unfold calculate_phase_times in H; rewrite Hmode, Hsun in H; simpl in H;
      rewrite Hmd in H; discriminate].
  destruct (timedelta_hours (EVENING_DURATION cfg)) as [ed|] eqn:Hed.
  - rewrite (calculate_phase_times_solar_eq _ _ _ _ _ _ _ Hmode Hsun Hmd Hed) in H.
    destruct (in_range (wall S + md)) eqn:Hr1; [|discriminate].
    destruct (in_range (wall T - ed)) eqn:Hr2; [|discriminate].
    injection H as <-. exists S, T, md, ed. repeat split; try done.
    all: by simplify_map_eq.
  - unfold calculate_phase_times in H. rewrite Hmode, Hsun in H. simpl in H.
    rewrite Hmd in H. simpl in H.
    destruct (datetime_add S md); simpl in H; [|discriminate].
    rewrite Hed in H. discriminate.
Qed.

Lemma calculate_phase_times_aware cfg clk reply pt k v :
  calculate_phase_times fromisoformat cfg clk reply = Ok pt ->
  pt !! k = Some v ->
  is_Some (tzinfo v).
Proof.
  intros H Hk.
  destruct (DEBUG_MODE cfg && truthy (DEBUG_TIMES cfg)) eqn:Hmode.
  - unfold calculate_phase_times in H. rewrite Hmode in H.
    apply andb_true_iff in Hmode as [Hdebug _].
    rewrite Hdebug, andb_false_r in H. injection H as <-.
    rewrite lookup_fmap in Hk.
    destruct (default ∅ (DEBUG_TIMES cfg) !! k) as [x|]; simplify_eq/=.
    apply ensure_timezone_aware_aware.
  - destruct (calculate_phase_times_solar_Ok _ _ _ _ Hmode H)
      as (S & T & md & ed & Hsun & _ & _ & _ & _ & Hm & Hd & He & Hn & Hdom).
    apply get_sun_times_aware in Hsun as [HS HT].
    assert (k ∈ dom pt) as Hin by (apply elem_of_dom; eauto).
    rewrite Hdom in Hin. unfold phases in Hin.
    repeat (apply elem_of_list_to_set in Hin || apply elem_of_cons in Hin
            as [->|Hin]); simplify_eq; try done.
    by apply elem_of_nil in Hin.
Qed.

(** A schedule that [calculate_phase_times] returns names the four phases. *)
Lemma calculate_phase_times_schedule cfg clk reply pt :
  wf_config cfg ->
  calculate_phase_times fromisoformat cfg clk reply = Ok pt ->
  exists m d e n, schedule_of pt m d e n.
Proof.
  intros Hwf H.
  destruct (DEBUG_MODE cfg && truthy (DEBUG_TIMES cfg)) eqn:Hmode.
  - apply andb_true_iff in Hmode as [Hdebug Htruthy].
    destruct (Hwf Hdebug) as (dt & Hdt & Hdom).
    rewrite (calculate_phase_times_override cfg clk reply dt Hdebug Hdt) in H.
    + injection H as <-.
      assert (forall k, k ∈ phases -> is_Some (dt !! k)) as Hin
        by eauto using lookup_of_dom.
      destruct (Hin "morning") as [m Hm]; [unfold phases; repeat constructor|].
      destruct (Hin "day") as [d Hd]; [unfold phases; repeat constructor|].
      destruct (Hin "evening") as [e He]; [unfold phases; repeat constructor|].
      destruct (Hin "night") as [n Hn]; [unfold phases; repeat constructor|].
      eexists _, _, _, _.
      unfold schedule_of. rewrite !lookup_fmap, Hm, Hd, He, Hn, dom_fmap_L.
      by repeat split.
    + intros ->. rewrite Hdt in Htruthy. unfold truthy in Htruthy.
      by rewrite bool_decide_eq_true_2 in Htruthy.
  - destruct (calculate_phase_times_solar_Ok _ _ _ _ Hmode H)
      as (S & T & md & ed & _ & _ & _ & _ & _ & Hs). eauto.
Qed.

(** The chain of comparisons of [get_current_phase], once the schedule is
    known and its four entries are in place. *)
Lemma get_current_phase_chain cfg clk reply pt m d e n :
  calculate_phase_times fromisoformat cfg clk reply = Ok pt ->
  pt !! "morning" = Some m -> pt !! "day" = Some d ->
  pt !! "evening" = Some e -> pt !! "night" = Some n ->
  get_current_phase fromisoformat cfg clk reply =
    let now := utc_instant (get_now_with_tzinfo clk) in
    Ok (if now <? utc_instant m then "night"
        else if now <? utc_instant d then "morning"
        else if now <? utc_instant e then "day"
        else if now <? utc_instant n then "evening"
        else "night").
Proof.
  intros Hpt Hm Hd He Hn.
  pose proof (get_now_with_tzinfo_aware clk) as Hnow.
  unfold get_current_phase. rewrite Hpt. simpl. unfold getitem.
  rewrite Hm, Hd, He, Hn. simpl.
  rewrite !dt_lt_aware by eauto using calculate_phase_times_aware.
  simpl. repeat case_match; reflexivity.
Qed.

(** C1. For a schedule with morning_start <= day_start <= evening_start <=
    night_start, [get_current_phase] answers night before morning_start,
    morning on [morning_start, day_start), day on [day_start, evening_start),
    evening on [evening_start, night_start) and night from night_start on. *)
Theorem get_current_phase_intervals cfg clk reply pt m d e n :
  calculate_phase_times fromisoformat cfg clk reply = Ok pt ->
  pt !! "morning" = Some m -> pt !! "day" = Some d ->
  pt !! "evening" = Some e -> pt !! "night" = Some n ->
  utc_instant m <= utc_instant d ->
  utc_instant d <= utc_instant e ->
  utc_instant e <= utc_instant n ->
  let now := utc_instant (get_now_with_tzinfo clk) in
  (now < utc_instant m ->
     get_current_phase fromisoformat cfg clk reply = Ok "night") /\
  (utc_instant m <= now < utc_instant d ->
     get_current_phase fromisoformat cfg clk reply = Ok "morning") /\
  (utc_instant d <= now < utc_instant e ->
     get_current_phase fromisoformat cfg clk reply = Ok "day") /\
  (utc_instant e <= now < utc_instant n ->
     get_current_phase fromisoformat cfg clk reply = Ok "evening") /\
  (utc_instant n <= now ->
     get_current_phase fromisoformat cfg clk reply = Ok "night").
Proof.
  intros Hpt Hm Hd He Hn Hmd Hde Hen now.
  rewrite (get_current_phase_chain _ _ _ _ _ _ _ _ Hpt Hm Hd He Hn).
  cbv zeta. fold now.
  repeat split; intros H;
    repeat match goal with
           | |- context [?a <? ?b] => destruct (Z.ltb_spec a b); try lia
           end;
    reflexivity.
Qed.


(** Ways in which the remote lookup delivers no pair. *)
Lemma sun_times_api_failures cfg clk :
  (forall e, sun_times_api fromisoformat cfg clk (NoReply e) = Raise e) /\
  (forall code e, sun_times_api fromisoformat cfg clk (Reply code (Raise e)) = Raise e) /\
  (forall code data, code <> 200 ->
     sun_times_api fromisoformat cfg clk (Reply code (Ok data)) = Ok None) /\
  (forall data e, subscript data "status" = Raise e ->
     sun_times_api fromisoformat cfg clk (Reply 200 (Ok data)) = Raise e) /\
  (forall data st, subscript data "status" = Ok st -> json_eq_str st "OK" = false ->
     sun_times_api fromisoformat cfg clk (Reply 200 (Ok data)) = Ok None) /\
  (forall data st res sr s e,
     subscript data "status" = Ok st -> json_eq_str st "OK" = true ->
     subscript data "results" = Ok res -> subscript res "sunrise" = Ok sr ->
     str_replace_Z sr = Ok s -> fromisoformat s = Raise e ->
     sun_times_api fromisoformat cfg clk (Reply 200 (Ok data)) = Raise e).
Proof.
  repeat split.
  - intros code data Hcode. unfold sun_times_api. simpl.
    by destruct (Z.eqb_spec code 200).
  - intros data e H. unfold sun_times_api. simpl. by rewrite H.
  - intros data st H Hst. unfold sun_times_api. simpl. rewrite H. simpl.
    by rewrite Hst.
  - intros data st res sr s e H Hst Hres Hsr Hs He.
    unfold sun_times_api. simpl. rewrite H. simpl. rewrite Hst, Hres. simpl.
    rewrite Hsr. simpl. rewrite Hs. simpl. by rewrite He.
Qed.

(** Where the remote lookup delivers no pair, the result is the fallback's. *)
Lemma get_sun_times_fallback cfg clk reply :
  (forall p, sun_times_api fromisoformat cfg clk reply <> Ok (Some p)) ->
  get_sun_times fromisoformat cfg clk reply = sun_times_fallback cfg clk.
Proof.
  intros Hfail. unfold get_sun_times.
  destruct (sun_times_api fromisoformat cfg clk reply) as [[p|]|]; try done.
  by destruct (Hfail p).
Qed.

Lemma get_sun_times_Raise cfg clk reply e :
  get_sun_times fromisoformat cfg clk reply = Raise e ->
  sun_times_fallback cfg clk = Raise e.
Proof.
  unfold get_sun_times.
  by destruct (sun_times_api fromisoformat cfg clk reply) as [[p|]|].
Qed.

(** C3, amended.  [get_sun_times] raises only in applying a non-zero
    TIME_OFFSET on the fallback path; it returns a pair whenever
    [timedelta(hours=TIME_OFFSET)] is at most one day in magnitude.
    Whenever the remote lookup does not deliver a pair (a call of the [try]
    block raises, or the reply is not an OK reply), the outcome is that of
    the fallback: the month's table entry at today's date, in the local time
    zone, each of the two moved by the offset step.  On the primary path the
    two parsed timestamps, converted to the local time zone, are moved by the
    same step. *)
Theorem get_sun_times_never_raises cfg clk reply :
  1 <= now_month clk <= 12 ->
  exists s1 s2 t1 t2,
    sun_times !! now_month clk = Some (s1, s2) /\
    clock_time s1 = Ok t1 /\ clock_time s2 = Ok t2 /\
    let sunrise :=
      aware (date_of (datetime_now clk) * day_us + t1) (local_timezone clk) in
    let sunset :=
      aware (date_of (datetime_now clk) * day_us + t2) (local_timezone clk) in
    ((forall p, sun_times_api fromisoformat cfg clk reply <> Ok (Some p)) ->
     get_sun_times fromisoformat cfg clk reply =
       (sr ← apply_offset cfg sunrise;
        ss ← apply_offset cfg sunset;
        Ok (sr, ss))) /\
    (forall off,
       timedelta_hours (TIME_OFFSET cfg) = Ok off -> - day_us <= off <= day_us ->
       (exists p, get_sun_times fromisoformat cfg clk reply = Ok p) /\
       ((forall p, sun_times_api fromisoformat cfg clk reply <> Ok (Some p)) ->
        get_sun_times fromisoformat cfg clk reply =
          Ok (dt_add sunrise off, dt_add sunset off))) /\
    (forall e,
       get_sun_times fromisoformat cfg clk reply = Raise e ->
       float_ne_zero (TIME_OFFSET cfg) = true /\
       (timedelta_hours (TIME_OFFSET cfg) = Raise e \/ e = OverflowError)) /\
    (forall data st results sr ss z1 z2 u v a b,
       reply = Reply 200 (Ok data) ->
       subscript data "status" = Ok st -> json_eq_str st "OK" = true ->
       subscript data "results" = Ok results ->
       subscript results "sunrise" = Ok sr -> str_replace_Z sr = Ok z1 ->
       fromisoformat z1 = Ok u ->
       subscript results "sunset" = Ok ss -> str_replace_Z ss = Ok z2 ->
       fromisoformat z2 = Ok v ->
       sun_times_api fromisoformat cfg clk reply = Ok (Some (a, b)) ->
       get_sun_times fromisoformat cfg clk reply = Ok (a, b) /\
       exists u' v',
         astimezone clk (local_timezone clk) u = Ok u' /\
         astimezone clk (local_timezone clk) v = Ok v' /\
         apply_offset cfg u' = Ok a /\ apply_offset cfg v' = Ok b).
Proof.
  intros Hmonth.
  destruct (sun_times_entries _ Hmonth)
    as (s1 & s2 & t1 & t2 & Hl & H1 & H2 & H0 & Hlt & Hday).
  exists s1, s2, t1, t2. do 3 (split; [assumption|]).
  pose proof (sun_times_fallback_eq cfg clk _ _ _ _ Hl H1 H2) as Hfb.
  cbv zeta in *. split; [|split; [|split]].
  - intros Hfail. by rewrite get_sun_times_fallback.
  - intros off Hoff Hbound.
    assert (sun_times_fallback cfg clk =
            Ok (dt_add (aware (date_of (datetime_now clk) * day_us + t1)
                          (local_timezone clk)) off,
                dt_add (aware (date_of (datetime_now clk) * day_us + t2)
                          (local_timezone clk)) off)) as Hok.
    { rewrite Hfb.
      rewrite !(apply_offset_today cfg clk _ off) by (done || lia). done. }
    split.
    + unfold get_sun_times.
      destruct (sun_times_api fromisoformat cfg clk reply) as [[p|]|]; eauto.
    + intros Hfail. by rewrite get_sun_times_fallback.
  - intros e H. apply get_sun_times_Raise in H. rewrite Hfb in H.
    destruct (apply_offset cfg (aware (_ + t1) _)) as [a|e1] eqn:Ha.
    + destruct (apply_offset cfg (aware (_ + t2) _)) as [b|e2] eqn:Hb;
        [discriminate|]. simpl in H. injection H as <-.
      apply apply_offset_Raise in Hb as [Hz [Ht|(off & _ & _ & ->)]]; eauto.
    + simpl in H. injection H as <-.
      apply apply_offset_Raise in Ha as [Hz [Ht|(off & _ & _ & ->)]]; eauto.
  - intros data st results sr ss z1 z2 u v a b -> Hst Hok Hres Hsr Hz1 Hu
      Hss Hz2 Hv Hapi.
    split; [unfold get_sun_times; by rewrite Hapi|].
    rewrite (sun_times_api_parsed cfg clk _ _ _ _ _ _ _ _ _
               Hst Hok Hres Hsr Hz1 Hu Hss Hz2 Hv) in Hapi.
    destruct (astimezone clk (local_timezone clk) u) as [u'|]; [|discriminate].
    destruct (astimezone clk (local_timezone clk) v) as [v'|]; [|discriminate].
    simpl in Hapi.
    destruct (apply_offset cfg u') as [a'|] eqn:Ha; [|discriminate].
    destruct (apply_offset cfg v') as [b'|] eqn:Hb; [|discriminate].
    simpl in Hapi. injection Hapi as <- <-. by exists u', v'.
Qed.

(** C4, amended.  Outside override mode, with sunrise S, sunset T and the
    timedeltas that MORNING_DURATION and EVENING_DURATION give,
    [calculate_phase_times] returns exactly morning = S,
    day = S + MORNING_DURATION, evening = T - EVENING_DURATION, night = T
    when those two datetimes lie within the range of the datetime type; the
    additions move the instant by exactly the timedelta and keep the time
    zone.  When one of the two leaves the range it raises [OverflowError]. *)
Theorem calculate_phase_times_solar cfg clk reply S T md ed :
  DEBUG_MODE cfg && truthy (DEBUG_TIMES cfg) = false ->
  get_sun_times fromisoformat cfg clk reply = Ok (S, T) ->
  timedelta_hours (MORNING_DURATION cfg) = Ok md ->
  timedelta_hours (EVENING_DURATION cfg) = Ok ed ->
  (in_range (wall S + md) = true -> in_range (wall T - ed) = true ->
   exists pt day_start evening_start,
     calculate_phase_times fromisoformat cfg clk reply = Ok pt /\
     schedule_of pt S day_start evening_start T /\
     day_start = dt_add S md /\
     evening_start = dt_sub T ed /\
     utc_instant day_start = utc_instant S + md /\
     utc_instant evening_start = utc_instant T - ed /\
     tzinfo day_start = tzinfo S /\ tzinfo evening_start = tzinfo T) /\
  (in_range (wall S + md) && in_range (wall T - ed) = false ->
   calculate_phase_times fromisoformat cfg clk reply = Raise OverflowError).
Proof.
  intros Hmode Hsun Hmd Hed. split.
  - intros Hr1 Hr2.
    destruct (calculate_phase_times_no_debug _ _ _ _ _ _ _ Hmode Hsun Hmd Hed
                Hr1 Hr2) as (pt & Hpt & Hs).
    eexists pt, _, _. split; [exact Hpt|]. split; [exact Hs|].
    rewrite utc_instant_dt_add, utc_instant_dt_sub. by repeat split.
  - intros Hout.
    rewrite (calculate_phase_times_solar_eq _ _ _ _ _ _ _ Hmode Hsun Hmd Hed).
    destruct (in_range (wall S + md)); [|done].
    by destruct (in_range (wall T - ed)).
Qed.

(** Durations that fit between sunrise and sunset keep the two additions
    within the range. *)
Lemma fitting_durations_in_range cfg clk reply S T md ed :
  get_sun_times fromisoformat cfg clk reply = Ok (S, T) ->
  0 <= md -> 0 <= ed -> md + ed <= utc_instant T - utc_instant S ->
  in_range (wall S + md) = true /\ in_range (wall T - ed) = true.
Proof.
  intros Hsun Hmd Hed Hfit.
  apply get_sun_times_valid in Hsun as (HS & HT & HrS & HrT).
  unfold utc_instant in Hfit. rewrite HS, HT in Hfit. simpl in Hfit.
  split; eapply (in_range_between (wall S) (wall T)); try done; lia.
Qed.

(** C6, amended.  Outside override mode, with sunrise no later than sunset
    and with non-negative timedeltas for the two durations, the schedule of
    [calculate_phase_times] exists and is ordered when the two timedeltas
    together fit between sunrise and sunset; nothing is clamped, so when
    they do not fit, day_start lies after evening_start in any schedule that
    is returned. *)
Theorem calculate_phase_times_ordered cfg clk reply S T md ed :
  DEBUG_MODE cfg && truthy (DEBUG_TIMES cfg) = false ->
  get_sun_times fromisoformat cfg clk reply = Ok (S, T) ->
  timedelta_hours (MORNING_DURATION cfg) = Ok md ->
  timedelta_hours (EVENING_DURATION cfg) = Ok ed ->
  utc_instant S <= utc_instant T ->
  0 <= md -> 0 <= ed ->
  (md + ed <= utc_instant T - utc_instant S ->
   exists pt m d e n,
     calculate_phase_times fromisoformat cfg clk reply = Ok pt /\
     schedule_of pt m d e n /\ ordered m d e n) /\
  (utc_instant T - utc_instant S < md + ed ->
   forall pt d e,
     calculate_phase_times fromisoformat cfg clk reply = Ok pt ->
     pt !! "day" = Some d -> pt !! "evening" = Some e ->
     utc_instant e < utc_instant d).
Proof.
  intros Hmode Hsun Hmd Hed HST Hmd0 Hed0. split.
  - intros Hfit.
    destruct (fitting_durations_in_range _ _ _ _ _ _ _ Hsun Hmd0 Hed0 Hfit)
      as [Hr1 Hr2].
    destruct (calculate_phase_times_no_debug _ _ _ _ _ _ _ Hmode Hsun Hmd Hed
                Hr1 Hr2) as (pt & Hpt & Hsched).
    exists pt, S, (dt_add S md), (dt_sub T ed), T.
    unfold ordered. rewrite utc_instant_dt_add, utc_instant_dt_sub.
    split; [exact Hpt|]. split; [exact Hsched|]. lia.
  - intros Hover pt d e Hpt Hd He.
    rewrite (calculate_phase_times_solar_eq _ _ _ _ _ _ _ Hmode Hsun Hmd Hed)
      in Hpt.
    destruct (in_range (wall S + md)); [|discriminate].
    destruct (in_range (wall T - ed)); [|discriminate].
    injection Hpt as <-. simplify_map_eq.
    rewrite utc_instant_dt_add, utc_instant_dt_sub. lia.
Qed.

(** ** Totality of the resolver *)

(** C5. On every schedule that [calculate_phase_times] returns,
    [get_current_phase] answers with one of the four phases, whatever the
    order of the start instants.  For an ordered schedule and now1 < now2
    read against it, the phase at now1 is not later in the order morning,
    day, evening, night than the phase at now2 once now1 has reached
    morning_start; before morning_start the phase at now1 is the night that
    closes the cycle of the day before. *)
Theorem get_current_phase_total_monotone :
  (forall cfg clk reply pt,
     wf_config cfg ->
     calculate_phase_times fromisoformat cfg clk reply = Ok pt ->
     exists p, get_current_phase fromisoformat cfg clk reply = Ok p /\
               p ∈ phases) /\
  (forall cfg clk1 reply1 clk2 reply2 pt m d e n,
     calculate_phase_times fromisoformat cfg clk1 reply1 = Ok pt ->
     calculate_phase_times fromisoformat cfg clk2 reply2 = Ok pt ->
     schedule_of pt m d e n -> ordered m d e n ->
     utc_instant (get_now_with_tzinfo clk1)
       < utc_instant (get_now_with_tzinfo clk2) ->
     exists p1 p2 r1 r2,
       get_current_phase fromisoformat cfg clk1 reply1 = Ok p1 /\
       get_current_phase fromisoformat cfg clk2 reply2 = Ok p2 /\
       phase_rank p1 = Some r1 /\ phase_rank p2 = Some r2 /\
       (utc_instant m <= utc_instant (get_now_with_tzinfo clk1) ->
        (r1 <= r2)%nat) /\
       (utc_instant (get_now_with_tzinfo clk1) < utc_instant m ->
        p1 = "night")).
Proof.
  split.
  - intros cfg clk reply pt Hwf Hpt.
    destruct (calculate_phase_times_schedule cfg clk reply pt Hwf Hpt)
      as (m & d & e & n & Hm & Hd & He & Hn & _).
    rewrite (get_current_phase_chain _ _ _ _ _ _ _ _ Hpt Hm Hd He Hn).
    cbv zeta. eexists. split; [reflexivity|].
    unfold phases. repeat case_match; repeat constructor.
  - intros cfg clk1 reply1 clk2 reply2 pt m d e n Hpt1 Hpt2
      (Hm & Hd & He & Hn & _) (Hmd & Hde & Hen) Hlt.
    rewrite (get_current_phase_chain _ _ _ _ _ _ _ _ Hpt1 Hm Hd He Hn).
    rewrite (get_current_phase_chain _ _ _ _ _ _ _ _ Hpt2 Hm Hd He Hn).
    cbv zeta.
    set (now1 := utc_instant (get_now_with_tzinfo clk1)) in *.
    set (now2 := utc_instant (get_now_with_tzinfo clk2)) in *.
    repeat match goal with
           | |- context [?a <? ?b] => destruct (Z.ltb_spec a b); try lia
           end;
      (eexists _, _, _, _;
       repeat split; try reflexivity; intros; first [lia | reflexivity]).
Qed.

End PhaseProperties.

(** ** The override of the command line *)

Lemma debug_time_for_eq clk s h m t :
  parse_hh_mm (strip s) = Ok (h, m) -> mk_time h m = Ok t ->
  debug_time_for clk s = Ok (today_or_tomorrow clk t).
Proof.
  intros Hp Ht. unfold debug_time_for, today_or_tomorrow.
  rewrite Hp. simpl. rewrite Ht. simpl.
  destruct (date_of (datetime_now clk) * day_us + t <? now_wall clk);
    reflexivity.
Qed.

Lemma debug_loop_dom clk ts todo : forall i acc acc',
  debug_loop clk ts i todo acc = (acc', Ok tt) ->
  dom acc' = dom acc ∪ list_to_set todo.
Proof.
  induction todo as [|phase rest IH]; intros i acc acc' H; simpl in H.
  - simplify_eq. set_solver.
  - destruct (ts !! i) as [time_str|]; [|discriminate].
    destruct (debug_time_for clk time_str) as [dt|]; [|discriminate].
    apply IH in H. rewrite H, dom_insert_L. set_solver.
Qed.

Lemma parse_debug_wf clk debug cfg :
  parse_debug clk debug = (DEBUG_MODE cfg, DEBUG_TIMES cfg) -> wf_config cfg.
Proof.
  unfold parse_debug, wf_config. intros H Hmode. rewrite Hmode in H.
  destruct debug as [arg|]; [|discriminate].
  destruct (negb _); [discriminate|].
  destruct (debug_loop clk (split_on "," arg) 0 phases ∅) as [acc [[]|]] eqn:E;
    [|discriminate].
  simplify_eq. exists acc. split; [congruence|].
  apply debug_loop_dom in E. rewrite E, dom_empty_L. set_solver.
Qed.

Lemma today_or_tomorrow_range clk t :
  0 <= t < day_us ->
  now_wall clk <= wall (today_or_tomorrow clk t) < now_wall clk + day_us.
Proof.
  intros Ht. unfold today_or_tomorrow, date_of, datetime_now. simpl.
  assert (0 < day_us) as Hpos by reflexivity.
  pose proof (Z.mul_div_le (now_wall clk) day_us Hpos).
  pose proof (Z.mul_succ_div_gt (now_wall clk) day_us Hpos).
  destruct (Z.ltb_spec (now_wall clk / day_us * day_us + t) (now_wall clk));
    simpl; lia.
Qed.


(** The dictionary that the override "06:00,09:00,18:00,21:00" leaves in
    [DEBUG_TIMES], whatever the clock reads. *)
Lemma parse_debug_sample clk :
  parse_debug clk (Some "06:00,09:00,18:00,21:00") =
    (true,
     Some (<["night" := today_or_tomorrow clk (hours 21)]>
             (<["evening" := today_or_tomorrow clk (hours 18)]>
                (<["day" := today_or_tomorrow clk (hours 9)]>
                   (<["morning" := today_or_tomorrow clk (hours 6)]> ∅))))).
Proof.
  unfold parse_debug.
  change (split_on "," "06:00,09:00,18:00,21:00")
    with ["06:00"; "09:00"; "18:00"; "21:00"].
  change (negb (length ["06:00"; "09:00"; "18:00"; "21:00"] =? 4)%nat) with false.
  cbv iota. unfold phases, debug_loop.
  change (["06:00"; "09:00"; "18:00"; "21:00"] !! 0%nat) with (Some "06:00").
  change (["06:00"; "09:00"; "18:00"; "21:00"] !! 1%nat) with (Some "09:00").
  change (["06:00"; "09:00"; "18:00"; "21:00"] !! 2%nat) with (Some "18:00").
  change (["06:00"; "09:00"; "18:00"; "21:00"] !! 3%nat) with (Some "21:00").
  cbv iota.
  rewrite (debug_time_for_eq clk "06:00" 6 0 (hours 6)) by reflexivity.
  rewrite (debug_time_for_eq clk "09:00" 9 0 (hours 9)) by reflexivity.
  rewrite (debug_time_for_eq clk "18:00" 18 0 (hours 18)) by reflexivity.
  rewrite (debug_time_for_eq clk "21:00" 21 0 (hours 21)) by reflexivity.
  reflexivity.
Qed.

(** C8, as stated, fails at noon: 06:00 and 09:00 are already past and move
    to the next day, 18:00 and 21:00 stay on the day itself, so the morning
    and day entries come after the evening and night entries. *)
Lemma override_at_noon_not_sorted :
  parse_debug noon (Some "06:00,09:00,18:00,21:00") =
    (true,
     Some (<["night" := naive (739051 * day_us + hours 21)]>
             (<["evening" := naive (739051 * day_us + hours 18)]>
                (<["day" := naive (739052 * day_us + hours 9)]>
                   (<["morning" := naive (739052 * day_us + hours 6)]> ∅))))) /\
  ~ (forall dt m d e n,
       parse_debug noon (Some "06:00,09:00,18:00,21:00") = (true, Some dt) ->
       dt !! "morning" = Some m -> dt !! "day" = Some d ->
       dt !! "evening" = Some e -> dt !! "night" = Some n ->
       wall m <= wall d /\ wall d <= wall e /\ wall e <= wall n).
Proof.
  assert (parse_debug noon (Some "06:00,09:00,18:00,21:00") =
    (true,
     Some (<["night" := naive (739051 * day_us + hours 21)]>
             (<["evening" := naive (739051 * day_us + hours 18)]>
                (<["day" := naive (739052 * day_us + hours 9)]>
                   (<["morning" := naive (739052 * day_us + hours 6)]> ∅))))))
    as Heq by (rewrite parse_debug_sample; reflexivity).
  split; [exact Heq|].
  intros Hsorted.
  specialize (Hsorted _ (naive (739052 * day_us + hours 6))
                (naive (739052 * day_us + hours 9))
                (naive (739051 * day_us + hours 18))
                (naive (739051 * day_us + hours 21)) Heq).
  destruct Hsorted as (_ & Hde & _); [vm_compute; reflexivity..|].
  vm_compute in Hde. apply Hde. reflexivity.
Qed.

(** C8, amended.  For every clock reading, the override
    "06:00,09:00,18:00,21:00" switches override mode on and stores four
    entries, morning/day/evening/night at 06:00/09:00/18:00/21:00 of today,
    each moved to tomorrow when it is already past; every entry lies in
    [now, now + 1 day); and the four are in non-decreasing order exactly when
    none or all of them were moved, that is when now is not after today's
    06:00 or is after today's 21:00. *)
Theorem parse_debug_sample_entries clk :
  exists dt m d e n,
    parse_debug clk (Some "06:00,09:00,18:00,21:00") = (true, Some dt) /\
    schedule_of dt m d e n /\
    m = today_or_tomorrow clk (hours 6) /\
    d = today_or_tomorrow clk (hours 9) /\
    e = today_or_tomorrow clk (hours 18) /\
    n = today_or_tomorrow clk (hours 21) /\
    (forall x, x ∈ [m; d; e; n] ->
       tzinfo x = None /\ now_wall clk <= wall x < now_wall clk + day_us) /\
    (wall m <= wall d /\ wall d <= wall e /\ wall e <= wall n <->
     now_wall clk <= date_of (datetime_now clk) * day_us + hours 6 \/
     date_of (datetime_now clk) * day_us + hours 21 < now_wall clk).
Proof.
  eexists _, _, _, _, _. split; [apply parse_debug_sample|].
  split; [unfold schedule_of; repeat split; by simplify_map_eq|].
  do 4 (split; [reflexivity|]). split.
  - intros x Hx.
    assert (exists t, x = today_or_tomorrow clk t /\ 0 <= t < day_us) as (t & -> & Ht).
    { repeat (apply elem_of_cons in Hx as [->|Hx]);
        [eexists; split; [reflexivity|by vm_compute]..|].
      by apply elem_of_nil in Hx. }
    split; [|by apply today_or_tomorrow_range].
    unfold today_or_tomorrow. by case_match.
  - unfold today_or_tomorrow, date_of, datetime_now. simpl.
    generalize (now_wall clk / day_us). intros today.
    unfold hours, day_us, hour_us, minute_us, second_us.
    repeat match goal with
           | |- context [?a <? ?b] => destruct (Z.ltb_spec a b)
           end; simpl; lia.
Qed.

(** ** The job table *)

Lemma dt_gt_aware (a b : datetime) :
  is_Some (tzinfo a) -> is_Some (tzinfo b) ->
  dt_gt a b = Ok (utc_instant b <? utc_instant a).
Proof. intros Ha Hb. unfold dt_gt. by apply dt_lt_aware. Qed.

(** What [schedule_loop] leaves under each name. *)
Lemma schedule_loop_lookup clk now phase_times todo : forall jobs jobs',
  is_Some (tzinfo now) ->
  schedule_loop clk now phase_times todo jobs = (jobs', Ok tt) ->
  forall id,
    jobs' !! id =
      if bool_decide (id ∈ todo)
      then match phase_job clk now phase_times id with
           | Some j => Some j
           | None => jobs !! id
           end
      else jobs !! id.
Proof.
  induction todo as [|phase rest IH]; intros jobs jobs' Hnow H id; simpl in H.
  - simplify_eq. rewrite bool_decide_eq_false_2; [done|]. apply not_elem_of_nil.
  - unfold getitem in H.
    destruct (phase_times !! phase) as [time|] eqn:Hp; [|discriminate].
    rewrite dt_gt_aware in H by eauto using ensure_timezone_aware_aware.
    destruct (utc_instant now <? utc_instant (ensure_timezone_aware clk time))
      eqn:Hcmp.
    + rewrite (IH _ _ Hnow H id). unfold add_job.
      destruct (decide (id = phase)) as [->|Hne].
      * unfold phase_job. rewrite Hp. simpl. rewrite Hcmp.
        rewrite (bool_decide_eq_true_2 (phase ∈ phase :: rest)) by left.
        rewrite lookup_insert_eq. by case_bool_decide.
      * rewrite lookup_insert_ne by done.
        destruct (decide (id ∈ rest)) as [Hin|Hnin].
        -- rewrite !bool_decide_eq_true_2; [done|by right|done].
        -- rewrite !bool_decide_eq_false_2; [done| |done].
           intros [?|?]%elem_of_cons; done.
    + rewrite (IH _ _ Hnow H id).
      destruct (decide (id = phase)) as [->|Hne].
      * unfold phase_job. rewrite Hp. simpl. rewrite Hcmp.
        rewrite (bool_decide_eq_true_2 (phase ∈ phase :: rest)) by left.
        by case_bool_decide.
      * destruct (decide (id ∈ rest)) as [Hin|Hnin].
        -- rewrite !bool_decide_eq_true_2; [done|by right|done].
        -- rewrite !bool_decide_eq_false_2; [done| |done].
           intros [?|?]%elem_of_cons; done.
Qed.

Section SchedulerProperties.

Variable fromisoformat : string -> result datetime.

(** The table after a completed [calculate_times_for_tomorrow]. *)
Lemma calculate_times_for_tomorrow_lookup cfg clk reply jobs jobs' :
  calculate_times_for_tomorrow fromisoformat cfg clk reply jobs = (jobs', Ok tt) ->
  exists tomorrow_phases,
    tomorrow_phase_times fromisoformat cfg clk reply
      (date_of (get_now_with_tzinfo clk) + 1) = Ok tomorrow_phases /\
    forall id,
      jobs' !! id =
        if bool_decide (id = "recalculate")
        then Some (mk_job recalculate
                     (replace_tzinfo
                        (combine (date_of (get_now_with_tzinfo clk) + 1) (hours 23))
                        (tzinfo (get_now_with_tzinfo clk))) 3600)
        else if bool_decide (id ∈ phases)
        then phase_job clk (get_now_with_tzinfo clk) tomorrow_phases id
        else None.
Proof.
  unfold calculate_times_for_tomorrow, schedule_phase_changes, remove_all_jobs.
  intros H.
  destruct (tomorrow_phase_times _ _ _ _ _) as [tp|]; [|discriminate].
  destruct (schedule_loop _ _ _ _ _) as [jobs1 [[]|]] eqn:Hloop; [|discriminate].
  simplify_eq. exists tp. split; [done|]. intros id. unfold add_job.
  case_bool_decide as Hid.
  - subst id. apply lookup_insert_eq.
  - rewrite lookup_insert_ne by done.
    rewrite (schedule_loop_lookup _ _ _ _ _ _
               (get_now_with_tzinfo_aware clk) Hloop id).
    rewrite lookup_empty. case_bool_decide; [|done]. by case_match.
Qed.

End SchedulerProperties.

(** C9, as stated, fails.  A process started at noon with the override
    "06:00,09:00,18:00,21:00" holds a morning job for 06:00 of the next day.
    When the recomputation runs at 00:01 of that day the job is still
    pending, its instant not yet passed; afterwards the table holds, under
    the same name, a job for 06:00 one day later instead. *)
Lemma recomputation_drops_pending_job :
  jobs_at_noon !! "morning" = Some pending_morning /\
  dt_gt (run_date pending_morning) (get_now_with_tzinfo after_midnight) = Ok true /\
  (calculate_times_for_tomorrow no_parser
     (override_config noon "06:00,09:00,18:00,21:00")
     after_midnight no_network jobs_at_noon).1 !! "morning" =
    Some (mk_job (change_cover_job "morning")
            (aware (739053 * day_us + hours 6) 0) 3600) /\
  (calculate_times_for_tomorrow no_parser
     (override_config noon "06:00,09:00,18:00,21:00")
     after_midnight no_network jobs_at_noon).1 !! "morning" <>
    Some pending_morning.
Proof.
  assert ((calculate_times_for_tomorrow no_parser
     (override_config noon "06:00,09:00,18:00,21:00")
     after_midnight no_network jobs_at_noon).1 !! "morning" =
    Some (mk_job (change_cover_job "morning")
            (aware (739053 * day_us + hours 6) 0) 3600)) as Hafter
    by (vm_compute; reflexivity).
  split; [vm_compute; reflexivity|].
  split; [vm_compute; reflexivity|].
  split; [exact Hafter|].
  rewrite Hafter. intros Heq. vm_compute in Heq. discriminate Heq.
Qed.

(** ** The persisted state and the cover change *)

Lemma uploads_app (l1 l2 : list call) :
  uploads (l1 ++ l2)%list = (uploads l1 + uploads l2)%nat.
Proof. unfold uploads. by rewrite filter_app, length_app. Qed.

Lemma change_playlist_cover_true sp playlist_id image_path calls0 calls1 :
  change_playlist_cover sp playlist_id image_path calls0 = (calls1, true) ->
  exists encoded,
    calls1 = (calls0 ++ [PlaylistCall playlist_id;
                         UploadCall playlist_id encoded])%list.
Proof.
  unfold change_playlist_cover, upload_cover. intros H.
  repeat case_match; simplify_eq.
  eexists. by rewrite <- app_assoc.
Qed.

Section CoverProperties.

Variable fromisoformat : string -> result datetime.
Variable isoformat : datetime -> string.

(** What was saved is what is loaded. *)
Lemma load_state_save_state cfg e phase f :
  is_ok (calculate_phase_times fromisoformat cfg (e_clock e) (e_reply e)) = true ->
  e_write e = WriteOk ->
  load_state (save_state fromisoformat isoformat cfg e phase f) = Some (JStr phase).
Proof.
  unfold save_state. intros Hpt Hw.
  destruct (calculate_phase_times _ _ _ _) as [pt|]; [|discriminate].
  rewrite Hw. reflexivity.
Qed.

(** C2. When [change_cover p] uploads the cover and saves the state, an
    immediate second [change_cover p] returns at the state check without
    calling Spotify, whatever Spotify, the network and the file system
    would do then: the two invocations make exactly one upload call. *)
Theorem change_cover_idempotent cfg e1 e2 phase w0 image_path calls1 :
  from_option (λ v, json_eq_str v phase) false (load_state (file w0)) = false ->
  get_image_path cfg phase = Ok image_path ->
  change_playlist_cover (e_spotify e1) (PLAYLIST_ID cfg) image_path (calls w0)
    = (calls1, true) ->
  is_ok (calculate_phase_times fromisoformat cfg (e_clock e1) (e_reply e1)) = true ->
  e_write e1 = WriteOk ->
  exists w1,
    change_cover fromisoformat isoformat cfg e1 phase w0 = (w1, Ok tt) /\
    load_state (file w1) = Some (JStr phase) /\
    uploads (calls w1) = S (uploads (calls w0)) /\
    change_cover fromisoformat isoformat cfg e2 phase w1 = (w1, Ok tt) /\
    uploads (calls (change_cover fromisoformat isoformat cfg e2 phase w1).1)
      = S (uploads (calls w0)).
Proof.
  intros Hstate Hpath Hup Hpt Hw.
  pose proof (load_state_save_state cfg e1 phase (file w0) Hpt Hw) as Hload.
  assert (uploads calls1 = S (uploads (calls w0))) as Hcount.
  { apply change_playlist_cover_true in Hup as [enc ->].
    rewrite uploads_app. unfold uploads at 2. simpl. lia. }
  assert (change_cover fromisoformat isoformat cfg e2 phase
            (mk_world (save_state fromisoformat isoformat cfg e1 phase (file w0))
               calls1)
          = (mk_world (save_state fromisoformat isoformat cfg e1 phase (file w0))
               calls1, Ok tt)) as Hsecond.
  { unfold change_cover at 1. simpl. rewrite Hload. simpl.
    rewrite String.eqb_refl. reflexivity. }
  eexists. split; [|split; [|split; [|split]]].
  - unfold change_cover. rewrite Hstate, Hpath, Hup. reflexivity.
  - exact Hload.
  - exact Hcount.
  - exact Hsecond.
  - rewrite Hsecond. exact Hcount.
Qed.

(** C7. When a call on the upload path raises, [change_playlist_cover]
    returns [False] and does not raise, and [change_cover] returns without
    touching the state file: the persisted phase is what it was. *)
Theorem change_cover_failure_keeps_state cfg e phase w image_path calls1 err :
  get_image_path cfg phase = Ok image_path ->
  upload_cover (e_spotify e) (PLAYLIST_ID cfg) image_path (calls w)
    = (calls1, Raise err) ->
  change_playlist_cover (e_spotify e) (PLAYLIST_ID cfg) image_path (calls w)
    = (calls1, false) /\
  (change_cover fromisoformat isoformat cfg e phase w).2 = Ok tt /\
  file (change_cover fromisoformat isoformat cfg e phase w).1 = file w /\
  load_state (file (change_cover fromisoformat isoformat cfg e phase w).1)
    = load_state (file w).
Proof.
  intros Hpath Hup.
  assert (change_playlist_cover (e_spotify e) (PLAYLIST_ID cfg) image_path
            (calls w) = (calls1, false)) as Hfalse
    by (unfold change_playlist_cover; by rewrite Hup).
  split; [exact Hfalse|].
  unfold change_cover.
  destruct (from_option _ false (load_state (file w))); [done|].
  rewrite Hpath, Hfalse. done.
Qed.

End CoverProperties.

(** ** The statements at the sample surroundings *)

Lemma june_schedule_computed :
  calculate_phase_times no_parser solar_config noon no_network = Ok june_schedule.
Proof. vm_compute. reflexivity. Defined.

Lemma get_current_phase_intervals_witness :
  calculate_phase_times no_parser solar_config noon no_network = Ok june_schedule /\
  get_current_phase no_parser solar_config noon no_network = Ok "day".
Proof.
  split; [exact june_schedule_computed|].
  assert (june_schedule !! "morning" = Some june_sunrise) as Hm
    by (vm_compute; reflexivity).
  assert (june_schedule !! "day" = Some june_day_start) as Hd
    by (vm_compute; reflexivity).
  assert (june_schedule !! "evening" = Some june_evening_start) as He
    by (vm_compute; reflexivity).
  assert (june_schedule !! "night" = Some june_sunset) as Hn
    by (vm_compute; reflexivity).
  assert (utc_instant june_sunrise <= utc_instant june_day_start) as H1
    by (vm_compute; discriminate).
  assert (utc_instant june_day_start <= utc_instant june_evening_start) as H2
    by (vm_compute; discriminate).
  assert (utc_instant june_evening_start <= utc_instant june_sunset) as H3
    by (vm_compute; discriminate).
  destruct (get_current_phase_intervals no_parser solar_config noon no_network
              june_schedule june_sunrise june_day_start june_evening_start
              june_sunset june_schedule_computed Hm Hd He Hn H1 H2 H3)
    as (_ & _ & Hday & _).
  apply Hday. vm_compute. split; [discriminate|reflexivity].
Defined.

Lemma get_sun_times_never_raises_witness :
  1 <= now_month noon <= 12 /\
  timedelta_hours (TIME_OFFSET solar_config) = Ok (hours 1) /\
  get_sun_times no_parser solar_config noon no_network
    = Ok (june_sunrise, june_sunset).
Proof.
  assert (1 <= now_month noon <= 12) as H by (vm_compute; split; discriminate).
  assert (timedelta_hours (TIME_OFFSET solar_config) = Ok (hours 1)) as Hoff
    by (vm_compute; reflexivity).
  split; [exact H|]. split; [exact Hoff|].
  destruct (get_sun_times_never_raises no_parser solar_config noon no_network H)
    as (s1 & s2 & t1 & t2 & Hl & H1 & H2 & _ & Hok & _).
  assert (Some (s1, s2) = Some ("04:30", "21:00")) as [= -> ->]
    by (rewrite <- Hl; vm_compute; reflexivity).
  assert (Ok t1 = Ok (hours 4 + 30 * minute_us)) as [= ->]
    by (rewrite <- H1; vm_compute; reflexivity).
  assert (Ok t2 = Ok (hours 21)) as [= ->]
    by (rewrite <- H2; vm_compute; reflexivity).
  destruct (Hok (hours 1) Hoff) as [_ Hfb]; [vm_compute; split; discriminate|].
  rewrite Hfb; [vm_compute; reflexivity|].
  intros p Hp. vm_compute in Hp. discriminate Hp.
Defined.

(** C3, as stated, fails.  With TIME_OFFSET set to 70000000 hours and the
    remote service out of reach, the fallback builds the timedelta and then
    leaves the range of the datetime type in adding it: [get_sun_times]
    raises [OverflowError]. *)
Lemma far_offset_raises :
  1 <= now_month noon <= 12 /\
  timedelta_hours (float_of_Z 70000000) = Ok (hours 70000000) /\
  get_sun_times no_parser (offset_config (float_of_Z 70000000)) noon no_network
    = Raise OverflowError.
Proof.
  split; [vm_compute; split; discriminate|].
  split; vm_compute; reflexivity.
Qed.



Lemma june_sun_times_computed :
  get_sun_times no_parser solar_config noon no_network
    = Ok (june_sunrise, june_sunset).
Proof. vm_compute. reflexivity. Defined.

Lemma calculate_phase_times_solar_witness :
  DEBUG_MODE solar_config && truthy (DEBUG_TIMES solar_config) = false /\
  get_sun_times no_parser solar_config noon no_network
    = Ok (june_sunrise, june_sunset) /\
  exists pt,
    calculate_phase_times no_parser solar_config noon no_network = Ok pt /\
    schedule_of pt june_sunrise (dt_add june_sunrise (hours 3))
      (dt_sub june_sunset (hours 2)) june_sunset.
Proof.
  assert (DEBUG_MODE solar_config && truthy (DEBUG_TIMES solar_config) = false)
    as Hmode by reflexivity.
  assert (timedelta_hours (MORNING_DURATION solar_config) = Ok (hours 3)) as Hmd
    by (vm_compute; reflexivity).
  assert (timedelta_hours (EVENING_DURATION solar_config) = Ok (hours 2)) as Hed
    by (vm_compute; reflexivity).
  split; [exact Hmode|]. split; [exact june_sun_times_computed|].
  destruct (proj1 (calculate_phase_times_solar no_parser solar_config noon
                     no_network june_sunrise june_sunset (hours 3) (hours 2)
                     Hmode june_sun_times_computed Hmd Hed))
    as (pt & d & e & Hpt & Hs & -> & -> & _);
    [vm_compute; reflexivity..|].
  exists pt. split; [exact Hpt|exact Hs].
Defined.

(** C4, as stated, fails.  With the default settings and a well-formed reply
    dated 9999-12-31, sunrise at 20:30 UTC, [get_sun_times] returns 21:30 for
    the sunrise, and adding the three hours of morning leaves the range of
    the datetime type: no dictionary is returned. *)
Lemma last_day_overflows :
  DEBUG_MODE solar_config && truthy (DEBUG_TIMES solar_config) = false /\
  get_sun_times last_day_parser solar_config noon last_day_reply
    = Ok (aware (3652058 * day_us + hours 21 + 30 * minute_us) 0,
          aware (3652058 * day_us + hours 23) 0) /\
  timedelta_hours (MORNING_DURATION solar_config) = Ok (hours 3) /\
  calculate_phase_times last_day_parser solar_config noon last_day_reply
    = Raise OverflowError.
Proof.
  split; [reflexivity|]. split; [vm_compute; reflexivity|].
  split; vm_compute; reflexivity.
Qed.

Lemma calculate_phase_times_ordered_witness :
  utc_instant june_sunrise <= utc_instant june_sunset /\
  timedelta_hours (MORNING_DURATION solar_config) = Ok (hours 3) /\
  timedelta_hours (EVENING_DURATION solar_config) = Ok (hours 2) /\
  hours 3 + hours 2 <= utc_instant june_sunset - utc_instant june_sunrise /\
  exists pt m d e n,
    calculate_phase_times no_parser solar_config noon no_network = Ok pt /\
    schedule_of pt m d e n /\ ordered m d e n.
Proof.
  assert (DEBUG_MODE solar_config && truthy (DEBUG_TIMES solar_config) = false)
    as Hmode by reflexivity.
  assert (utc_instant june_sunrise <= utc_instant june_sunset) as HST
    by (vm_compute; discriminate).
  assert (timedelta_hours (MORNING_DURATION solar_config) = Ok (hours 3)) as Hmd
    by (vm_compute; reflexivity).
  assert (timedelta_hours (EVENING_DURATION solar_config) = Ok (hours 2)) as Hed
    by (vm_compute; reflexivity).
  assert (0 <= hours 3) as Hmd0 by (vm_compute; discriminate).
  assert (0 <= hours 2) as Hed0 by (vm_compute; discriminate).
  assert (hours 3 + hours 2
            <= utc_instant june_sunset - utc_instant june_sunrise) as Hfit
    by (vm_compute; discriminate).
  do 4 (split; [assumption|]).
  exact (proj1 (calculate_phase_times_ordered no_parser solar_config noon
                  no_network june_sunrise june_sunset (hours 3) (hours 2)
                  Hmode june_sun_times_computed Hmd Hed HST Hmd0 Hed0) Hfit).
Defined.

(** C6, as stated, fails.  Sunrise and sunset lie eleven microseconds apart
    and each duration is the float 1.5277777777777777e-09: as hours the two
    durations together stay below eleven microseconds, but each of them
    becomes a timedelta of six microseconds, and day_start comes one
    microsecond after evening_start. *)
Lemma rounded_durations_overlap :
  DEBUG_MODE (duration_config brief brief)
    && truthy (DEBUG_TIMES (duration_config brief brief)) = false /\
  get_sun_times brief_parser (duration_config brief brief) noon brief_reply
    = Ok (aware (739051 * day_us + hours 13) 0,
          aware (739051 * day_us + hours 13 + 11) 0) /\
  fits_in_hours brief brief 11 /\
  timedelta_hours brief = Ok 6 /\
  calculate_phase_times brief_parser (duration_config brief brief) noon
    brief_reply
    = Ok (<["night" := aware (739051 * day_us + hours 13 + 11) 0]>
            (<["evening" := aware (739051 * day_us + hours 13 + 5) 0]>
               (<["day" := aware (739051 * day_us + hours 13 + 6) 0]>
                  {["morning" := aware (739051 * day_us + hours 13) 0]}))).
Proof.
  split; [reflexivity|]. split; [vm_compute; reflexivity|].
  split; [vm_compute; discriminate|].
  split; vm_compute; reflexivity.
Qed.

Lemma get_current_phase_total_monotone_witness :
  (exists p, get_current_phase no_parser solar_config noon no_network = Ok p /\
             p ∈ phases) /\
  (exists p1 p2 r1 r2,
     get_current_phase no_parser solar_config noon no_network = Ok p1 /\
     get_current_phase no_parser solar_config half_past_eight no_network = Ok p2 /\
     phase_rank p1 = Some r1 /\ phase_rank p2 = Some r2 /\ (r1 <= r2)%nat).
Proof.
  destruct (get_current_phase_total_monotone no_parser) as [Htotal Hmono].
  split.
  - apply (Htotal solar_config noon no_network june_schedule).
    + intros Hdebug. vm_compute in Hdebug. discriminate Hdebug.
    + exact june_schedule_computed.
  - assert (calculate_phase_times no_parser solar_config half_past_eight
              no_network = Ok june_schedule) as Hpt2 by (vm_compute; reflexivity).
    assert (schedule_of june_schedule june_sunrise june_day_start
              june_evening_start june_sunset) as Hs
      by (repeat split; vm_compute; reflexivity).
    assert (ordered june_sunrise june_day_start june_evening_start june_sunset)
      as Hord by (repeat split; vm_compute; discriminate).
    assert (utc_instant (get_now_with_tzinfo noon)
              < utc_instant (get_now_with_tzinfo half_past_eight)) as Hlt
      by (vm_compute; reflexivity).
    destruct (Hmono solar_config noon no_network half_past_eight no_network
                june_schedule june_sunrise june_day_start june_evening_start
                june_sunset june_schedule_computed Hpt2 Hs Hord Hlt)
      as (p1 & p2 & r1 & r2 & H1 & H2 & Hr1 & Hr2 & Hle & _).
    exists p1, p2, r1, r2. repeat split; try assumption.
    apply Hle. vm_compute. discriminate.
Defined.

Lemma parse_debug_sample_entries_witness :
  exists dt m d e n,
    parse_debug noon (Some "06:00,09:00,18:00,21:00") = (true, Some dt) /\
    schedule_of dt m d e n /\
    now_wall noon <= wall m < now_wall noon + day_us /\
    ~ (wall m <= wall d /\ wall d <= wall e /\ wall e <= wall n).
Proof.
  destruct (parse_debug_sample_entries noon)
    as (dt & m & d & e & n & Hp & Hs & Hm & Hd & He & Hn & Hrange & Hsorted).
  exists dt, m, d, e, n. split; [exact Hp|]. split; [exact Hs|]. split.
  - apply Hrange. left.
  - intros H. apply Hsorted in H. vm_compute in H.
    destruct H as [H|H]; [apply H; reflexivity|discriminate H].
Defined.

Lemma change_cover_idempotent_witness :
  exists w1,
    change_cover no_parser no_format solar_config env_ok "day" fresh_world
      = (w1, Ok tt) /\
    load_state (file w1) = Some (JStr "day") /\
    uploads (calls w1) = 1%nat /\
    change_cover no_parser no_format solar_config env_rejects "day" w1
      = (w1, Ok tt) /\
    uploads (calls (change_cover no_parser no_format solar_config env_rejects
                      "day" w1).1) = 1%nat.
Proof.
  assert (is_ok (calculate_phase_times no_parser solar_config (e_clock env_ok)
                   (e_reply env_ok)) = true) as Hpt by (vm_compute; reflexivity).
  exact (change_cover_idempotent no_parser no_format solar_config env_ok
           env_rejects "day" fresh_world "images/day.jpg"
           [PlaylistCall "playlist"; UploadCall "playlist" "aW1hZ2U="]
           eq_refl eq_refl eq_refl Hpt eq_refl).
Defined.

Lemma change_cover_failure_keeps_state_witness :
  upload_cover spotify_rejects "playlist" "images/day.jpg" []
    = ([PlaylistCall "playlist"; UploadCall "playlist" "aW1hZ2U="],
       Raise SpotifyException) /\
  (change_cover no_parser no_format solar_config env_rejects "day" fresh_world).2
    = Ok tt /\
  file (change_cover no_parser no_format solar_config env_rejects "day"
          fresh_world).1 = NoFile.
Proof.
  assert (upload_cover spotify_rejects "playlist" "images/day.jpg" []
    = ([PlaylistCall "playlist"; UploadCall "playlist" "aW1hZ2U="],
       Raise SpotifyException)) as Hup by reflexivity.
  split; [exact Hup|].
  destruct (change_cover_failure_keeps_state no_parser no_format solar_config
              env_rejects "day" fresh_world "images/day.jpg" _ _ eq_refl Hup)
    as (_ & Hok & Hfile & _).
  split; [exact Hok|exact Hfile].
Defined.

(** * Further properties *)

(** ** The override of the command line, in general *)

Lemma debug_time_for_field clk s :
  debug_time_for clk s = (t ← field_time s; Ok (today_or_tomorrow clk t)).
Proof.
  unfold debug_time_for, field_time, today_or_tomorrow.
  destruct (parse_hh_mm (strip s)) as [[h m]|]; [|reflexivity]. simpl.
  destruct (mk_time h m) as [t|]; [|reflexivity]. simpl.
  by destruct (date_of (datetime_now clk) * day_us + t <? now_wall clk).
Qed.

Lemma mk_time_range h m t : mk_time h m = Ok t -> 0 <= t < day_us.
Proof.
  unfold mk_time. intros H. case_match; [|discriminate]. simplify_eq.
  repeat match goal with
         | H : _ && _ = true |- _ => apply andb_true_iff in H as [? ?]
         end.
  unfold day_us, hour_us, minute_us, second_us. lia.
Qed.

Lemma field_time_range s t : field_time s = Ok t -> 0 <= t < day_us.
Proof.
  unfold field_time. destruct (parse_hh_mm (strip s)) as [[h m]|]; [|discriminate].
  apply mk_time_range.
Qed.

Lemma parse_debug_four clk arg s1 s2 s3 s4 :
  split_on "," arg = [s1; s2; s3; s4] ->
  parse_debug clk (Some arg) =
    match field_time s1, field_time s2, field_time s3, field_time s4 with
    | Ok t1, Ok t2, Ok t3, Ok t4 => (true, Some (override_times clk t1 t2 t3 t4))
    | Ok t1, Ok t2, Ok t3, Raise _ =>
        (false, Some (<["evening" := today_or_tomorrow clk t3]>
                        (<["day" := today_or_tomorrow clk t2]>
                           (<["morning" := today_or_tomorrow clk t1]> ∅))))
    | Ok t1, Ok t2, Raise _, _ =>
        (false, Some (<["day" := today_or_tomorrow clk t2]>
                        (<["morning" := today_or_tomorrow clk t1]> ∅)))
    | Ok t1, Raise _, _, _ =>
        (false, Some (<["morning" := today_or_tomorrow clk t1]> ∅))
    | Raise _, _, _, _ => (false, Some ∅)
    end.
Proof.
  intros Hsplit. unfold parse_debug. rewrite Hsplit.
  change (negb (length [s1; s2; s3; s4] =? 4)%nat) with false. cbv iota.
  unfold phases, debug_loop.
  change ([s1; s2; s3; s4] !! 0%nat) with (Some s1).
  change ([s1; s2; s3; s4] !! 1%nat) with (Some s2).
  change ([s1; s2; s3; s4] !! 2%nat) with (Some s3).
  change ([s1; s2; s3; s4] !! 3%nat) with (Some s4).
  cbv iota. rewrite !debug_time_for_field.
  destruct (field_time s1) as [t1|]; [|reflexivity]. simpl.
  destruct (field_time s2) as [t2|]; [|reflexivity]. simpl.
  destruct (field_time s3) as [t3|]; [|reflexivity]. simpl.
  destruct (field_time s4) as [t4|]; reflexivity.
Qed.

Lemma parse_debug_not_four clk arg :
  length (split_on "," arg) <> 4%nat ->
  parse_debug clk (Some arg) = (false, None).
Proof.
  intros H. unfold parse_debug.
  destruct (Nat.eqb_spec (length (split_on "," arg)) 4); [done|reflexivity].
Qed.

(** X2. Whenever override mode is on, the dictionary holds the four phase
    names and nothing else, and every instant in it is naive, not before the
    moment of parsing and less than one day after it. *)
Theorem override_entries_near_now clk arg dt :
  parse_debug clk (Some arg) = (true, Some dt) ->
  dom dt = list_to_set phases /\
  forall k v, dt !! k = Some v ->
    tzinfo v = None /\ now_wall clk <= wall v < now_wall clk + day_us.
Proof.
  intros H.
  destruct (decide (length (split_on "," arg) = 4%nat)) as [Hlen|Hlen];
    [|rewrite parse_debug_not_four in H by done; discriminate].
  destruct (split_on "," arg) as [|s1 [|s2 [|s3 [|s4 [|]]]]] eqn:Hs;
    try discriminate Hlen.
  rewrite (parse_debug_four clk arg s1 s2 s3 s4 Hs) in H.
  destruct (field_time s1) as [t1|] eqn:H1; [|discriminate].
  destruct (field_time s2) as [t2|] eqn:H2; [|discriminate].
  destruct (field_time s3) as [t3|] eqn:H3; [|discriminate].
  destruct (field_time s4) as [t4|] eqn:H4; [|discriminate].
  injection H as <-. unfold override_times. split.
  - rewrite !dom_insert_L, dom_empty_L. unfold phases. simpl. set_solver.
  - intros k v Hk.
    assert (exists t, v = today_or_tomorrow clk t /\ 0 <= t < day_us)
      as (t & -> & Ht).
    { repeat (apply lookup_insert_Some in Hk as [[_ <-]|[_ Hk]];
              [eauto using field_time_range|]).
      by rewrite lookup_empty in Hk. }
    split; [|by apply today_or_tomorrow_range].
    unfold today_or_tomorrow. by case_match.
Qed.

Lemma override_entries_near_now_witness :
  exists dt,
    parse_debug noon (Some "06:00,09:00,18:00,21:00") = (true, Some dt) /\
    dom dt = list_to_set phases.
Proof.
  eexists. split; [apply parse_debug_sample|].
  exact (proj1 (override_entries_near_now noon "06:00,09:00,18:00,21:00" _
                  (parse_debug_sample noon))).
Defined.

(** ** [ensure_timezone_consistency] *)


Section FurtherPhaseProperties.

Variable fromisoformat : string -> result datetime.

(** ** Override mode and the solar computation *)

(** X4. With override mode off, what [DEBUG_TIMES] holds plays no part (a
    rejected override leaves there the entries read before the faulty field):
    the phase times, the current phase, the recomputation and the scheduling
    at startup are those of a process started without [--debug]. *)
Theorem rejected_override_is_ignored cfg :
  DEBUG_MODE cfg = false ->
  forall clk reply,
    calculate_phase_times fromisoformat cfg clk reply
      = calculate_phase_times fromisoformat (without_override cfg) clk reply /\
    get_current_phase fromisoformat cfg clk reply
      = get_current_phase fromisoformat (without_override cfg) clk reply /\
    (forall jobs,
       calculate_times_for_tomorrow fromisoformat cfg clk reply jobs
         = calculate_times_for_tomorrow fromisoformat (without_override cfg)
             clk reply jobs /\
       schedule_today_changes fromisoformat cfg clk reply jobs
         = schedule_today_changes fromisoformat (without_override cfg)
             clk reply jobs).
Proof.
  intros Hmode clk reply.
  assert (calculate_phase_times fromisoformat cfg clk reply
          = calculate_phase_times fromisoformat (without_override cfg) clk reply)
    as Hcalc.
  { unfold calculate_phase_times. rewrite Hmode. reflexivity. }
  split; [exact Hcalc|]. split.
  - unfold get_current_phase. by rewrite Hcalc.
  - intros jobs. split.
    + unfold calculate_times_for_tomorrow, tomorrow_phase_times.
      rewrite Hmode, Hcalc. reflexivity.
    + unfold schedule_today_changes. by rewrite Hcalc.
Qed.

(** X5. In override mode [calculate_phase_times] never raises and makes no
    use of the remote reply, of the two durations or of TIME_OFFSET (the
    branch that would add the offset asks for override mode to be off): it
    returns the stored datetimes, each as [ensure_timezone_aware] hands it
    back, so the aware ones unchanged. *)
Theorem override_mode_ignores_sun cfg1 cfg2 clk reply1 reply2 dt :
  DEBUG_MODE cfg1 = true -> DEBUG_TIMES cfg1 = Some dt ->
  DEBUG_MODE cfg2 = true -> DEBUG_TIMES cfg2 = Some dt ->
  dt <> ∅ ->
  calculate_phase_times fromisoformat cfg1 clk reply1
    = calculate_phase_times fromisoformat cfg2 clk reply2 /\
  exists pt,
    calculate_phase_times fromisoformat cfg1 clk reply1 = Ok pt /\
    dom pt = dom dt /\
    forall k v, dt !! k = Some v ->
      pt !! k = Some (ensure_timezone_aware clk v) /\
      (is_Some (tzinfo v) -> pt !! k = Some v).
Proof.
  intros Hm1 Hd1 Hm2 Hd2 Hne.
  rewrite (calculate_phase_times_override fromisoformat cfg1 clk reply1 dt)
    by assumption.
  rewrite (calculate_phase_times_override fromisoformat cfg2 clk reply2 dt)
    by assumption.
  split; [reflexivity|]. eexists. split; [reflexivity|]. split.
  - apply dom_fmap_L.
  - intros k v Hk. rewrite lookup_fmap, Hk. simpl. split; [done|].
    intros [tz Htz]. unfold ensure_timezone_aware. by rewrite Htz.
Qed.

(** ** The resolver on arbitrary schedules *)

(** X6. Whatever the order of the four start instants, [get_current_phase]
    answers morning exactly on [morning, day), day exactly from the later of
    morning and day up to evening, evening exactly from the latest of
    morning, day and evening up to night, and night otherwise.  So a phase
    whose start is not before the start of the next one is never the answer:
    with evening_start <= day_start there is no day. *)
Theorem get_current_phase_windows cfg clk reply pt m d e n :
  calculate_phase_times fromisoformat cfg clk reply = Ok pt ->
  pt !! "morning" = Some m -> pt !! "day" = Some d ->
  pt !! "evening" = Some e -> pt !! "night" = Some n ->
  let now := utc_instant (get_now_with_tzinfo clk) in
  let answer := get_current_phase fromisoformat cfg clk reply in
  (answer = Ok "morning" <-> utc_instant m <= now < utc_instant d) /\
  (answer = Ok "day" <->
     utc_instant m <= now /\ utc_instant d <= now < utc_instant e) /\
  (answer = Ok "evening" <->
     utc_instant m <= now /\ utc_instant d <= now /\
     utc_instant e <= now < utc_instant n) /\
  (answer = Ok "night" <->
     now < utc_instant m \/
     (utc_instant d <= now /\ utc_instant e <= now /\ utc_instant n <= now)) /\
  (utc_instant e <= utc_instant d -> answer <> Ok "day").
Proof.
  intros Hpt Hm Hd He Hn now answer. subst answer.
  rewrite (get_current_phase_chain _ _ _ _ _ _ _ _ _ Hpt Hm Hd He Hn).
  cbv zeta. fold now.
  repeat match goal with
         | |- context [?a <? ?b] => destruct (Z.ltb_spec a b)
         end;
    repeat split; intros; try discriminate; try lia;
    try (exfalso; lia).
Qed.

(** X7. Outside override mode, with sunrise S, sunset T and non-negative
    durations that fit between them, the current phase is morning exactly
    during the MORNING_DURATION after S, evening exactly during the
    EVENING_DURATION before T, day exactly in between, and night before S and
    from T on; the durations are the timedeltas the two settings give. *)
Theorem solar_phase_of_sun cfg clk reply S T md ed :
  DEBUG_MODE cfg && truthy (DEBUG_TIMES cfg) = false ->
  get_sun_times fromisoformat cfg clk reply = Ok (S, T) ->
  timedelta_hours (MORNING_DURATION cfg) = Ok md ->
  timedelta_hours (EVENING_DURATION cfg) = Ok ed ->
  0 <= md -> 0 <= ed ->
  md + ed <= utc_instant T - utc_instant S ->
  let now := utc_instant (get_now_with_tzinfo clk) in
  let answer := get_current_phase fromisoformat cfg clk reply in
  (answer = Ok "morning" <->
     utc_instant S <= now < utc_instant S + md) /\
  (answer = Ok "day" <->
     utc_instant S + md <= now < utc_instant T - ed) /\
  (answer = Ok "evening" <->
     utc_instant T - ed <= now < utc_instant T) /\
  (answer = Ok "night" <-> now < utc_instant S \/ utc_instant T <= now).
Proof.
  intros Hmode Hsun Hmd Hed Hmd0 Hed0 Hfit now answer. subst answer.
  destruct (fitting_durations_in_range _ _ _ _ _ _ _ _ Hsun Hmd0 Hed0 Hfit)
    as [Hr1 Hr2].
  destruct (calculate_phase_times_no_debug _ _ _ _ _ _ _ _ Hmode Hsun Hmd Hed
              Hr1 Hr2) as (pt & Hpt & Hm & Hd & He & Hn & _).
  rewrite (get_current_phase_chain _ _ _ _ _ _ _ _ _ Hpt Hm Hd He Hn).
  cbv zeta. fold now. rewrite utc_instant_dt_add, utc_instant_dt_sub.
  repeat match goal with
         | |- context [?a <? ?b] => destruct (Z.ltb_spec a b)
         end;
    repeat split; intros; try discriminate; try lia;
    try (exfalso; lia).
Qed.

(** ** The sun times *)

(** X8. Whichever path delivers them, the sunrise and the sunset that
    [get_sun_times] returns are timezone-aware, both carry the offset of the
    local time zone at the moment of the call, and both lie within the range
    of the datetime type; every phase start that [calculate_phase_times]
    returns outside override mode carries that offset too. *)
Theorem sun_times_in_local_zone cfg clk reply :
  (forall sr ss,
     get_sun_times fromisoformat cfg clk reply = Ok (sr, ss) ->
     tzinfo sr = Some (local_timezone clk) /\
     tzinfo ss = Some (local_timezone clk) /\
     in_range (wall sr) = true /\ in_range (wall ss) = true) /\
  (DEBUG_MODE cfg && truthy (DEBUG_TIMES cfg) = false ->
   forall pt k v,
     calculate_phase_times fromisoformat cfg clk reply = Ok pt ->
     pt !! k = Some v -> tzinfo v = Some (local_timezone clk)).
Proof.
  split; [intros sr ss; apply get_sun_times_valid|].
  intros Hmode pt k v Hpt Hk.
  destruct (calculate_phase_times_solar_Ok _ _ _ _ _ Hmode Hpt)
    as (S & T & md & ed & Hsun & _ & _ & _ & _ & Hm & Hd & He & Hn & Hdom).
  apply get_sun_times_valid in Hsun as (HS & HT & _).
  assert (k ∈ dom pt) as Hin by (apply elem_of_dom; eauto).
  rewrite Hdom in Hin. unfold phases in Hin.
  apply elem_of_list_to_set in Hin.
  repeat (apply elem_of_cons in Hin as [->|Hin]; [by simplify_eq|]).
  by apply elem_of_nil in Hin.
Qed.

Lemma astimezone_in_range clk tz dt :
  is_Some (tzinfo dt) ->
  in_range (utc_instant dt) = true -> in_range (utc_instant dt + tz) = true ->
  astimezone clk tz dt = Ok (aware (utc_instant dt + tz) tz).
Proof.
  intros [off Hoff] Hr1 Hr2. unfold astimezone, utc_instant in *.
  rewrite Hoff in *. simpl in *.
  unfold datetime_sub. simpl. rewrite Hr1. simpl.
  unfold datetime_add. simpl. by rewrite Hr2.
Qed.

Lemma apply_offset_in_range cfg dt off :
  timedelta_hours (TIME_OFFSET cfg) = Ok off ->
  in_range (wall dt + off) = true ->
  apply_offset cfg dt = Ok (dt_add dt off).
Proof.
  intros Hoff Hr. unfold apply_offset.
  destruct (float_ne_zero (TIME_OFFSET cfg)) eqn:Hz.
  - rewrite Hoff. simpl. unfold datetime_add. by rewrite Hr.
  - rewrite (float_zero_timedelta _ Hz) in Hoff. injection Hoff as <-.
    by rewrite dt_add_0.
Qed.

(** X9. On an OK reply whose two timestamps parse to aware datetimes u and
    v, with [timedelta(hours=TIME_OFFSET)] and with the instants, their
    local readings and the moved readings all within the range of the
    datetime type, the conversion to local time keeps the instants:
    [get_sun_times] returns the parsed sunrise and sunset moved by exactly
    that timedelta, so their distance and their order are those of the
    reply. *)
Theorem get_sun_times_keeps_instants cfg clk data st results sr ss s1 s2 u v off :
  subscript data "status" = Ok st -> json_eq_str st "OK" = true ->
  subscript data "results" = Ok results ->
  subscript results "sunrise" = Ok sr -> str_replace_Z sr = Ok s1 ->
  fromisoformat s1 = Ok u ->
  subscript results "sunset" = Ok ss -> str_replace_Z ss = Ok s2 ->
  fromisoformat s2 = Ok v ->
  is_Some (tzinfo u) -> is_Some (tzinfo v) ->
  timedelta_hours (TIME_OFFSET cfg) = Ok off ->
  (forall w, w = utc_instant u \/ w = utc_instant v ->
     in_range w = true /\ in_range (w + local_timezone clk) = true /\
     in_range (w + local_timezone clk + off) = true) ->
  exists a b,
    get_sun_times fromisoformat cfg clk (Reply 200 (Ok data)) = Ok (a, b) /\
    utc_instant a = utc_instant u + off /\
    utc_instant b = utc_instant v + off /\
    utc_instant b - utc_instant a = utc_instant v - utc_instant u.
Proof.
  intros Hst Hok Hres Hsr Hs1 Hu Hss Hs2 Hv Hau Hav Hoff Hrange.
  destruct (Hrange (utc_instant u)) as (Hu1 & Hu2 & Hu3); [by left|].
  destruct (Hrange (utc_instant v)) as (Hv1 & Hv2 & Hv3); [by right|].
  assert (sun_times_api fromisoformat cfg clk (Reply 200 (Ok data)) =
          Ok (Some (aware (utc_instant u + local_timezone clk + off)
                      (local_timezone clk),
                    aware (utc_instant v + local_timezone clk + off)
                      (local_timezone clk))))
    as Hapi.
  { rewrite (sun_times_api_parsed _ cfg clk _ _ _ _ _ _ _ _ _
               Hst Hok Hres Hsr Hs1 Hu Hss Hs2 Hv).
    rewrite !astimezone_in_range by done. simpl.
    rewrite !(apply_offset_in_range cfg _ off) by done. done. }
  eexists _, _. split; [unfold get_sun_times; by rewrite Hapi|].
  generalize (utc_instant u) (utc_instant v). intros iu iv.
  unfold utc_instant. simpl. lia.
Qed.

End FurtherPhaseProperties.

(** ** Scheduling *)

Lemma phases_not_recalculate p : p ∈ phases -> p <> "recalculate".
Proof.
  unfold phases. intros Hin ->.
  repeat (apply elem_of_cons in Hin as [Hin|Hin]; [discriminate Hin|]).
  by apply elem_of_nil in Hin.
Qed.

(** [schedule_loop] completes when the schedule has every name it is asked
    for, and raises [KeyError] at the first one that is missing. *)
Lemma schedule_loop_outcome clk now phase_times todo : forall jobs,
  is_Some (tzinfo now) ->
  ((forall p, p ∈ todo -> is_Some (phase_times !! p)) /\
   exists jobs', schedule_loop clk now phase_times todo jobs = (jobs', Ok tt)) \/
  ((exists p, p ∈ todo /\ phase_times !! p = None) /\
   exists jobs', schedule_loop clk now phase_times todo jobs = (jobs', Raise KeyError)).
Proof.
  induction todo as [|phase rest IH]; intros jobs Hnow; simpl.
  - left. split; [intros p Hp; by apply elem_of_nil in Hp|eauto].
  - unfold getitem. destruct (phase_times !! phase) as [time|] eqn:Hp.
    + rewrite dt_gt_aware by eauto using ensure_timezone_aware_aware.
      match goal with
      | |- context [if ?c then _ else _] => destruct c
      end.
      * destruct (IH (add_job (change_cover_job phase)
                        (ensure_timezone_aware clk time) phase jobs) Hnow)
          as [[Hall Hex]|[(p & Hin & Hnone) Hex]].
        -- left. split; [|exact Hex].
           intros p [->|?]%elem_of_cons; [eauto|by apply Hall].
        -- right. split; [|exact Hex]. exists p. split; [by right|done].
      * destruct (IH jobs Hnow) as [[Hall Hex]|[(p & Hin & Hnone) Hex]].
        -- left. split; [|exact Hex].
           intros p [->|?]%elem_of_cons; [eauto|by apply Hall].
        -- right. split; [|exact Hex]. exists p. split; [by right|done].
    + right. split; [|eauto]. exists phase. split; [by left|done].
Qed.

(** X10. [schedule_phase_changes] completes exactly when the schedule names
    all four phases, and raises [KeyError] otherwise.  When it completes, a
    phase whose start is strictly after now has the job for that start filed
    under its name, in place of any earlier one; a phase whose start is not
    after now keeps whatever was filed under its name; and every other entry
    of the table is as before. *)
Theorem schedule_phase_changes_effect clk phase_times jobs :
  ((forall p, p ∈ phases -> is_Some (phase_times !! p)) ->
   exists jobs',
     schedule_phase_changes clk phase_times jobs = (jobs', Ok tt) /\
     (forall id, id ∉ phases -> jobs' !! id = jobs !! id) /\
     (forall p t, p ∈ phases -> phase_times !! p = Some t ->
        jobs' !! p =
          if utc_instant (get_now_with_tzinfo clk)
               <? utc_instant (ensure_timezone_aware clk t)
          then Some (mk_job (change_cover_job p) (ensure_timezone_aware clk t) 3600)
          else jobs !! p)) /\
  ((exists p, p ∈ phases /\ phase_times !! p = None) ->
   (schedule_phase_changes clk phase_times jobs).2 = Raise KeyError).
Proof.
  unfold schedule_phase_changes.
  pose proof (get_now_with_tzinfo_aware clk) as Hnow.
  destruct (schedule_loop_outcome clk (get_now_with_tzinfo clk) phase_times
              phases jobs Hnow) as [[Hall [jobs' Hrun]]|[(q & Hq & Hnone) [jobs' Hrun]]].
  - split.
    + intros _. exists jobs'. split; [exact Hrun|].
      pose proof (schedule_loop_lookup _ _ _ _ _ _ Hnow Hrun) as Hl. split.
      * intros id Hid. rewrite Hl. by rewrite bool_decide_eq_false_2.
      * intros p t Hp Ht. rewrite Hl. rewrite bool_decide_eq_true_2 by done.
        unfold phase_job. rewrite Ht. simpl.
        by destruct (utc_instant (get_now_with_tzinfo clk)
                       <? utc_instant (ensure_timezone_aware clk t)).
    + intros (p & Hp & Hnone). destruct (Hall p Hp) as [? ?]. congruence.
  - split.
    + intros Hall. destruct (Hall q Hq) as [? ?]. congruence.
    + intros _. by rewrite Hrun.
Qed.

Lemma schedule_phase_changes_effect_witness :
  exists jobs',
    schedule_phase_changes noon june_schedule ∅ = (jobs', Ok tt) /\
    jobs' !! "morning" = None /\
    jobs' !! "evening" = Some (mk_job (change_cover_job "evening")
                                 june_evening_start 3600).
Proof.
  assert (forall p, p ∈ phases -> is_Some (june_schedule !! p)) as Hall.
  { unfold phases. intros p Hp.
    repeat (apply elem_of_cons in Hp as [->|Hp]; [by vm_compute; eauto|]).
    by apply elem_of_nil in Hp. }
  destruct (proj1 (schedule_phase_changes_effect noon june_schedule ∅) Hall)
    as (jobs' & Hrun & _ & Hphase).
  exists jobs'. split; [exact Hrun|]. split.
  - rewrite (Hphase "morning" june_sunrise); [|unfold phases; repeat constructor|
      by vm_compute]. by vm_compute.
  - rewrite (Hphase "evening" june_evening_start); [|unfold phases; repeat constructor|
      by vm_compute]. by vm_compute.
Defined.

Lemma job_table_ok_empty : job_table_ok ∅.
Proof. intros id j H. by rewrite lookup_empty in H. Qed.

Lemma job_table_ok_add_phase jobs p run :
  p ∈ phases -> job_table_ok jobs ->
  job_table_ok (add_job (change_cover_job p) run p jobs).
Proof.
  intros Hp Hok id j. unfold add_job.
  intros [[<- <-]|[_ H]]%lookup_insert_Some; [simpl; eauto|by apply Hok].
Qed.

Lemma job_table_ok_add_recalculate jobs run :
  job_table_ok jobs -> job_table_ok (add_job recalculate run "recalculate" jobs).
Proof.
  intros Hok id j. unfold add_job.
  intros [[<- <-]|[_ H]]%lookup_insert_Some; [simpl; eauto|by apply Hok].
Qed.

Lemma job_table_ok_schedule_loop clk now phase_times todo : forall jobs,
  (forall p, p ∈ todo -> p ∈ phases) -> job_table_ok jobs ->
  job_table_ok (schedule_loop clk now phase_times todo jobs).1.
Proof.
  induction todo as [|phase rest IH]; intros jobs Hsub Hok; simpl; [done|].
  assert (forall p, p ∈ rest -> p ∈ phases) as Hrest
    by (intros p Hp; apply Hsub; by right).
  destruct (getitem phase_times phase) as [time|]; [|done].
  destruct (dt_gt (ensure_timezone_aware clk time) now) as [[|]|]; [| |done].
  - apply IH; [done|]. apply job_table_ok_add_phase; [|done]. apply Hsub. by left.
  - by apply IH.
Qed.

Lemma job_table_ok_size jobs : job_table_ok jobs -> (size jobs <= 5)%nat.
Proof.
  intros Hok.
  assert (dom jobs ⊆ list_to_set ("recalculate" :: phases)) as Hsub.
  { intros id [j Hj]%elem_of_dom. destruct (Hok id j Hj) as [_ [[-> _]|[Hp _]]];
      set_solver. }
  rewrite <- size_dom. apply subseteq_size in Hsub.
  etrans; [exact Hsub|]. by vm_compute.
Qed.

Section FurtherSchedulerProperties.

Variable fromisoformat : string -> result datetime.

Lemma job_table_ok_tomorrow cfg clk reply jobs :
  job_table_ok (calculate_times_for_tomorrow fromisoformat cfg clk reply jobs).1.
Proof.
  unfold calculate_times_for_tomorrow, remove_all_jobs.
  destruct (tomorrow_phase_times _ _ _ _ _) as [tp|];
    [|apply job_table_ok_empty].
  pose proof (job_table_ok_schedule_loop clk (get_now_with_tzinfo clk) tp
                phases ∅ (λ p H, H) job_table_ok_empty) as Hloop.
  unfold schedule_phase_changes.
  destruct (schedule_loop _ _ _ _ _) as [jobs1 [[]|]]; simpl in *; [|done].
  by apply job_table_ok_add_recalculate.
Qed.

Lemma job_table_ok_today cfg clk reply jobs :
  job_table_ok jobs ->
  job_table_ok (schedule_today_changes fromisoformat cfg clk reply jobs).1.
Proof.
  intros Hok. unfold schedule_today_changes.
  destruct (calculate_phase_times _ _ _ _) as [pt|]; [|done].
  pose proof (job_table_ok_schedule_loop clk (get_now_with_tzinfo clk) pt
                phases jobs (λ p H, H) Hok) as Hloop.
  unfold schedule_phase_changes.
  destruct (schedule_loop _ _ _ _ _) as [jobs1 [[]|]]; simpl in *; [|done].
  by apply job_table_ok_add_recalculate.
Qed.

(** X12. The three scheduling functions keep the job table well kept,
    whether they complete or raise on the way: each job sits under the name
    of what it runs (a phase job under its phase, the recomputation under
    "recalculate") and has one hour of grace, so the table never holds more
    than five jobs and never two for one phase.  The recomputation
    establishes this whatever the table was before. *)
Theorem scheduling_keeps_table_ok cfg clk reply phase_times jobs :
  (job_table_ok jobs ->
   job_table_ok (schedule_phase_changes clk phase_times jobs).1 /\
   job_table_ok (schedule_today_changes fromisoformat cfg clk reply jobs).1 /\
   (size jobs <= 5)%nat) /\
  job_table_ok (calculate_times_for_tomorrow fromisoformat cfg clk reply jobs).1 /\
  (size (calculate_times_for_tomorrow fromisoformat cfg clk reply jobs).1 <= 5)%nat.
Proof.
  pose proof (job_table_ok_tomorrow cfg clk reply jobs) as Htomorrow.
  split; [|split; [exact Htomorrow|by apply job_table_ok_size]].
  intros Hok. split; [|split].
  - unfold schedule_phase_changes. by apply job_table_ok_schedule_loop.
  - by apply job_table_ok_today.
  - by apply job_table_ok_size.
Qed.

Lemma calculate_phase_times_solar_local cfg clk reply pt :
  DEBUG_MODE cfg && truthy (DEBUG_TIMES cfg) = false ->
  calculate_phase_times fromisoformat cfg clk reply = Ok pt ->
  dom pt = list_to_set phases /\
  forall k v, pt !! k = Some v -> tzinfo v = Some (local_timezone clk).
Proof.
  intros Hmode Hpt.
  destruct (calculate_phase_times_solar_Ok _ _ _ _ _ Hmode Hpt)
    as (S & T & md & ed & Hsun & _ & _ & _ & _ & Hm & Hd & He & Hn & Hdom).
  apply get_sun_times_valid in Hsun as (HS & HT & _).
  split; [exact Hdom|]. intros k v Hk.
  assert (k ∈ dom pt) as Hin by (apply elem_of_dom; eauto).
  rewrite Hdom in Hin. unfold phases in Hin.
  apply elem_of_list_to_set in Hin.
  repeat (apply elem_of_cons in Hin as [->|Hin]; [by simplify_eq|]).
  by apply elem_of_nil in Hin.
Qed.

Lemma schedule_loop_completes clk now phase_times todo jobs :
  is_Some (tzinfo now) ->
  (forall p, p ∈ todo -> is_Some (phase_times !! p)) ->
  exists jobs', schedule_loop clk now phase_times todo jobs = (jobs', Ok tt).
Proof.
  intros Hnow Hall.
  destruct (schedule_loop_outcome clk now phase_times todo jobs Hnow)
    as [[_ Hex]|[(q & Hq & Hnone) _]]; [exact Hex|].
  destruct (Hall q Hq) as [? ?]. congruence.
Qed.

Lemma calculate_times_for_tomorrow_completes cfg clk reply jobs tp :
  tomorrow_phase_times fromisoformat cfg clk reply
    (date_of (get_now_with_tzinfo clk) + 1) = Ok tp ->
  (forall p, p ∈ phases -> is_Some (tp !! p)) ->
  exists jobs',
    calculate_times_for_tomorrow fromisoformat cfg clk reply jobs = (jobs', Ok tt).
Proof.
  intros Htp Hall. unfold calculate_times_for_tomorrow. rewrite Htp.
  unfold schedule_phase_changes, remove_all_jobs.
  destruct (schedule_loop_completes clk (get_now_with_tzinfo clk) tp phases ∅
              (get_now_with_tzinfo_aware clk) Hall) as [jobs1 ->].
  eauto.
Qed.

Lemma dom_phases_lookup (m : gmap string datetime) :
  dom m = list_to_set phases -> forall p, p ∈ phases -> is_Some (m !! p).
Proof.
  intros Hdom p Hp. apply elem_of_dom. rewrite Hdom. by apply elem_of_list_to_set.
Qed.

(** The phase times for the next day, on either branch. *)
Lemma tomorrow_phase_times_solar cfg clk reply tomorrow pt :
  DEBUG_MODE cfg && truthy (DEBUG_TIMES cfg) = false ->
  calculate_phase_times fromisoformat cfg clk reply = Ok pt ->
  tomorrow_phase_times fromisoformat cfg clk reply tomorrow =
    Ok ((λ time, replace_tzinfo (combine tomorrow (time_of time)) (tzinfo time))
          <$> pt).
Proof.
  intros Hmode Hpt. unfold tomorrow_phase_times. by rewrite Hmode, Hpt.
Qed.

Lemma tomorrow_phase_times_override cfg clk reply tomorrow dt :
  DEBUG_MODE cfg = true -> DEBUG_TIMES cfg = Some dt -> truthy (Some dt) = true ->
  tomorrow_phase_times fromisoformat cfg clk reply tomorrow =
    Ok ((λ time, dt_add (ensure_timezone_aware clk time) (days 1)) <$> dt).
Proof.
  intros Hmode Hdt Htruthy. unfold tomorrow_phase_times.
  by rewrite Hmode, Hdt, Htruthy, andb_false_r.
Qed.

(** The job filed for a phase of the next day, on either branch. *)
Lemma solar_phase_job clk (pt : gmap string datetime) p t :
  pt !! p = Some t -> tzinfo t = Some (local_timezone clk) ->
  phase_job clk (get_now_with_tzinfo clk)
    ((λ time, replace_tzinfo
                (combine (date_of (get_now_with_tzinfo clk) + 1) (time_of time))
                (tzinfo time)) <$> pt) p =
    Some (mk_job (change_cover_job p)
            (aware ((date_of (datetime_now clk) + 1) * day_us + time_of t)
               (local_timezone clk)) 3600).
Proof.
  intros Ht Htz. rewrite get_now_with_tzinfo_eq.
  unfold phase_job. rewrite lookup_fmap, Ht. simpl.
  unfold ensure_timezone_aware, replace_tzinfo, combine. simpl.
  rewrite Htz. simpl.
  unfold utc_instant, local_timezone, datetime_now, time_of, date_of. simpl.
  assert (0 < day_us) as Hpos by reflexivity.
  pose proof (Z.mul_succ_div_gt (now_wall clk) day_us Hpos).
  pose proof (Z.mod_pos_bound (wall t) day_us Hpos).
  destruct (Z.ltb_spec (now_wall clk - local_offset clk (now_wall clk))
              ((now_wall clk / day_us + 1) * day_us + wall t `mod` day_us
               - local_offset clk (now_wall clk))); [done|lia].
Qed.

Lemma override_phase_job clk (dt : gmap string datetime) p t :
  dt !! p = Some t ->
  phase_job clk (get_now_with_tzinfo clk)
    ((λ time, dt_add (ensure_timezone_aware clk time) (days 1)) <$> dt) p =
    if utc_instant (get_now_with_tzinfo clk)
         <? utc_instant (ensure_timezone_aware clk t) + days 1
    then Some (mk_job (change_cover_job p)
                 (dt_add (ensure_timezone_aware clk t) (days 1)) 3600)
    else None.
Proof.
  intros Ht. unfold phase_job. rewrite lookup_fmap, Ht. simpl.
  assert (ensure_timezone_aware clk
            (dt_add (ensure_timezone_aware clk t) (days 1))
          = dt_add (ensure_timezone_aware clk t) (days 1)) as ->.
  { unfold ensure_timezone_aware at 1, dt_add. simpl.
    by destruct (ensure_timezone_aware_aware clk t) as [off ->]. }
  by rewrite utc_instant_dt_add.
Qed.

(** X13. Outside override mode, whenever today's schedule can be computed,
    the daily recomputation completes and leaves exactly five jobs: the
    marker and, for each of the four phases, a job on the date after the
    date of the run, at the clock time of the phase start computed during
    the run, in the local time zone. *)
Theorem solar_recomputation_schedules_all cfg clk reply jobs pt :
  DEBUG_MODE cfg && truthy (DEBUG_TIMES cfg) = false ->
  calculate_phase_times fromisoformat cfg clk reply = Ok pt ->
  exists jobs',
    calculate_times_for_tomorrow fromisoformat cfg clk reply jobs = (jobs', Ok tt) /\
    dom jobs' = list_to_set ("recalculate" :: phases) /\
    forall p t, p ∈ phases -> pt !! p = Some t ->
      jobs' !! p =
        Some (mk_job (change_cover_job p)
                (aware ((date_of (datetime_now clk) + 1) * day_us + time_of t)
                   (local_timezone clk)) 3600).
Proof.
  intros Hmode Hpt.
  destruct (calculate_phase_times_solar_local cfg clk reply pt Hmode Hpt)
    as (Hdom & Htz).
  pose proof (tomorrow_phase_times_solar cfg clk reply
                (date_of (get_now_with_tzinfo clk) + 1) pt Hmode Hpt) as Htp.
  match type of Htp with _ = Ok ?m => set (tp := m) in * end.
  assert (forall p, p ∈ phases -> is_Some (tp !! p)) as Hall.
  { intros p Hp. unfold tp. rewrite lookup_fmap.
    destruct (dom_phases_lookup pt Hdom p Hp) as [t ->]. simpl. eauto. }
  destruct (calculate_times_for_tomorrow_completes cfg clk reply jobs _ Htp Hall)
    as [jobs' Hrun].
  destruct (calculate_times_for_tomorrow_lookup _ _ _ _ _ _ Hrun)
    as (tp' & Htp' & Hl).
  rewrite Htp in Htp'. injection Htp' as <-.
  assert (forall p t, p ∈ phases -> pt !! p = Some t ->
            jobs' !! p =
              Some (mk_job (change_cover_job p)
                      (aware ((date_of (datetime_now clk) + 1) * day_us + time_of t)
                         (local_timezone clk)) 3600)) as Hjobs.
  { intros p t Hp Ht. rewrite Hl.
    rewrite bool_decide_eq_false_2 by by apply phases_not_recalculate.
    rewrite bool_decide_eq_true_2 by done.
    apply solar_phase_job; eauto. }
  exists jobs'. split; [exact Hrun|].
  split; [|exact Hjobs].
  apply set_eq. intros id. rewrite elem_of_dom, elem_of_list_to_set.
  split.
  - intros [j Hj]. rewrite Hl in Hj.
    case_bool_decide; [subst; by left|]. case_bool_decide; [by right|done].
  - intros [->|Hp]%elem_of_cons.
    + rewrite Hl. rewrite bool_decide_eq_true_2 by done. eauto.
    + destruct (dom_phases_lookup pt Hdom id Hp) as [t Ht].
      rewrite (Hjobs id t Hp Ht). eauto.
Qed.

(** X14. In override mode the recomputation does not follow the calendar:
    whatever the date of the run, the phase jobs it files are the instants
    stored at startup plus one day, those of them that are still ahead.  Once
    now has reached all four, the run leaves the marker alone in the table. *)
Theorem override_recomputation_is_fixed cfg clk reply jobs dt :
  DEBUG_MODE cfg = true -> DEBUG_TIMES cfg = Some dt ->
  dom dt = list_to_set phases ->
  exists jobs',
    calculate_times_for_tomorrow fromisoformat cfg clk reply jobs = (jobs', Ok tt) /\
    (forall p t, p ∈ phases -> dt !! p = Some t ->
       jobs' !! p =
         if utc_instant (get_now_with_tzinfo clk)
              <? utc_instant (ensure_timezone_aware clk t) + days 1
         then Some (mk_job (change_cover_job p)
                      (dt_add (ensure_timezone_aware clk t) (days 1)) 3600)
         else None) /\
    ((forall p t, dt !! p = Some t ->
        utc_instant (ensure_timezone_aware clk t) + days 1
          <= utc_instant (get_now_with_tzinfo clk)) ->
     dom jobs' = {["recalculate"]}).
Proof.
  intros Hmode Hdt Hdom.
  pose proof (tomorrow_phase_times_override cfg clk reply
                (date_of (get_now_with_tzinfo clk) + 1) dt Hmode Hdt
                (truthy_dom _ Hdom)) as Htp.
  match type of Htp with _ = Ok ?m => set (tp := m) in * end.
  assert (forall p, p ∈ phases -> is_Some (tp !! p)) as Hall.
  { intros p Hp. unfold tp. rewrite lookup_fmap.
    destruct (dom_phases_lookup dt Hdom p Hp) as [t ->]. simpl. eauto. }
  destruct (calculate_times_for_tomorrow_completes cfg clk reply jobs _ Htp Hall)
    as [jobs' Hrun].
  destruct (calculate_times_for_tomorrow_lookup _ _ _ _ _ _ Hrun)
    as (tp' & Htp' & Hl).
  rewrite Htp in Htp'. injection Htp' as <-.
  assert (forall p t, p ∈ phases -> dt !! p = Some t ->
       jobs' !! p =
         if utc_instant (get_now_with_tzinfo clk)
              <? utc_instant (ensure_timezone_aware clk t) + days 1
         then Some (mk_job (change_cover_job p)
                      (dt_add (ensure_timezone_aware clk t) (days 1)) 3600)
         else None) as Hjobs.
  { intros p t Hp Ht. rewrite Hl.
    rewrite bool_decide_eq_false_2 by by apply phases_not_recalculate.
    rewrite bool_decide_eq_true_2 by done.
    by apply override_phase_job. }
  exists jobs'. split; [exact Hrun|]. split; [exact Hjobs|].
  intros Hpast. apply set_eq. intros id.
  rewrite elem_of_dom, elem_of_singleton. split.
  - intros [j Hj]. destruct (decide (id = "recalculate")) as [|Hne]; [done|].
    exfalso. destruct (decide (id ∈ phases)) as [Hp|Hp].
    + destruct (dom_phases_lookup dt Hdom id Hp) as [t Ht].
      rewrite (Hjobs id t Hp Ht) in Hj.
      pose proof (Hpast id t Ht).
      destruct (Z.ltb_spec (utc_instant (get_now_with_tzinfo clk))
                  (utc_instant (ensure_timezone_aware clk t) + days 1));
        [lia|done].
    + rewrite Hl in Hj. by rewrite !bool_decide_eq_false_2 in Hj.
  - intros ->. rewrite Hl. rewrite bool_decide_eq_true_2 by done. eauto.
Qed.

(** C9, amended.  [calculate_times_for_tomorrow] clears the whole job
    table before anything else, so its outcome does not depend on what was
    pending and no pending job survives it.  When it completes, the table
    holds the recomputation marker for 23:00 of the day after the run and
    nothing under any name but the marker's and the four phases'.  Under a
    phase name it holds, outside override mode, the job on the day after the
    run at the clock time of that phase's start as computed during the run;
    in override mode, the job at the stored instant of that phase plus one
    day if that is after now, and no job otherwise. *)
Theorem calculate_times_for_tomorrow_table cfg clk reply jobs :
  calculate_times_for_tomorrow fromisoformat cfg clk reply jobs =
    calculate_times_for_tomorrow fromisoformat cfg clk reply ∅ /\
  forall jobs',
    calculate_times_for_tomorrow fromisoformat cfg clk reply jobs = (jobs', Ok tt) ->
    jobs' !! "recalculate" =
      Some (mk_job recalculate
              (aware ((date_of (datetime_now clk) + 1) * day_us + hours 23)
                 (local_timezone clk)) 3600) /\
    (forall id, id <> "recalculate" -> id ∉ phases -> jobs' !! id = None) /\
    (DEBUG_MODE cfg && truthy (DEBUG_TIMES cfg) = false ->
     forall pt phase t,
       calculate_phase_times fromisoformat cfg clk reply = Ok pt ->
       phase ∈ phases -> pt !! phase = Some t ->
       jobs' !! phase =
         Some (mk_job (change_cover_job phase)
                 (aware ((date_of (datetime_now clk) + 1) * day_us + time_of t)
                    (local_timezone clk)) 3600)) /\
    (DEBUG_MODE cfg && truthy (DEBUG_TIMES cfg) = true ->
     forall dt phase t,
       DEBUG_TIMES cfg = Some dt -> phase ∈ phases -> dt !! phase = Some t ->
       jobs' !! phase =
         if utc_instant (get_now_with_tzinfo clk)
              <? utc_instant (ensure_timezone_aware clk t) + days 1
         then Some (mk_job (change_cover_job phase)
                      (dt_add (ensure_timezone_aware clk t) (days 1)) 3600)
         else None).
Proof.
  split; [reflexivity|]. intros jobs' H.
  destruct (calculate_times_for_tomorrow_lookup _ _ _ _ _ _ H) as (tp & Htp & Hl).
  split; [|split; [|split]].
  - rewrite Hl, bool_decide_eq_true_2 by done.
    by rewrite get_now_with_tzinfo_eq.
  - intros id Hid Hnin. rewrite Hl.
    by rewrite !bool_decide_eq_false_2.
  - intros Hmode pt phase t Hpt Hin Ht.
    rewrite (tomorrow_phase_times_solar cfg clk reply _ pt Hmode Hpt) in Htp.
    injection Htp as <-. rewrite Hl.
    rewrite bool_decide_eq_false_2 by by apply phases_not_recalculate.
    rewrite bool_decide_eq_true_2 by done.
    apply solar_phase_job; [done|].
    by eapply calculate_phase_times_solar_local.
  - intros Hmode dt phase t Hdt Hin Ht.
    apply andb_true_iff in Hmode as [Hdebug Htruthy]. rewrite Hdt in Htruthy.
    rewrite (tomorrow_phase_times_override cfg clk reply _ dt Hdebug Hdt Htruthy)
      in Htp.
    injection Htp as <-. rewrite Hl.
    rewrite bool_decide_eq_false_2 by by apply phases_not_recalculate.
    rewrite bool_decide_eq_true_2 by done.
    by apply override_phase_job.
Qed.

Lemma phase_rank_inv p r :
  phase_rank p = Some r ->
  (p = "morning" /\ r = 0%nat) \/ (p = "day" /\ r = 1%nat) \/
  (p = "evening" /\ r = 2%nat) \/ (p = "night" /\ r = 3%nat).
Proof.
  unfold phase_rank. intros H.
  destruct (String.eqb_spec p "morning"); [simplify_eq; tauto|].
  destruct (String.eqb_spec p "day"); [simplify_eq; tauto|].
  destruct (String.eqb_spec p "evening"); [simplify_eq; tauto|].
  destruct (String.eqb_spec p "night"); [simplify_eq; tauto|discriminate].
Qed.

Lemma ensure_timezone_aware_id clk dt :
  is_Some (tzinfo dt) -> ensure_timezone_aware clk dt = dt.
Proof. intros [off H]. unfold ensure_timezone_aware. by rewrite H. Qed.

(** What a completed [schedule_today_changes] leaves under each name. *)
Lemma schedule_today_changes_lookup cfg clk reply jobs jobs' pt :
  calculate_phase_times fromisoformat cfg clk reply = Ok pt ->
  schedule_today_changes fromisoformat cfg clk reply jobs = (jobs', Ok tt) ->
  forall id,
    jobs' !! id =
      if bool_decide (id = "recalculate")
      then Some (mk_job recalculate
                   (replace_tzinfo
                      (combine (date_of (get_now_with_tzinfo clk) + 1) (1 * minute_us))
                      (tzinfo (get_now_with_tzinfo clk))) 3600)
      else if bool_decide (id ∈ phases)
      then match phase_job clk (get_now_with_tzinfo clk) pt id with
           | Some j => Some j
           | None => jobs !! id
           end
      else jobs !! id.
Proof.
  unfold schedule_today_changes, schedule_phase_changes. intros Hpt H.
  rewrite Hpt in H.
  destruct (schedule_loop _ _ _ _ _) as [jobs1 [[]|]] eqn:Hloop; [|discriminate].
  simplify_eq. intros id. unfold add_job.
  case_bool_decide as Hid.
  - subst id. apply lookup_insert_eq.
  - rewrite lookup_insert_ne by done.
    apply (schedule_loop_lookup _ _ _ _ _ _ (get_now_with_tzinfo_aware clk) Hloop).
Qed.

(** X15. At startup the scheduler and the resolver agree.  For an ordered
    schedule, [schedule_today_changes] on an empty table completes and files
    the recomputation marker; once now has reached morning_start, a phase has
    a job exactly when it comes later in the daily order than the phase
    [get_current_phase] answers, and before morning_start all four phases
    have one. *)
Theorem startup_jobs_follow_current_phase cfg clk reply pt m d e n :
  calculate_phase_times fromisoformat cfg clk reply = Ok pt ->
  schedule_of pt m d e n -> ordered m d e n ->
  let now := utc_instant (get_now_with_tzinfo clk) in
  exists jobs' cur r,
    schedule_today_changes fromisoformat cfg clk reply ∅ = (jobs', Ok tt) /\
    get_current_phase fromisoformat cfg clk reply = Ok cur /\
    phase_rank cur = Some r /\
    is_Some (jobs' !! "recalculate") /\
    (utc_instant m <= now ->
     forall p rp, phase_rank p = Some rp ->
       (is_Some (jobs' !! p) <-> (r < rp)%nat)) /\
    (now < utc_instant m -> forall p, p ∈ phases -> is_Some (jobs' !! p)).
Proof.
  intros Hpt (Hm & Hd & He & Hn & Hdom) (Hmd & Hde & Hen) now.
  pose proof (get_now_with_tzinfo_aware clk) as Hnow.
  destruct (schedule_loop_completes clk (get_now_with_tzinfo clk) pt phases ∅
              Hnow (dom_phases_lookup pt Hdom)) as [jobs1 Hloop].
  assert (exists jobs',
            schedule_today_changes fromisoformat cfg clk reply ∅ = (jobs', Ok tt))
    as [jobs' Hrun].
  { unfold schedule_today_changes, schedule_phase_changes.
    rewrite Hpt, Hloop. eauto. }
  pose proof (schedule_today_changes_lookup _ _ _ _ _ _ Hpt Hrun) as Hl.
  assert (forall p t, p ∈ phases -> pt !! p = Some t ->
            (is_Some (jobs' !! p) <-> now < utc_instant t)) as Hjob.
  { intros p t Hp Ht. rewrite Hl.
    rewrite bool_decide_eq_false_2 by by apply phases_not_recalculate.
    rewrite bool_decide_eq_true_2 by done.
    unfold phase_job. rewrite Ht. simpl.
    rewrite ensure_timezone_aware_id
      by eauto using calculate_phase_times_aware.
    fold now. rewrite lookup_empty.
    destruct (Z.ltb_spec now (utc_instant t)).
    - split; [done|eauto].
    - split; [by intros [? ?]|lia]. }
  assert ("morning" ∈ phases /\ "day" ∈ phases /\ "evening" ∈ phases /\
          "night" ∈ phases) as (Pm & Pd & Pe & Pn)
    by (unfold phases; repeat split; repeat constructor).
  pose proof (Hjob _ _ Pm Hm) as Jm. pose proof (Hjob _ _ Pd Hd) as Jd.
  pose proof (Hjob _ _ Pe He) as Je. pose proof (Hjob _ _ Pn Hn) as Jn.
  rewrite (get_current_phase_chain _ _ _ _ _ _ _ _ _ Hpt Hm Hd He Hn).
  cbv zeta. fold now.
  assert (is_Some (jobs' !! "recalculate")) as Hrec
    by (rewrite Hl, bool_decide_eq_true_2 by done; eauto).
  assert (forall r,
            (forall p rp, phase_rank p = Some rp ->
               (p = "morning" -> rp = 0%nat -> (now < utc_instant m <-> (r < rp)%nat)) ->
               (p = "day" -> rp = 1%nat -> (now < utc_instant d <-> (r < rp)%nat)) ->
               (p = "evening" -> rp = 2%nat -> (now < utc_instant e <-> (r < rp)%nat)) ->
               (p = "night" -> rp = 3%nat -> (now < utc_instant n <-> (r < rp)%nat)) ->
               (is_Some (jobs' !! p) <-> (r < rp)%nat))) as Hcase.
  { intros r p rp Hrank H1 H2 H3 H4.
    destruct (phase_rank_inv p rp Hrank)
      as [[-> ->]|[[-> ->]|[[-> ->]|[-> ->]]]].
    - rewrite Jm. by apply H1.
    - rewrite Jd. by apply H2.
    - rewrite Je. by apply H3.
    - rewrite Jn. by apply H4. }
  assert (forall p, p ∈ phases ->
            now < utc_instant m -> is_Some (jobs' !! p)) as Hdawn.
  { unfold phases. intros p Hp Hlt.
    repeat (apply elem_of_cons in Hp as [->|Hp];
            [first [apply Jm|apply Jd|apply Je|apply Jn]; lia|]).
    by apply elem_of_nil in Hp. }
  repeat match goal with
         | |- context [?a <? ?b] => destruct (Z.ltb_spec a b)
         end;
    eexists jobs', _, _;
    (split; [exact Hrun|]); (split; [reflexivity|]); (split; [reflexivity|]);
    (split; [exact Hrec|]);
    (split; [|intros; by apply Hdawn]);
    intros Hge p rp Hrank; try lia;
    apply (Hcase _ p rp Hrank); intros; subst; lia.
Qed.

End FurtherSchedulerProperties.

(** ** The state file *)

(** X16. [load_state] yields a phase only from a file that holds a JSON
    object with both a "phase" and a "timestamp" entry, and then yields the
    "phase" entry as it stands; a missing or unreadable file, a value that is
    no object, or an object that lacks either key all count as no state. *)
Theorem load_state_needs_both_keys f :
  (forall v, load_state f = Some v <->
     exists data ts, f = Content data /\
       subscript data "phase" = Ok v /\ subscript data "timestamp" = Ok ts) /\
  (load_state f = None <->
     forall data, f = Content data ->
       is_ok (subscript data "phase") && is_ok (subscript data "timestamp")
         = false).
Proof.
  destruct f as [| |data]; simpl.
  - split; [intros v; split; [done|by intros (? & ? & ? & _)]|done].
  - split; [intros v; split; [done|by intros (? & ? & ? & _)]|done].
  - destruct (subscript data "phase") as [p|ep] eqn:Hp;
      destruct (subscript data "timestamp") as [ts|ets] eqn:Hts; simpl.
    + split.
      * intros v. split; [intros [= <-]; by exists data, ts|].
        intros (data' & ts' & [= <-] & H1 & _). congruence.
      * split; [done|]. intros H. specialize (H data eq_refl).
        by rewrite Hp, Hts in H.
    + split.
      * intros v. split; [done|].
        intros (data' & ts' & [= <-] & _ & H2). congruence.
      * split; [|done]. intros _ data' [= <-]. by rewrite Hp, Hts.
    + split.
      * intros v. split; [done|].
        intros (data' & ts' & [= <-] & H1 & _). congruence.
      * split; [|done]. intros _ data' [= <-]. by rewrite Hp.
    + split.
      * intros v. split; [done|].
        intros (data' & ts' & [= <-] & H1 & _). congruence.
      * split; [|done]. intros _ data' [= <-]. by rewrite Hp.
Qed.

Lemma get_image_path_ok cfg phase :
  phase ∈ phases <-> exists path, get_image_path cfg phase = Ok path.
Proof.
  unfold get_image_path, phases. split.
  - intros Hin.
    repeat (apply elem_of_cons in Hin as [->|Hin]; [simpl; eauto|]).
    by apply elem_of_nil in Hin.
  - intros [path H].
    destruct (String.eqb_spec phase "morning") as [->|]; [repeat constructor|].
    destruct (String.eqb_spec phase "day") as [->|]; [repeat constructor|].
    destruct (String.eqb_spec phase "evening") as [->|]; [repeat constructor|].
    destruct (String.eqb_spec phase "night") as [->|]; [repeat constructor|].
    discriminate.
Qed.

Lemma change_playlist_cover_works sp id path calls0 :
  spotify_works sp ->
  exists encoded,
    encode_image_base64 sp path = Ok encoded /\
    change_playlist_cover sp id path calls0 =
      ((calls0 ++ [PlaylistCall id; UploadCall id encoded])%list, true).
Proof.
  intros (Hinit & Hinfo & Henc & Hup).
  destruct (Hinfo id) as (info & name & Hi & Hn).
  destruct (Henc path) as [encoded He].
  exists encoded. split; [exact He|].
  unfold change_playlist_cover, upload_cover.
  rewrite Hinit, Hi. simpl. rewrite Hn, He, Hup.
  by rewrite <- app_assoc.
Qed.

Section FurtherCoverProperties.

Variable fromisoformat : string -> result datetime.
Variable isoformat : datetime -> string.

(** X17. [save_state] writes only when the phase times can be computed;
    when they cannot, the file is left as it was.  When they can, what
    [load_state] reads afterwards is the saved phase when the write goes
    through, the earlier state when the file cannot be opened, and no state
    when the write breaks off after the file was opened. *)
Theorem save_state_outcomes cfg e phase f :
  load_state (save_state fromisoformat isoformat cfg e phase f) =
    match calculate_phase_times fromisoformat cfg (e_clock e) (e_reply e) with
    | Raise _ => load_state f
    | Ok _ =>
        match e_write e with
        | WriteOk => Some (JStr phase)
        | OpenFails => load_state f
        | DumpFails => None
        end
    end.
Proof.
  unfold save_state.
  destruct (calculate_phase_times _ _ _ _) as [pt|]; [|done].
  by destruct (e_write e).
Qed.

(** ** Cover changes *)

Lemma state_is_true state phase :
  state_is state phase = true -> state = Some (JStr phase).
Proof.
  unfold state_is. destruct state as [[]|]; simpl; try discriminate.
  by intros ->%String.eqb_eq.
Qed.

Lemma change_cover_same cfg e phase w :
  state_is (load_state (file w)) phase = true ->
  change_cover fromisoformat isoformat cfg e phase w = (w, Ok tt).
Proof. unfold change_cover, state_is. by intros ->. Qed.

Lemma change_cover_works cfg e phase w :
  phase ∈ phases -> spotify_works (e_spotify e) ->
  state_is (load_state (file w)) phase = false ->
  exists path encoded,
    get_image_path cfg phase = Ok path /\
    encode_image_base64 (e_spotify e) path = Ok encoded /\
    change_cover fromisoformat isoformat cfg e phase w =
      (mk_world (save_state fromisoformat isoformat cfg e phase (file w))
         (calls w ++ [PlaylistCall (PLAYLIST_ID cfg);
                      UploadCall (PLAYLIST_ID cfg) encoded])%list,
       Ok tt).
Proof.
  intros Hp Hsp Hstate.
  destruct (proj1 (get_image_path_ok cfg phase) Hp) as [path Hpath].
  destruct (change_playlist_cover_works (e_spotify e) (PLAYLIST_ID cfg) path
              (calls w) Hsp) as (encoded & Henc & Hcover).
  exists path, encoded. split; [exact Hpath|]. split; [exact Henc|].
  unfold change_cover. unfold state_is in Hstate.
  by rewrite Hstate, Hpath, Hcover.
Qed.

(** X18. When the stored state does not name the phase and Spotify does all
    it is asked, [change_cover] makes two calls, the look-up of the playlist
    and one upload, both for the configured playlist; what it uploads is the
    encoding of the image configured for that very phase; and it goes on to
    save the state. *)
Theorem change_cover_uploads_phase_image cfg e phase w :
  phase ∈ phases -> spotify_works (e_spotify e) ->
  state_is (load_state (file w)) phase = false ->
  exists path encoded,
    encode_image_base64 (e_spotify e) path = Ok encoded /\
    change_cover fromisoformat isoformat cfg e phase w =
      (mk_world (save_state fromisoformat isoformat cfg e phase (file w))
         (calls w ++ [PlaylistCall (PLAYLIST_ID cfg);
                      UploadCall (PLAYLIST_ID cfg) encoded])%list,
       Ok tt) /\
    (phase = "morning" -> path = MORNING_IMAGE_PATH cfg) /\
    (phase = "day" -> path = DAY_IMAGE_PATH cfg) /\
    (phase = "evening" -> path = EVENING_IMAGE_PATH cfg) /\
    (phase = "night" -> path = NIGHT_IMAGE_PATH cfg).
Proof.
  intros Hp Hsp Hstate.
  destruct (change_cover_works cfg e phase w Hp Hsp Hstate)
    as (path & encoded & Hpath & Henc & Hrun).
  exists path, encoded. split; [exact Henc|]. split; [exact Hrun|].
  repeat split; intros ->.
  - assert (get_image_path cfg "morning" = Ok (MORNING_IMAGE_PATH cfg))
      by reflexivity. congruence.
  - assert (get_image_path cfg "day" = Ok (DAY_IMAGE_PATH cfg))
      by reflexivity. congruence.
  - assert (get_image_path cfg "evening" = Ok (EVENING_IMAGE_PATH cfg))
      by reflexivity. congruence.
  - assert (get_image_path cfg "night" = Ok (NIGHT_IMAGE_PATH cfg))
      by reflexivity. congruence.
Qed.

(** X19. Over a run of cover changes in surroundings where everything works
    (the phase times can be computed, Spotify accepts, the file is written),
    the uploads made are as many as the entries that differ from the state
    before them: a phase asked for again right away costs nothing, each real
    change costs exactly one upload, and the state ends on the last entry. *)
Theorem run_changes_uploads cfg e todo : forall w,
  is_ok (calculate_phase_times fromisoformat cfg (e_clock e) (e_reply e)) = true ->
  spotify_works (e_spotify e) -> e_write e = WriteOk ->
  (forall p, p ∈ todo -> p ∈ phases) ->
  uploads (calls (run_changes fromisoformat isoformat cfg e todo w))
    = (uploads (calls w) + transitions (load_state (file w)) todo)%nat /\
  load_state (file (run_changes fromisoformat isoformat cfg e todo w))
    = from_option (λ p, Some (JStr p)) (load_state (file w)) (last todo).
Proof.
  induction todo as [|phase rest IH]; intros w Hpt Hsp Hw Hall; simpl.
  - split; [lia|done].
  - assert (forall p, p ∈ rest -> p ∈ phases) as Hrest
      by (intros p Hp; apply Hall; by right).
    assert (phase ∈ phases) as Hp by (apply Hall; by left).
    assert (load_state
              (file (change_cover fromisoformat isoformat cfg e phase w).1)
            = Some (JStr phase) /\
            uploads (calls (change_cover fromisoformat isoformat cfg e phase w).1)
            = (uploads (calls w)
               + (if state_is (load_state (file w)) phase then 0 else 1))%nat)
      as [Hload Hcount].
    { destruct (state_is (load_state (file w)) phase) eqn:Hstate.
      - rewrite (change_cover_same cfg e phase w Hstate). simpl.
        split; [by apply state_is_true|lia].
      - destruct (change_cover_works cfg e phase w Hp Hsp Hstate)
          as (path & encoded & _ & _ & ->). simpl. split.
        + by apply load_state_save_state.
        + rewrite uploads_app. unfold uploads at 2. simpl. lia. }
    destruct (IH (change_cover fromisoformat isoformat cfg e phase w).1
                Hpt Hsp Hw Hrest) as [IHn IHs].
    rewrite IHn, IHs, Hcount, Hload. split; [lia|].
    destruct rest as [|q rest']; [reflexivity|].
    change (last (phase :: q :: rest')) with (last (q :: rest')).
    assert (is_Some (last (q :: rest'))) as [x ->] by by apply last_is_Some.
    reflexivity.
Qed.

(** X20. When the state cannot be saved (the file cannot be opened, or the
    write breaks off) and it did not name the phase to begin with, nothing
    remembers the upload: every further [change_cover] for that phase uploads
    again, n invocations making n uploads. *)
Theorem unsaved_state_repeats_upload cfg e phase n : forall w,
  phase ∈ phases -> spotify_works (e_spotify e) -> e_write e <> WriteOk ->
  state_is (load_state (file w)) phase = false ->
  uploads (calls (run_changes fromisoformat isoformat cfg e (replicate n phase) w))
    = (uploads (calls w) + n)%nat.
Proof.
  induction n as [|n IH]; intros w Hp Hsp Hw Hstate; simpl; [lia|].
  destruct (change_cover_works cfg e phase w Hp Hsp Hstate)
    as (path & encoded & _ & _ & ->). simpl.
  rewrite IH; try done.
  - simpl. rewrite uploads_app. unfold uploads at 2. simpl. lia.
  - simpl. unfold save_state.
    destruct (calculate_phase_times _ _ _ _); [|done].
    by destruct (e_write e).
Qed.

Lemma change_cover_valid_phase cfg e phase w :
  phase ∈ phases ->
  (change_cover fromisoformat isoformat cfg e phase w).2 = Ok tt.
Proof.
  intros Hp. unfold change_cover.
  destruct (from_option _ false (load_state (file w))); [done|].
  destruct (proj1 (get_image_path_ok cfg phase) Hp) as [path ->].
  by destruct (change_playlist_cover _ _ _ _) as [calls' []].
Qed.

(** X21. [change_cover] raises in one case only: the phase is none of the
    four names and the stored state does not name it either.  It then raises
    [ValueError] before anything is called or written.  Asked for a phase
    that the state file already names, it returns at once, even for a name
    that has no image. *)
Theorem change_cover_raises_only_on_unknown_phase cfg e phase w :
  ((change_cover fromisoformat isoformat cfg e phase w).2 = Ok tt \/
   (change_cover fromisoformat isoformat cfg e phase w).2 = Raise ValueError) /\
  ((change_cover fromisoformat isoformat cfg e phase w).2 = Raise ValueError <->
   (phase ∉ phases) /\ state_is (load_state (file w)) phase = false) /\
  ((change_cover fromisoformat isoformat cfg e phase w).2 = Raise ValueError ->
   (change_cover fromisoformat isoformat cfg e phase w).1 = w) /\
  (state_is (load_state (file w)) phase = true ->
   change_cover fromisoformat isoformat cfg e phase w = (w, Ok tt)).
Proof.
  destruct (decide (phase ∈ phases)) as [Hp|Hp].
  - pose proof (change_cover_valid_phase cfg e phase w Hp) as Hok.
    rewrite Hok. repeat split; try (by left); try done.
    + by intros [? _].
    + apply change_cover_same.
  - assert (get_image_path cfg phase = Raise ValueError) as Hpath.
    { destruct (get_image_path cfg phase) as [path|err] eqn:E.
      - destruct Hp. apply (get_image_path_ok cfg). eauto.
      - revert E. unfold get_image_path. repeat case_match; congruence. }
    unfold change_cover, state_is. rewrite Hpath.
    destruct (from_option _ false (load_state (file w))); simpl.
    + repeat split; try (by left); try done. by intros [_ ?].
    + repeat split; try (by right); try done.
Qed.


End FurtherCoverProperties.

(** ** The image helpers *)

Lemma resize_round_quality i : 70 <= (resize_round i).2 <= 95.
Proof.
  induction i as [|i IH]; simpl; [lia|].
  destruct (resize_round i) as [n q]. simpl in *.
  destruct (Z.ltb_spec (q - 5) 70); simpl; lia.
Qed.

Section ImageProperties.

Variable image : Type.
Variable b64encode : string -> string.

Lemma resize_loop_sound (lib : imaging image) max_size_kb fuel :
  forall img quality data,
    70 <= quality <= 95 ->
    resize_loop lib max_size_kb fuel img quality = Some (Ok data) ->
    fits max_size_kb (Z.of_nat (String.length data)) = true /\
    exists img' quality',
      image_save lib img' quality' = Ok data /\ 70 <= quality' <= 95.
Proof.
  induction fuel as [|fuel IH]; intros img quality data Hq H; simpl in H;
    [discriminate|].
  destruct (image_save lib img quality) as [d|] eqn:Hsave; [|discriminate].
  destruct (fits max_size_kb (Z.of_nat (String.length d))) eqn:Hfit.
  - simplify_eq. eauto.
  - destruct (Z.ltb_spec (quality - 5) 70).
    + destruct (image_shrink lib img) as [img'|]; [|discriminate].
      apply IH in H; [done|lia].
    + apply IH in H; [done|lia].
Qed.

(** X23. A file within the limit is handed back as read, without the imaging
    library being touched and without a single round of the loop.  Whatever
    goes wrong inside the imaging library is swallowed and the file is handed
    back as it is: [resize_image_if_needed] raises only when the size of the
    file cannot be taken or the file cannot be read. *)
Theorem resize_passes_small_files (lib : imaging image) fuel path max_size_kb :
  (forall size, getsize lib path = Ok size -> size <= 1024 * max_size_kb ->
     resize_image_if_needed lib fuel path max_size_kb
       = Some (read_file lib path)) /\
  (forall e, getsize lib path = Raise e ->
     resize_image_if_needed lib fuel path max_size_kb = Some (Raise e)) /\
  (forall e, resize_image_if_needed lib fuel path max_size_kb = Some (Raise e) ->
     getsize lib path = Raise e \/ read_file lib path = Raise e).
Proof.
  unfold resize_image_if_needed, fits. repeat split.
  - intros size -> Hsize. by destruct (Z.leb_spec size (1024 * max_size_kb)); [|lia].
  - by intros e ->.
  - intros e H. destruct (getsize lib path) as [size|]; [|left; congruence].
    right. repeat case_match; congruence.
Qed.


Lemma shrunk_step (lib : imaging image) n img img1 img2 :
  shrunk lib n img = Ok img1 -> shrunk lib (S n) img = Ok img2 ->
  image_shrink lib img1 = Ok img2.
Proof. simpl. by intros ->. Qed.

Lemma resize_loop_reaches (lib : imaging image) max_size_kb img data :
  forall m j img_j fuel,
    shrunk lib (resize_round j).1 img = Ok img_j ->
    (forall i, (j <= i < j + m)%nat ->
       exists d, round_data lib img i = Ok d /\
                 fits max_size_kb (Z.of_nat (String.length d)) = false) ->
    round_data lib img (j + m) = Ok data ->
    fits max_size_kb (Z.of_nat (String.length data)) = true ->
    (m < fuel)%nat ->
    resize_loop lib max_size_kb fuel img_j (resize_round j).2 = Some (Ok data).
Proof.
  induction m as [|m IH]; intros j img_j fuel Himg Hover Hlast Hfit Hfuel;
    (destruct fuel as [|fuel]; [lia|]); simpl.
  - rewrite Nat.add_0_r in Hlast. unfold round_data in Hlast.
    rewrite Himg in Hlast. simpl in Hlast. by rewrite Hlast, Hfit.
  - destruct (Hover j ltac:(lia)) as (d & Hd & Hdfit).
    unfold round_data in Hd. rewrite Himg in Hd. simpl in Hd.
    rewrite Hd, Hdfit.
    assert (exists img', shrunk lib (resize_round (S j)).1 img = Ok img')
      as [img' Himg'].
    { destruct m as [|m].
      - replace (j + 1)%nat with (S j) in Hlast by lia.
        unfold round_data in Hlast.
        destruct (shrunk lib (resize_round (S j)).1 img); [eauto|discriminate].
      - destruct (Hover (S j) ltac:(lia)) as (d' & Hd' & _).
        unfold round_data in Hd'.
        destruct (shrunk lib (resize_round (S j)).1 img); [eauto|discriminate]. }
    assert (forall i, (S j <= i < S j + m)%nat ->
       exists d, round_data lib img i = Ok d /\
                 fits max_size_kb (Z.of_nat (String.length d)) = false) as Hover'
      by (intros i Hi; apply Hover; lia).
    replace (j + S m)%nat with (S j + m)%nat in Hlast by lia.
    pose proof (IH (S j) img' fuel Himg' Hover' Hlast Hfit ltac:(lia)) as Hgo.
    revert Himg' Hgo. simpl.
    destruct (resize_round j) as [n q] eqn:Hround. simpl in *.
    destruct (Z.ltb_spec (q - 5) 70); simpl.
    + rewrite Himg. simpl. by intros ->.
    + rewrite Himg. by intros [= ->].
Qed.

(** X25. The rounds of the loop run through the qualities 95, 90, ..., 70
    on the image as opened, then 85, 80, 75, 70 on the image shrunk once, on
    the image shrunk twice, and so on, never below 70.  For a file over the
    limit that PIL opens, if the first round whose data keeps within the limit
    is round k, then [resize_image_if_needed] returns the data of that round
    as soon as it is given more than k rounds. *)
Theorem resize_returns_first_fit (lib : imaging image) path max_size_kb
    size img k data fuel :
  getsize lib path = Ok size -> 1024 * max_size_kb < size ->
  import_pil lib = Ok tt -> image_open lib path = Ok img ->
  (forall i, (i < k)%nat ->
     exists d, round_data lib img i = Ok d /\
               fits max_size_kb (Z.of_nat (String.length d)) = false) ->
  round_data lib img k = Ok data ->
  fits max_size_kb (Z.of_nat (String.length data)) = true ->
  (k < fuel)%nat ->
  resize_image_if_needed lib fuel path max_size_kb = Some (Ok data) /\
  (forall i, 70 <= (resize_round i).2 <= 95) /\
  (forall n, resize_round (6 + 4 * n) = (S n, 85)) /\
  resize_round 5 = (0%nat, 70).
Proof.
  intros Hsize Hbig Himport Hopen Hover Hlast Hfit Hfuel. split; [|split; [|split]].
  - unfold resize_image_if_needed. rewrite Hsize. unfold fits at 1.
    destruct (Z.leb_spec size (1024 * max_size_kb)); [lia|].
    rewrite Himport, Hopen.
    assert (resize_loop lib max_size_kb fuel img 95 = Some (Ok data)) as ->;
      [|done].
    apply (resize_loop_reaches lib max_size_kb img data k 0%nat img fuel);
      try done.
    intros i Hi. apply Hover. lia.
  - apply resize_round_quality.
  - induction n as [|n IH]; [reflexivity|].
    replace (6 + 4 * S n)%nat with (S (S (S (S (6 + 4 * n))))) by lia.
    cbn [resize_round]. rewrite IH. reflexivity.
  - reflexivity.
Qed.

End ImageProperties.

(** ** Jobs that fire *)

Section FurtherJobProperties.

Variable fromisoformat : string -> result datetime.
Variable isoformat : datetime -> string.

Lemma tomorrow_phase_times_total cfg clk reply tomorrow :
  wf_config cfg ->
  is_ok (calculate_phase_times fromisoformat cfg clk reply) = true ->
  exists tp,
    tomorrow_phase_times fromisoformat cfg clk reply tomorrow = Ok tp /\
    forall p, p ∈ phases -> is_Some (tp !! p).
Proof.
  intros Hwf Hok.
  destruct (DEBUG_MODE cfg && truthy (DEBUG_TIMES cfg)) eqn:Hmode.
  - apply andb_true_iff in Hmode as [Hdebug _].
    destruct (Hwf Hdebug) as (dt & Hdt & Hdom).
    rewrite (tomorrow_phase_times_override fromisoformat cfg clk reply tomorrow
               dt Hdebug Hdt (truthy_dom _ Hdom)).
    eexists. split; [reflexivity|]. intros p Hp. rewrite lookup_fmap.
    destruct (dom_phases_lookup dt Hdom p Hp) as [t ->]. simpl. eauto.
  - destruct (calculate_phase_times fromisoformat cfg clk reply) as [pt|] eqn:Hpt;
      [|discriminate].
    destruct (calculate_phase_times_solar_local fromisoformat cfg clk reply pt
                Hmode Hpt) as [Hdom _].
    rewrite (tomorrow_phase_times_solar fromisoformat cfg clk reply tomorrow pt
               Hmode Hpt).
    eexists. split; [reflexivity|].
    intros p Hp. rewrite lookup_fmap.
    destruct (dom_phases_lookup pt Hdom p Hp) as [t ->]. simpl. eauto.
Qed.

(** X26. A job that the scheduling functions file fails when it fires only
    if the phase times cannot be computed then.  A phase job calls
    [change_cover] with one of the four phase names, which does not raise
    whatever the remote service, Spotify and the file system do; the
    recomputation completes whenever today's phase times can be computed;
    and the table is well kept afterwards in every case. *)
Theorem filed_jobs_never_raise cfg e w jobs id j :
  wf_config cfg -> job_table_ok jobs -> jobs !! id = Some j ->
  (func j <> recalculate ->
   (run_job fromisoformat isoformat cfg e (func j) w jobs).2 = Ok tt) /\
  (is_ok (calculate_phase_times fromisoformat cfg (e_clock e) (e_reply e)) = true ->
   (run_job fromisoformat isoformat cfg e (func j) w jobs).2 = Ok tt) /\
  job_table_ok (run_job fromisoformat isoformat cfg e (func j) w jobs).1.2.
Proof.
  intros Hwf Hok Hj.
  destruct (Hok id j Hj) as [_ [[-> Hf]|[Hp Hf]]]; rewrite Hf; unfold run_job.
  - pose proof (job_table_ok_tomorrow fromisoformat cfg (e_clock e) (e_reply e)
                  jobs) as Hok'.
    split; [done|]. split.
    + intros Hpt.
      destruct (tomorrow_phase_times_total cfg (e_clock e) (e_reply e)
                  (date_of (get_now_with_tzinfo (e_clock e)) + 1) Hwf Hpt)
        as (tp & Htp & Hall).
      destruct (calculate_times_for_tomorrow_completes fromisoformat cfg
                  (e_clock e) (e_reply e) jobs tp Htp Hall) as [jobs' Hrun].
      by rewrite Hrun.
    + by destruct (calculate_times_for_tomorrow _ _ _ _ _) as [jobs' r].
  - pose proof (change_cover_valid_phase fromisoformat isoformat cfg e id w Hp)
      as Hrun.
    destruct (change_cover fromisoformat isoformat cfg e id w) as [w' r].
    by simpl in *.
Qed.

End FurtherJobProperties.

(** ** The further statements at the sample surroundings *)

Lemma override_times_dom clk t1 t2 t3 t4 :
  dom (override_times clk t1 t2 t3 t4) = list_to_set phases.
Proof.
  unfold override_times, phases.
  rewrite !dom_insert_L, dom_empty_L. simpl. set_solver.
Qed.

Lemma sample_override_times :
  DEBUG_TIMES (override_config noon "06:00,09:00,18:00,21:00")
    = Some (override_times noon (hours 6) (hours 9) (hours 18) (hours 21)).
Proof.
  unfold override_config. cbn [DEBUG_TIMES]. by rewrite parse_debug_sample.
Defined.

Lemma sample_override_mode :
  DEBUG_MODE (override_config noon "06:00,09:00,18:00,21:00") = true.
Proof.
  unfold override_config. cbn [DEBUG_MODE]. by rewrite parse_debug_sample.
Defined.

Lemma spotify_ok_works : spotify_works spotify_ok.
Proof.
  repeat split.
  - intros id. by eexists _, _.
  - intros path. by eexists.
Defined.

Lemma solar_config_wf : wf_config solar_config.
Proof. intros H. discriminate H. Defined.

Lemma noon_month : 1 <= now_month noon <= 12.
Proof. vm_compute. split; discriminate. Defined.

Lemma rejected_override_is_ignored_witness :
  DEBUG_TIMES rejected_config <> None /\
  get_current_phase no_parser rejected_config noon no_network
    = get_current_phase no_parser (without_override rejected_config) noon no_network.
Proof.
  split; [by vm_compute|].
  assert (DEBUG_MODE rejected_config = false) as Hmode by (vm_compute; reflexivity).
  exact (proj1 (proj2 (rejected_override_is_ignored no_parser rejected_config
                         Hmode noon no_network))).
Defined.

Lemma override_mode_ignores_sun_witness :
  calculate_phase_times no_parser
    (override_config noon "06:00,09:00,18:00,21:00") noon no_network
  = calculate_phase_times no_parser
      (override_config noon "06:00,09:00,18:00,21:00") noon london_reply.
Proof.
  assert (override_times noon (hours 6) (hours 9) (hours 18) (hours 21) <> ∅)
    as Hne.
  { intros H. apply (f_equal dom) in H.
    rewrite override_times_dom, dom_empty_L in H.
    assert ("morning" ∈ (∅ : gset string)) as Hin
      by (rewrite <- H; unfold phases; set_solver).
    set_solver. }
  exact (proj1 (override_mode_ignores_sun no_parser _ _ noon no_network london_reply _
                  sample_override_mode sample_override_times
                  sample_override_mode sample_override_times Hne)).
Defined.

Lemma june_schedule_lookups :
  june_schedule !! "morning" = Some june_sunrise /\
  june_schedule !! "day" = Some june_day_start /\
  june_schedule !! "evening" = Some june_evening_start /\
  june_schedule !! "night" = Some june_sunset.
Proof. repeat split; vm_compute; reflexivity. Defined.

Lemma get_current_phase_windows_witness :
  get_current_phase no_parser solar_config noon no_network = Ok "day".
Proof.
  destruct june_schedule_lookups as (Hm & Hd & He & Hn).
  destruct (get_current_phase_windows no_parser solar_config noon no_network
              june_schedule june_sunrise june_day_start june_evening_start
              june_sunset june_schedule_computed Hm Hd He Hn)
    as (_ & Hday & _).
  apply Hday. vm_compute. repeat split; discriminate.
Defined.

Lemma solar_phase_of_sun_witness :
  get_current_phase no_parser solar_config half_past_eight no_network
    = Ok "evening".
Proof.
  assert (get_sun_times no_parser solar_config half_past_eight no_network
          = Ok (june_sunrise, june_sunset)) as Hsun by (vm_compute; reflexivity).
  assert (timedelta_hours (MORNING_DURATION solar_config) = Ok (hours 3)) as Hmd
    by (vm_compute; reflexivity).
  assert (timedelta_hours (EVENING_DURATION solar_config) = Ok (hours 2)) as Hed
    by (vm_compute; reflexivity).
  destruct (solar_phase_of_sun no_parser solar_config half_past_eight no_network
              june_sunrise june_sunset (hours 3) (hours 2) eq_refl Hsun Hmd Hed)
    as (_ & _ & Hevening & _); try (vm_compute; discriminate).
  apply Hevening. vm_compute. split; [discriminate|reflexivity].
Defined.

Lemma sun_times_in_local_zone_witness :
  get_sun_times no_parser solar_config noon no_network
    = Ok (june_sunrise, june_sunset) /\
  tzinfo june_sunrise = Some (local_timezone noon) /\
  tzinfo june_sunset = Some (local_timezone noon).
Proof.
  split; [exact june_sun_times_computed|].
  destruct (proj1 (sun_times_in_local_zone no_parser solar_config noon no_network)
              june_sunrise june_sunset june_sun_times_computed)
    as (Hsr & Hss & _).
  split; assumption.
Defined.

Lemma get_sun_times_keeps_instants_witness :
  exists a b,
    get_sun_times london_parser solar_config noon london_reply = Ok (a, b) /\
    utc_instant b - utc_instant a
      = hours 16 + 36 * minute_us + 28 * second_us.
Proof.
  assert (timedelta_hours (TIME_OFFSET solar_config) = Ok (hours 1)) as Hoff
    by (vm_compute; reflexivity).
  destruct (get_sun_times_keeps_instants london_parser solar_config noon
              (JDict [ ("results",
                        JDict [ ("sunrise", JStr "2024-06-15T03:43:07+00:00");
                                ("sunset", JStr "2024-06-15T20:19:35+00:00") ]);
                       ("status", JStr "OK") ])
              (JStr "OK")
              (JDict [ ("sunrise", JStr "2024-06-15T03:43:07+00:00");
                       ("sunset", JStr "2024-06-15T20:19:35+00:00") ])
              (JStr "2024-06-15T03:43:07+00:00")
              (JStr "2024-06-15T20:19:35+00:00")
              "2024-06-15T03:43:07+00:00" "2024-06-15T20:19:35+00:00"
              (aware (739051 * day_us + hours 3 + 43 * minute_us + 7 * second_us) 0)
              (aware (739051 * day_us + hours 20 + 19 * minute_us + 35 * second_us) 0)
              (hours 1)
              eq_refl eq_refl eq_refl eq_refl eq_refl eq_refl eq_refl eq_refl
              eq_refl (ex_intro _ 0 eq_refl) (ex_intro _ 0 eq_refl) Hoff)
    as (a & b & Hsun & _ & _ & Hdist).
  { intros w [->| ->]; vm_compute; repeat split; reflexivity. }
  exists a, b. split; [exact Hsun|]. rewrite Hdist. vm_compute. reflexivity.
Defined.

Lemma scheduling_keeps_table_ok_witness :
  job_table_ok jobs_at_noon /\ (size jobs_after_midnight <= 5)%nat.
Proof.
  destruct (scheduling_keeps_table_ok no_parser
              (override_config noon "06:00,09:00,18:00,21:00") noon no_network
              june_schedule ∅) as [Hkeep _].
  destruct (Hkeep job_table_ok_empty) as (_ & Htoday & _).
  split; [exact Htoday|].
  exact (proj2 (proj2 (scheduling_keeps_table_ok no_parser
                         (override_config noon "06:00,09:00,18:00,21:00")
                         after_midnight no_network june_schedule jobs_at_noon))).
Defined.

Lemma solar_recomputation_schedules_all_witness :
  calculate_phase_times no_parser solar_config after_midnight no_network
    = Ok next_day_schedule /\
  exists jobs',
    calculate_times_for_tomorrow no_parser solar_config after_midnight
      no_network ∅ = (jobs', Ok tt) /\
    dom jobs' = list_to_set ("recalculate" :: phases).
Proof.
  assert (calculate_phase_times no_parser solar_config after_midnight no_network
          = Ok next_day_schedule) as Hpt by (vm_compute; reflexivity).
  split; [exact Hpt|].
  destruct (solar_recomputation_schedules_all no_parser solar_config
              after_midnight no_network ∅ next_day_schedule eq_refl Hpt)
    as (jobs' & Hrun & Hdom & _).
  exists jobs'. split; [exact Hrun|exact Hdom].
Defined.

Lemma override_recomputation_is_fixed_witness :
  exists jobs',
    calculate_times_for_tomorrow no_parser
      (override_config noon "06:00,09:00,18:00,21:00") three_days_later
      no_network jobs_at_noon = (jobs', Ok tt) /\
    dom jobs' = {["recalculate"]}.
Proof.
  destruct (override_recomputation_is_fixed no_parser
              (override_config noon "06:00,09:00,18:00,21:00") three_days_later
              no_network jobs_at_noon _ sample_override_mode
              sample_override_times (override_times_dom _ _ _ _ _))
    as (jobs' & Hrun & _ & Hpast).
  exists jobs'. split; [exact Hrun|]. apply Hpast.
  intros p t Hp. unfold override_times in Hp.
  repeat (apply lookup_insert_Some in Hp as [[_ <-]|[_ Hp]];
          [vm_compute; discriminate|]).
  by rewrite lookup_empty in Hp.
Defined.

Lemma startup_jobs_follow_current_phase_witness :
  exists jobs',
    schedule_today_changes no_parser solar_config noon no_network ∅
      = (jobs', Ok tt) /\
    is_Some (jobs' !! "evening") /\ ~ is_Some (jobs' !! "morning").
Proof.
  destruct june_schedule_lookups as (Hm & Hd & He & Hn).
  assert (schedule_of june_schedule june_sunrise june_day_start
            june_evening_start june_sunset) as Hs
    by (repeat split; vm_compute; reflexivity).
  assert (ordered june_sunrise june_day_start june_evening_start june_sunset)
    as Hord by (repeat split; vm_compute; discriminate).
  destruct (startup_jobs_follow_current_phase no_parser solar_config noon
              no_network june_schedule june_sunrise june_day_start
              june_evening_start june_sunset june_schedule_computed Hs Hord)
    as (jobs' & cur & r & Hrun & Hcur & Hr & _ & Hlater & _).
  assert (utc_instant june_sunrise <= utc_instant (get_now_with_tzinfo noon))
    as Hge by (vm_compute; discriminate).
  assert (cur = "day") as ->.
  { assert (get_current_phase no_parser solar_config noon no_network = Ok "day")
      as Hday by (vm_compute; reflexivity).
    congruence. }
  assert (r = 1%nat) as -> by (vm_compute in Hr; congruence).
  exists jobs'. split; [exact Hrun|]. split.
  - apply (Hlater Hge "evening" 2%nat eq_refl). lia.
  - intros H. apply (Hlater Hge "morning" 0%nat eq_refl) in H. lia.
Defined.

Lemma save_state_outcomes_witness :
  load_state (save_state no_parser no_format solar_config env_rejects "day"
                (Content (JDict [("phase", JStr "morning");
                                 ("timestamp", JStr "2024-06-15T05:30:00")])))
    = None.
Proof.
  rewrite (save_state_outcomes no_parser no_format solar_config env_rejects).
  vm_compute. reflexivity.
Defined.

Lemma day_is_phase : "day" ∈ phases.
Proof. unfold phases. repeat constructor. Defined.

Lemma change_cover_uploads_phase_image_witness :
  exists encoded,
    calls (change_cover no_parser no_format solar_config env_ok "day"
             fresh_world).1
      = [PlaylistCall "playlist"; UploadCall "playlist" encoded].
Proof.
  destruct (change_cover_uploads_phase_image no_parser no_format solar_config
              env_ok "day" fresh_world day_is_phase spotify_ok_works eq_refl)
    as (path & encoded & _ & Hrun & _).
  exists encoded. by rewrite Hrun.
Defined.

Lemma run_changes_uploads_witness :
  uploads (calls (run_changes no_parser no_format solar_config env_ok
                    ["morning"; "morning"; "day"; "evening"; "evening"; "night"]
                    fresh_world)) = 4%nat.
Proof.
  assert (forall p,
            p ∈ ["morning"; "morning"; "day"; "evening"; "evening"; "night"] ->
            p ∈ phases) as Hall.
  { unfold phases. intros p Hp.
    repeat (apply elem_of_cons in Hp as [->|Hp]; [repeat constructor|]).
    by apply elem_of_nil in Hp. }
  assert (is_ok (calculate_phase_times no_parser solar_config (e_clock env_ok)
                   (e_reply env_ok)) = true) as Hpt by (vm_compute; reflexivity).
  rewrite (proj1 (run_changes_uploads no_parser no_format solar_config env_ok
                    _ fresh_world Hpt spotify_ok_works eq_refl Hall)).
  reflexivity.
Defined.

Lemma unsaved_state_repeats_upload_witness :
  uploads (calls (run_changes no_parser no_format solar_config env_read_only
                    ["day"; "day"; "day"] fresh_world)) = 3%nat.
Proof.
  assert (e_write env_read_only <> WriteOk) as Hw by discriminate.
  exact (unsaved_state_repeats_upload no_parser no_format solar_config
           env_read_only "day" 3 fresh_world day_is_phase spotify_ok_works Hw
           eq_refl).
Defined.


Lemma resize_passes_small_files_witness :
  resize_image_if_needed toy_imaging 0 "images/day.jpg" 190
    = Some (Ok (blob 1500)).
Proof.
  apply (proj1 (resize_passes_small_files nat toy_imaging 0 "images/day.jpg" 190)
           1500 eq_refl).
  vm_compute. discriminate.
Defined.

Lemma toy_rounds_over :
  forall i, (i < 8)%nat ->
    exists d, round_data toy_imaging 15%nat i = Ok d /\
              fits 1 (Z.of_nat (String.length d)) = false.
Proof.
  intros i Hi.
  do 8 (destruct i as [|i]; [eexists; split; vm_compute; reflexivity|]).
  lia.
Defined.

Lemma resize_returns_first_fit_witness :
  resize_image_if_needed toy_imaging 9 "images/day.jpg" 1
    = Some (Ok (blob 975)).
Proof.
  apply (resize_returns_first_fit nat toy_imaging "images/day.jpg" 1 1500
           15%nat 8 (blob 975) 9 eq_refl); try reflexivity; try lia.
  exact toy_rounds_over.
Defined.


Lemma filed_jobs_never_raise_witness :
  (run_job no_parser no_format solar_config env_rejects
     (change_cover_job "evening") fresh_world
     (schedule_today_changes no_parser solar_config noon no_network ∅).1).2
  = Ok tt.
Proof.
  assert ((schedule_today_changes no_parser solar_config noon no_network ∅).1
            !! "evening"
          = Some (mk_job (change_cover_job "evening") june_evening_start 3600))
    as Hjob by (vm_compute; reflexivity).
  apply (proj1 (filed_jobs_never_raise no_parser no_format solar_config
                  env_rejects fresh_world _ "evening" _ solar_config_wf
                  (job_table_ok_today no_parser solar_config noon no_network ∅
                     job_table_ok_empty)
                  Hjob)).
  discriminate.
Defined.

Lemma calculate_times_for_tomorrow_table_witness :
  calculate_times_for_tomorrow no_parser
    (override_config noon "06:00,09:00,18:00,21:00")
    after_midnight no_network jobs_at_noon = (jobs_after_midnight, Ok tt) /\
  jobs_after_midnight !! "recalculate" =
    Some (mk_job recalculate (aware (739053 * day_us + hours 23) 0) 3600) /\
  jobs_after_midnight !! "stray" = None /\
  jobs_after_midnight !! "evening" =
    Some (mk_job (change_cover_job "evening")
            (aware (739052 * day_us + hours 18) 0) 3600).
Proof.
  assert (calculate_times_for_tomorrow no_parser
            (override_config noon "06:00,09:00,18:00,21:00")
            after_midnight no_network jobs_at_noon
          = (jobs_after_midnight, Ok tt)) as Hrun by (vm_compute; reflexivity).
  split; [exact Hrun|].
  destruct (proj2 (calculate_times_for_tomorrow_table no_parser
                     (override_config noon "06:00,09:00,18:00,21:00")
                     after_midnight no_network jobs_at_noon)
              jobs_after_midnight Hrun)
    as (Hrec & Hnone & _ & Hoverride).
  split; [|split].
  - rewrite Hrec. vm_compute. reflexivity.
  - apply Hnone.
    + discriminate.
    + unfold phases. intros Hin.
      repeat (apply elem_of_cons in Hin as [Hin|Hin]; [discriminate Hin|]).
      by apply elem_of_nil in Hin.
  - rewrite (Hoverride ltac:(vm_compute; reflexivity)
               (override_times noon (hours 6) (hours 9) (hours 18) (hours 21))
               "evening" (naive (739051 * day_us + hours 18))).
    + vm_compute. reflexivity.
    + apply sample_override_times.
    + unfold phases. repeat constructor.
    + vm_compute. reflexivity.
Defined.
